(** * Task Management API: authentication and token life cycle

    A shallow embedding of the authentication subsystem of the Express /
    Mongoose back end: [services/AuthService.js],
    [repositories/UserRepository.js] and [BaseRepository.js],
    [models/User.js], [middlewares/authMiddleware.js],
    [middlewares/roleMiddleware.js], [utils/ApiError.js] and
    [config/constants.js].

    Conventions of the embedding.
    - A JavaScript string is a [string] of code units in the Latin-1 range.
    - [null] and [undefined] are both [None].
    - An [async] function is a computation in the monad [M]: it reads and
      writes the MongoDB collection and either returns or throws.  A write
      made before a [throw] stays written: nothing is rolled back.
    - Each request is served at one instant [now] (milliseconds since the
      epoch), which it receives as an argument, as it receives the fresh
      ObjectId and the bcrypt salt drawn by the driver and the library.
    - The libraries [jsonwebtoken] and [bcryptjs] are modelled symbolically
      (modules [Jwt] and [Bcrypt]): signatures cannot be forged and hashes
      do not collide. *)

From Stdlib Require Import String Ascii List NArith ZArith Bool Lia.
Import ListNotations.
Local Open Scope string_scope.
Local Open Scope N_scope.

(* ------------------------------------------------------------------ *)
(** ** JavaScript strings *)

Module Js.

Definition code (c : ascii) : N := N_of_ascii c.

(** White space of [String.prototype.trim] and of the regular
    expression class [\s], in the Latin-1 range. *)
Definition isSpace (c : ascii) : bool :=
  let n := code c in
  ((9 <=? n) && (n <=? 13)) || (n =? 32) || (n =? 160).

(** [String.prototype.toLowerCase] on one code unit. *)
Definition lowerChar (c : ascii) : ascii :=
  let n := code c in
  if ((65 <=? n) && (n <=? 90))
     || ((192 <=? n) && (n <=? 222) && negb (n =? 215))
  then ascii_of_N (n + 32)
  else c.

Fixpoint toLowerCase (s : string) : string :=
  match s with
  | EmptyString => EmptyString
  | String c r => String (lowerChar c) (toLowerCase r)
  end.

Fixpoint trimStart (s : string) : string :=
  match s with
  | EmptyString => EmptyString
  | String c r => if isSpace c then trimStart r else s
  end.

Fixpoint rev (s : string) : string :=
  match s with
  | EmptyString => EmptyString
  | String c r => rev r ++ String c EmptyString
  end.

Definition trimEnd (s : string) : string := rev (trimStart (rev s)).

Definition trim (s : string) : string := trimEnd (trimStart s).

(** [s.startsWith(p)] *)
Fixpoint startsWith (s p : string) {struct p} : bool :=
  match p with
  | EmptyString => true
  | String a p' =>
      match s with
      | EmptyString => false
      | String b s' => Ascii.eqb b a && startsWith s' p'
      end
  end.

(** [s.split(sep)] for a separator of one character.  The result is
    never empty: the empty string splits into one empty segment. *)
Fixpoint split (sep : ascii) (s : string) : list string :=
  match s with
  | EmptyString => [EmptyString]
  | String c r =>
      if Ascii.eqb c sep then EmptyString :: split sep r
      else match split sep r with
           | h :: t => String c h :: t
           | [] => [String c EmptyString]
           end
  end.

Fixpoint all (p : ascii -> bool) (s : string) : bool :=
  match s with
  | EmptyString => true
  | String c r => p c && all p r
  end.

(** The first occurrence of [c] cuts the string in two. *)
Fixpoint cut (c : ascii) (s : string) : option (string * string) :=
  match s with
  | EmptyString => None
  | String d r =>
      if Ascii.eqb d c then Some (EmptyString, r)
      else match cut c r with
           | Some (a, b) => Some (String d a, b)
           | None => None
           end
  end.

(** Some [c] occurs in [s] with a character before it and one after. *)
Fixpoint innerChar (c : ascii) (s : string) : bool :=
  match s with
  | String _ (String d (String _ _) as u) =>
      Ascii.eqb d c || innerChar c u
  | _ => false
  end.

Definition noSpace (c : ascii) : bool := negb (Ascii.eqb c " ").

(** Truthiness of a string: only the empty string is falsy. *)
Definition truthy (s : string) : bool :=
  match s with EmptyString => false | _ => true end.

End Js.

(* ------------------------------------------------------------------ *)
(** ** Exceptions and the monad of asynchronous store operations *)

(** A place in the sources: a file and a line of it. *)
Record site : Type := mkSite {
  file : string;
  line : N
}.

(** The values thrown in this subsystem.  [ApiError] carries the fields its
    constructor sets ([utils/ApiError.js]) and the stack trace its
    constructor captures, of which the place of the [new ApiError]
    expression, the first frame, is kept: two errors built at different
    places have different stack traces. *)
Inductive exn : Type :=
| ApiError (statusCode : N) (message details : string)
           (isOperational : bool) (timestamp : N) (stack : site)
| JsonWebTokenError (message : string)
| TokenExpiredError
| TypeError (message : string)
| Error (message : string)
| ValidationError (messages : list string)
| MongoServerError (code : N)
| CastError (message : string).

(** [error.name]: [ApiError] extends [Error] and does not set a name. *)
Definition name (e : exn) : string :=
  match e with
  | ApiError _ _ _ _ _ _ => "Error"
  | JsonWebTokenError _ => "JsonWebTokenError"
  | TokenExpiredError => "TokenExpiredError"
  | TypeError _ => "TypeError"
  | Error _ => "Error"
  | ValidationError _ => "ValidationError"
  | MongoServerError _ => "MongoServerError"
  | CastError _ => "CastError"
  end.

Inductive result (A : Type) : Type :=
| Ok (a : A)
| Throw (e : exn).
Arguments Ok {A} a.
Arguments Throw {A} e.

Definition M (St A : Type) : Type := St -> result A * St.

Definition ret {St A} (a : A) : M St A := fun s => (Ok a, s).

Definition throw {St A} (e : exn) : M St A := fun s => (Throw e, s).

Definition bind {St A B} (m : M St A) (k : A -> M St B) : M St B :=
  fun s =>
    match m s with
    | (Ok a, s') => k a s'
    | (Throw e, s') => (Throw e, s')
    end.

(** [try { m } catch (error) { h error }] *)
Definition tryCatch {St A} (m : M St A) (h : exn -> M St A) : M St A :=
  fun s =>
    match m s with
    | (Ok a, s') => (Ok a, s')
    | (Throw e, s') => h e s'
    end.

(** A synchronous call that may throw, used inside an [async] body. *)
Definition lift {St A} (r : result A) : M St A := fun s => (r, s).

Declare Scope js_scope.
Delimit Scope js_scope with js.
Notation "x <- m ;; k" := (bind m (fun x => k))
  (at level 61, m at next level, right associativity) : js_scope.
Notation "m ;;; k" := (bind m (fun _ => k))
  (at level 61, right associativity) : js_scope.
Local Open Scope js_scope.

(* ------------------------------------------------------------------ *)
(** ** The library jsonwebtoken, symbolically

    A compact token is the serialisation of its payload, its two
    timestamps and the key that signed it: [verify] accepts a token only
    under the key it was signed with, so a signature cannot be forged
    and a token cannot be altered without notice.  The serialisation
    uses no space, as base64url does.  A failure of [verify] is a
    [JsonWebTokenError] or a [TokenExpiredError], the two classes the
    callers test for. *)

Module Jwt.

Record payload : Type := mkPayload {
  userId : string;
  email : option string;
  role : option string
}.

(** What [jwt.verify] returns: the payload with [iat] and [exp]
    (both in seconds). *)
Record decoded : Type := mkDecoded {
  body : payload;
  iat : N;
  exp : N
}.

Record jws : Type := mkJws {
  content : decoded;
  key : string
}.

(** *** Serialisation *)

Fixpoint enc_string (s : string) : string :=
  match s with
  | EmptyString => "."
  | String c r =>
      if Ascii.eqb c " " then String "_" (enc_string r)
      else String "=" (String c (enc_string r))
  end.

Fixpoint dec_string (s : string) : option (string * string) :=
  match s with
  | EmptyString => None
  | String t r =>
      if Ascii.eqb t "." then Some (EmptyString, r)
      else if Ascii.eqb t "_" then
        match dec_string r with
        | Some (x, rest) => Some (String " " x, rest)
        | None => None
        end
      else if Ascii.eqb t "=" then
        match r with
        | EmptyString => None
        | String c r' =>
            if Ascii.eqb c " " then None
            else match dec_string r' with
                 | Some (x, rest) => Some (String c x, rest)
                 | None => None
                 end
        end
      else None
  end.

Definition enc_option (o : option string) : string :=
  match o with
  | None => "?"
  | Some s => String "!" (enc_string s)
  end.

Definition dec_option (s : string) : option (option string * string) :=
  match s with
  | EmptyString => None
  | String t r =>
      if Ascii.eqb t "?" then Some (None, r)
      else if Ascii.eqb t "!" then
        match dec_string r with
        | Some (x, rest) => Some (Some x, rest)
        | None => None
        end
      else None
  end.

Fixpoint enc_pos (p : positive) : string :=
  match p with
  | xH => "."
  | xO q => String "0" (enc_pos q)
  | xI q => String "1" (enc_pos q)
  end.

Fixpoint dec_pos (s : string) : option (positive * string) :=
  match s with
  | EmptyString => None
  | String t r =>
      if Ascii.eqb t "." then Some (xH, r)
      else if Ascii.eqb t "0" then
        match dec_pos r with
        | Some (q, rest) => Some (xO q, rest)
        | None => None
        end
      else if Ascii.eqb t "1" then
        match dec_pos r with
        | Some (q, rest) => Some (xI q, rest)
        | None => None
        end
      else None
  end.

Definition enc_N (n : N) : string :=
  match n with
  | N0 => "z"
  | Npos p => String "p" (enc_pos p)
  end.

Definition dec_N (s : string) : option (N * string) :=
  match s with
  | EmptyString => None
  | String t r =>
      if Ascii.eqb t "z" then Some (N0, r)
      else if Ascii.eqb t "p" then
        match dec_pos r with
        | Some (q, rest) => Some (Npos q, rest)
        | None => None
        end
      else None
  end.

Definition encode (j : jws) : string :=
  let d := content j in
  let p := body d in
  enc_string (userId p) ++ enc_option (email p) ++ enc_option (role p)
    ++ enc_N (iat d) ++ enc_N (exp d) ++ enc_string (key j).

Definition decode (s : string) : option jws :=
  match dec_string s with
  | Some (u, s1) =>
    match dec_option s1 with
    | Some (e, s2) =>
      match dec_option s2 with
      | Some (r, s3) =>
        match dec_N s3 with
        | Some (i, s4) =>
          match dec_N s4 with
          | Some (x, s5) =>
            match dec_string s5 with
            | Some (k, EmptyString) =>
                Some (mkJws (mkDecoded (mkPayload u e r) i x) k)
            | _ => None
            end
          | None => None
          end
        | None => None
        end
      | None => None
      end
    | None => None
    end
  | None => None
  end.

(** *** The two calls the application makes *)

(** [jwt.sign(payload, secret, { expiresIn })] at instant [now];
    [expiresIn] is in seconds. *)
Definition sign (p : payload) (secret : option string) (expiresIn : N)
    (now : N) : result string :=
  match secret with
  | Some k =>
      if Js.truthy k then
        let t := now / 1000 in
        Ok (encode (mkJws (mkDecoded p t (t + expiresIn)) k))
      else Throw (Error "secretOrPrivateKey must have a value")
  | None => Throw (Error "secretOrPrivateKey must have a value")
  end.

(** [jwt.verify(token, secret)] at instant [now]; the token is
    [undefined] when the caller indexed past the end of an array. *)
Definition verify (token : option string) (secret : option string)
    (now : N) : result decoded :=
  match token with
  | None => Throw (JsonWebTokenError "jwt must be provided")
  | Some t =>
    if negb (Js.truthy t) then
      Throw (JsonWebTokenError "jwt must be provided")
    else
      match decode t with
      | None => Throw (JsonWebTokenError "jwt malformed")
      | Some j =>
        match secret with
        | None =>
            Throw (JsonWebTokenError "secret or public key must be provided")
        | Some k =>
          if negb (Js.truthy k) then
            Throw (JsonWebTokenError "secret or public key must be provided")
          else if negb (String.eqb (key j) k) then
            Throw (JsonWebTokenError "invalid signature")
          else if exp (content j) <=? now / 1000 then
            Throw TokenExpiredError
          else Ok (content j)
        end
      end
  end.

End Jwt.

(* ------------------------------------------------------------------ *)
(** ** The library bcryptjs, symbolically

    bcrypt keys its cipher with the UTF-8 bytes of the password followed
    by a zero byte, read cyclically, and reads 72 bytes of them: two
    passwords with the same 72 bytes are one password to it.  A digest
    remembers the cost, the salt and those 72 bytes; a stored password
    that no call of [hash] produced is [Raw], and nothing compares equal
    to it. *)

Module Bcrypt.

(** The UTF-8 encoding of a string of Latin-1 characters. *)
Fixpoint utf8 (s : string) : string :=
  match s with
  | EmptyString => EmptyString
  | String c r =>
      let n := Js.code c in
      if n <? 128 then String c (utf8 r)
      else String (ascii_of_N (192 + n / 64))
                  (String (ascii_of_N (128 + n mod 64)) (utf8 r))
  end.

(** The first [n] bytes of [rest] followed by [whole] over and over. *)
Fixpoint cycle (n : nat) (whole rest : string) : string :=
  match n with
  | O => EmptyString
  | S m =>
      match rest with
      | String b r => String b (cycle m whole r)
      | EmptyString =>
          match whole with
          | String b r => String b (cycle m whole r)
          | EmptyString => EmptyString
          end
      end
  end.

(** The 72 bytes of a password that bcrypt reads. *)
Definition key (password : string) : string :=
  let bytes := utf8 password ++ String zero EmptyString in
  cycle 72 bytes bytes.
Arguments key : simpl never.

Inductive digest : Type :=
| Hashed (rounds salt : N) (key : string)
| Raw (s : string).

(** [bcrypt.hash(plain, await bcrypt.genSalt(rounds))] *)
Definition hash (rounds salt : N) (plain : string) : digest :=
  Hashed rounds salt (key plain).

(** [bcrypt.compare(candidate, digest)] *)
Definition compare (candidate : string) (d : digest) : bool :=
  match d with
  | Hashed _ _ k => String.eqb (key candidate) k
  | Raw _ => false
  end.

End Bcrypt.

(* ------------------------------------------------------------------ *)
(** ** config/constants.js, utils/ApiError.js, process.env *)

Module Constants.

Module USER_ROLES.
Definition ADMIN : string := "admin".
Definition USER : string := "user".
End USER_ROLES.

Module ERROR_MESSAGES.
Definition UNAUTHORIZED : string := "Unauthorized access".
Definition FORBIDDEN : string := "Access forbidden".
Definition DUPLICATE_ENTRY : string := "Duplicate entry".
Definition INVALID_CREDENTIALS : string := "Invalid credentials".
Definition TOKEN_EXPIRED : string := "Token has expired".
Definition INVALID_TOKEN : string := "Invalid token".
End ERROR_MESSAGES.

Module SUCCESS_MESSAGES.
Definition LOGIN_SUCCESS : string := "Login successful".
Definition LOGOUT_SUCCESS : string := "Logout successful".
Definition REGISTER_SUCCESS : string := "Registration successful".
End SUCCESS_MESSAGES.

Module HTTP_STATUS.
Definition BAD_REQUEST : N := 400.
Definition UNAUTHORIZED : N := 401.
Definition CONFLICT : N := 409.
Definition UNPROCESSABLE_ENTITY : N := 422.
Definition INTERNAL_SERVER_ERROR : N := 500.
End HTTP_STATUS.

Module MORE_MESSAGES.
(** [ERROR_MESSAGES.NOT_FOUND], [SUCCESS_MESSAGES.UPDATED] and
    [SUCCESS_MESSAGES.DELETED] *)
Definition NOT_FOUND : string := "Resource not found".
Definition UPDATED : string := "Resource updated successfully".
Definition DELETED : string := "Resource deleted successfully".
End MORE_MESSAGES.

Module TASK_STATUS.
Definition PENDING : string := "pending".
Definition IN_PROGRESS : string := "in_progress".
Definition COMPLETED : string := "completed".
Definition CANCELLED : string := "cancelled".
End TASK_STATUS.

End Constants.

(** [new ApiError(statusCode, message, details)] written at the place
    [here] and run at instant [now]: [isOperational] takes its default
    [true], [details] defaults to the empty string at the call sites that
    omit it. *)
Definition newApiError (here : site) (now : N) (statusCode : N)
    (message details : string) : exn :=
  ApiError statusCode message details true now here.

(** The files in which an [ApiError] is built, with the line of the
    [new ApiError] expression; the file [services/UserService.js] holds
    the guards of [middlewares/roleMiddleware.js] from its line 167
    on. *)
Module Site.
Definition AuthService (line : N) : site :=
  mkSite "services/AuthService.js" line.
Definition UserService (line : N) : site :=
  mkSite "services/UserService.js" line.
Definition TaskService (line : N) : site :=
  mkSite "services/TaskService.js" line.
Definition authMiddleware (line : N) : site :=
  mkSite "middlewares/authMiddleware.js" line.
Definition roleMiddleware (line : N) : site :=
  mkSite "services/UserService.js" line.
Definition errorMiddleware (line : N) : site :=
  mkSite "middlewares/errorMiddleware.js" line.
End Site.

(** The variables of [process.env] this subsystem reads.  The two life
    times are held in seconds, as the library reads strings such as '7d'. *)
Record Env : Type := mkEnv {
  JWT_SECRET : option string;
  JWT_REFRESH_SECRET : option string;
  JWT_EXPIRES_IN : option N;
  JWT_REFRESH_EXPIRES_IN : option N;
  BCRYPT_ROUNDS : option N
}.

(** [x || d] on an optional number: [undefined], [NaN] and [0] give [d]. *)
Definition orDefault (x : option N) (d : N) : N :=
  match x with
  | Some n => if n =? 0 then d else n
  | None => d
  end.

Definition days (n : N) : N := n * 86400.

(* ------------------------------------------------------------------ *)
(** ** ObjectIds

    An id is written as the string [String(id)] gives: 24 hexadecimal
    digits, the letters in lower case.  The queries by id below compare
    such strings.  Mongoose casts the id of a filter to an ObjectId
    first: it throws CastError on a string it cannot cast, and a string
    of the same digits in upper case finds the document.  The queries
    below are exact for the ids of this form, which are those of the
    stored documents and of the tokens issued for them; a statement
    about an id that no stored document carries assumes the id to be
    [canonical]. *)
Module ObjectId.

Definition hexDigit (c : ascii) : bool :=
  let n := Js.code c in
  ((48 <=? n) && (n <=? 57)) || ((97 <=? n) && (n <=? 102)).

Definition canonical (id : string) : bool :=
  Nat.eqb (String.length id) 24 && Js.all hexDigit id.

End ObjectId.

(* ------------------------------------------------------------------ *)
(** ** models/User.js and the collection *)

Module User.

(** A user document.  A query that leaves out a [select: false] path
    returns the document with that path [None]. *)
Record t : Type := mk {
  _id : string;
  name : string;
  email : string;
  password : option Bcrypt.digest;
  role : string;
  isActive : bool;
  lastLogin : option N;
  refreshToken : option string;
  createdAt : N;
  updatedAt : N
}.

(** The collection, in insertion order. *)
Definition collection : Type := list t.

(** What a caller hands to [Model.create]: [name], [email] and
    [password] as strings, and the paths of the schema it may add. *)
Record data : Type := mkData {
  d_name : string;
  d_email : string;
  d_password : string;
  d_role : option string;
  d_isActive : option bool
}.

Definition setPassword (u : t) (p : option Bcrypt.digest) : t :=
  mk (_id u) (name u) (email u) p (role u) (isActive u) (lastLogin u)
     (refreshToken u) (createdAt u) (updatedAt u).

Definition setRefreshToken (u : t) (r : option string) : t :=
  mk (_id u) (name u) (email u) (password u) (role u) (isActive u)
     (lastLogin u) r (createdAt u) (updatedAt u).

Definition setLastLogin (u : t) (d : option N) : t :=
  mk (_id u) (name u) (email u) (password u) (role u) (isActive u)
     d (refreshToken u) (createdAt u) (updatedAt u).

Definition setIsActive (u : t) (b : bool) : t :=
  mk (_id u) (name u) (email u) (password u) (role u) b
     (lastLogin u) (refreshToken u) (createdAt u) (updatedAt u).

Definition setUpdatedAt (u : t) (d : N) : t :=
  mk (_id u) (name u) (email u) (password u) (role u) (isActive u)
     (lastLogin u) (refreshToken u) (createdAt u) d.

(** The default projection: [password] and [refreshToken] are declared
    [select: false]. *)
Definition selectDefault (u : t) : t :=
  setRefreshToken (setPassword u None) None.

(** [.select('+password')] *)
Definition selectWithPassword (u : t) : t := setRefreshToken u None.

(** *** Schema validation *)

(** [/^[^\s@]+@[^\s@]+\.[^\s@]+$/] *)
Definition plainChar (c : ascii) : bool :=
  negb (Js.isSpace c) && negb (Ascii.eqb c "@").

Definition matchEmail (s : string) : bool :=
  match Js.cut "@" s with
  | Some (loc, dom) =>
      Js.truthy loc && Js.all plainChar loc
      && Js.all plainChar dom && Js.innerChar "." dom
  | None => false
  end.

Definition len (s : string) : N := N.of_nat (String.length s).

Definition checkName (s : string) : list string :=
  if negb (Js.truthy s) then ["Name is required"]
  else if len s <? 2 then ["Name must be at least 2 characters"]
  else if 50 <? len s then ["Name cannot exceed 50 characters"]
  else [].

Definition checkEmail (s : string) : list string :=
  if negb (Js.truthy s) then ["Email is required"]
  else if negb (matchEmail s) then ["Please provide a valid email address"]
  else [].

Definition checkPassword (s : string) : list string :=
  if negb (Js.truthy s) then ["Password is required"]
  else if len s <? 8 then ["Password must be at least 8 characters"]
  else [].

Definition checkRole (s : string) : list string :=
  if String.eqb s Constants.USER_ROLES.ADMIN
     || String.eqb s Constants.USER_ROLES.USER then []
  else ["`" ++ s ++ "` is not a valid enum value for path `role`."].

(** *** Queries *)

Fixpoint find (p : t -> bool) (c : collection) : option t :=
  match c with
  | [] => None
  | u :: r => if p u then Some u else find p r
  end.

(** The setters of the path [email]: [lowercase] and [trim].  They run
    on a value that is stored and on a value a filter compares with. *)
Definition castEmail (e : string) : string := Js.trim (Js.toLowerCase e).

(** [Model.findOne({ email })] before projection: the filter is cast by
    the schema, which runs the setters of the path on it. *)
Definition findOne_email (e : string) : M collection (option t) :=
  fun c => (Ok (find (fun u => String.eqb (email u) (castEmail e)) c), c).

(** [Model.findById(id)] before projection, for an id in the form of
    [ObjectId.canonical] *)
Definition findById (id : string) : M collection (option t) :=
  fun c => (Ok (find (fun u => String.eqb (_id u) id) c), c).

(** The updates the repository sends to [findByIdAndUpdate]. *)
Inductive update : Type :=
| UpLastLogin (d : N)
| UpRefreshToken (r : option string)
| UpIsActive (b : bool).

Definition apply (up : update) (u : t) : t :=
  match up with
  | UpLastLogin d => setLastLogin u (Some d)
  | UpRefreshToken r => setRefreshToken u r
  | UpIsActive b => setIsActive u b
  end.

Fixpoint replace (id : string) (f : t -> t) (c : collection)
  : option t * collection :=
  match c with
  | [] => (None, [])
  | u :: r =>
      if String.eqb (_id u) id then (Some (f u), f u :: r)
      else let (o, r') := replace id f r in (o, u :: r')
  end.

(** [Model.findByIdAndUpdate(id, data, { new: true, runValidators: true })]
    at instant [now], for an id in the form of [ObjectId.canonical]: the
    schema has [timestamps], so [updatedAt] moves; the updated document
    comes back under the default projection. *)
Definition findByIdAndUpdate (id : string) (up : update) (now : N)
  : M collection (option t) :=
  fun c =>
    let (o, c') := replace id (fun u => setUpdatedAt (apply up u) now) c in
    (Ok (option_map selectDefault o), c').

(** [Model.create(data)] at instant [now], with the ObjectId [oid] and
    the salt [salt] drawn for this call.  Setters run first ([trim],
    [lowercase]), then defaults, then the validators, then the
    [pre('save')] hook that hashes the password; the insertion fails on
    the unique indexes of [_id] and [email].  The created document is
    returned whole. *)
Definition create (env : Env) (d : data) (now : N) (oid : string) (salt : N)
  : M collection t :=
  fun c =>
    let nm := Js.trim (d_name d) in
    let em := Js.trim (Js.toLowerCase (d_email d)) in
    let rl := match d_role d with
              | Some r => r
              | None => Constants.USER_ROLES.USER
              end in
    let act := match d_isActive d with Some b => b | None => true end in
    match (checkName nm ++ checkEmail em ++ checkPassword (d_password d)
           ++ checkRole rl)%list with
    | [] =>
        let rounds := orDefault (BCRYPT_ROUNDS env) 10 in
        let u := mk oid nm em
                    (Some (Bcrypt.hash rounds salt (d_password d)))
                    rl act None None now now in
        match find (fun v => String.eqb (_id v) oid
                             || String.eqb (email v) em) c with
        | Some _ => (Throw (MongoServerError 11000), c)
        | None => (Ok u, (c ++ [u])%list)
        end
    | errs => (Throw (ValidationError errs), c)
    end.

(** [userSchema.methods.comparePassword]: whatever [bcrypt.compare]
    throws (here: no password was selected) is replaced. *)
Definition comparePassword (u : t) (candidatePassword : string)
  : result bool :=
  match password u with
  | Some h => Ok (Bcrypt.compare candidatePassword h)
  | None => Throw (Error "Password comparison failed")
  end.

(** *** Further queries and writes of the model *)

Definition setName (u : t) (n : string) : t :=
  mk (_id u) n (email u) (password u) (role u) (isActive u) (lastLogin u)
     (refreshToken u) (createdAt u) (updatedAt u).

(** [Model.countDocuments(criteria)] *)
Definition countDocuments (criteria : t -> bool) : M collection Z :=
  fun c => (Ok (Z.of_nat (length (filter criteria c))), c).

(** What a cursor yields under [.skip(skip)] and [.limit(limit)]: the
    server refuses a negative skip with the error [badSkip]; the driver
    turns a negative limit into its absolute value; a limit or a skip of
    zero is none. *)
Definition window (badSkip : exn) (skip limit : Z) (l : list t)
  : result (list t) :=
  if (skip <? 0)%Z then Throw badSkip
  else
    let rest := skipn (Z.to_nat skip) l in
    Ok (if (limit =? 0)%Z then rest
        else firstn (Z.to_nat (Z.abs limit)) rest).

(** [Model.find(criteria)] with the skip and the limit the repository
    sets, before projection, in insertion order. *)
Definition findMany (badSkip : exn) (criteria : t -> bool) (skip limit : Z)
  : M collection (list t) :=
  fun c =>
    match window badSkip skip limit (filter criteria c) with
    | Ok l => (Ok l, c)
    | Throw e => (Throw e, c)
    end.

(** [user.save()] on a loaded document [u] whose [password] was just
    assigned [newPassword], at instant [now] with the salt [salt]: the
    validators run on the paths of the document, then the [pre('save')]
    hook hashes the modified password, then the modified paths are
    written to the stored document of that id, with [updatedAt]. *)
Definition savePassword (env : Env) (u : t) (newPassword : string) (now : N)
    (salt : N) : M collection unit :=
  fun c =>
    match (checkName (name u) ++ checkEmail (email u)
           ++ checkPassword newPassword ++ checkRole (role u))%list with
    | [] =>
        let rounds := orDefault (BCRYPT_ROUNDS env) 10 in
        let h := Bcrypt.hash rounds salt newPassword in
        match replace (_id u)
                (fun v => setUpdatedAt (setPassword v (Some h)) now) c with
        | (Some _, c') => (Ok tt, c')
        | (None, c') => (Throw (Error "No document found for query"), c')
        end
    | errs => (Throw (ValidationError errs), c)
    end.

(** [Model.findByIdAndUpdate(id, { name }, { new: true, runValidators:
    true })], for an id in the form of [ObjectId.canonical]: the setter
    trims the name and the validators of the path run before anything
    is written. *)
Definition findByIdAndUpdateName (id : string) (newName : string) (now : N)
  : M collection (option t) :=
  fun c =>
    let nm := Js.trim newName in
    match checkName nm with
    | [] =>
        let (o, c') := replace id (fun u => setUpdatedAt (setName u nm) now)
                               c in
        (Ok (option_map selectDefault o), c')
    | errs => (Throw (ValidationError errs), c)
    end.

(** [Model.findByIdAndUpdate(id, {}, ...)], for such an id: only the
    timestamp moves. *)
Definition findByIdAndTouch (id : string) (now : N)
  : M collection (option t) :=
  fun c =>
    let (o, c') := replace id (fun u => setUpdatedAt u now) c in
    (Ok (option_map selectDefault o), c').

End User.

(* ------------------------------------------------------------------ *)
(** ** The Express request, as far as the guards use it *)

Module Request.

(** [req.user], attached by [authenticate]. *)
Record identity : Type := mkIdentity {
  userId : string;
  email : string;
  role : string
}.

Record t : Type := mk {
  authorization : option string;   (* req.headers.authorization *)
  user : option identity           (* req.user *)
}.

Definition setUser (req : t) (i : identity) : t :=
  mk (authorization req) (Some i).

End Request.

(** A value a caller-supplied function may resolve to; an ObjectId is
    represented by its hexadecimal string. *)
Inductive jsval : Type :=
| JsNull
| JsUndefined
| JsString (s : string).

(** [v.toString()] *)
Definition toString (v : jsval) : result string :=
  match v with
  | JsNull =>
      Throw (TypeError "Cannot read properties of null (reading 'toString')")
  | JsUndefined =>
      Throw (TypeError
               "Cannot read properties of undefined (reading 'toString')")
  | JsString s => Ok s
  end.

(* ------------------------------------------------------------------ *)
(** ** Numbers and pages

    A count, a page number and a page size are integers; [parseInt]
    yields an integer or [NaN], which is [None].  The quotient
    [total / limit] is taken exactly, as it is in floating point for
    operands below 2^26. *)

(** [parseInt(x) || d]: [NaN] and [0] give [d]. *)
Definition orDefaultZ (x : option Z) (d : Z) : Z :=
  match x with
  | Some z => if (z =? 0)%Z then d else z
  | None => d
  end.

(** A number that may not be finite. *)
Inductive jsnum : Type :=
| Finite (z : Z)
| PlusInfinity
| MinusInfinity
| NaN.

(** [Math.ceil(total / limit)] *)
Definition ceilDiv (total limit : Z) : jsnum :=
  if (limit =? 0)%Z then
    if (total =? 0)%Z then NaN
    else if (0 <? total)%Z then PlusInfinity else MinusInfinity
  else Finite (- ((- total) / limit))%Z.

(** [page < x] *)
Definition ltNum (page : Z) (x : jsnum) : bool :=
  match x with
  | Finite z => (page <? z)%Z
  | PlusInfinity => true
  | MinusInfinity => false
  | NaN => false
  end.

Module Page.

Record pagination : Type := mkPagination {
  page : Z;
  limit : Z;
  total : Z;
  totalPages : jsnum;
  hasNext : bool;
  hasPrev : bool
}.

(** What [findWithPagination] returns. *)
Record t : Type := mk {
  data : list User.t;
  meta : pagination      (* the key [pagination] *)
}.

End Page.

(** utils/helpers.js, [calculatePagination(page, limit, total)] *)
Definition calculatePagination (page limit total : Z) : Page.pagination :=
  let totalPages := ceilDiv total limit in
  Page.mkPagination page limit total totalPages (ltNum page totalPages)
                    (1 <? page)%Z.

(** What [UserRepository.getStatistics] returns. *)
Module Stats.

Record t : Type := mk {
  total : Z;
  active : Z;
  inactive : Z;
  admins : Z;
  users : Z
}.

End Stats.

(* ------------------------------------------------------------------ *)
(** ** repositories/BaseRepository.js, repositories/UserRepository.js

    Every method is wrapped in [try { ... } catch (error) { throw error; }]
    (with a log line), which changes nothing and is left out here. *)

Module UserRepository.
Section WithEnv.

(** [process.env] *)
Variable env : Env.

Definition findByEmail (email : string) (includePassword : bool)
  : M User.collection (option User.t) :=
  q <- User.findOne_email (Js.toLowerCase email) ;;
  ret (option_map (if includePassword then User.selectWithPassword
                   else User.selectDefault) q).

Definition findById (id : string) : M User.collection (option User.t) :=
  q <- User.findById id ;;
  ret (option_map User.selectDefault q).

Definition create (data : User.data) (now : N) (oid : string) (salt : N)
  : M User.collection User.t :=
  User.create env data now oid salt.

Definition updateById (id : string) (data : User.update) (now : N)
  : M User.collection (option User.t) :=
  User.findByIdAndUpdate id data now.

Definition updateLastLogin (userId : string) (now : N)
  : M User.collection (option User.t) :=
  updateById userId (User.UpLastLogin now) now.

Definition updateRefreshToken (userId : string)
    (refreshToken : option string) (now : N)
  : M User.collection (option User.t) :=
  updateById userId (User.UpRefreshToken refreshToken) now.

Definition deactivateUser (userId : string) (now : N)
  : M User.collection (option User.t) :=
  updateById userId (User.UpIsActive false) now.

(** What the server answers to a negative skip. *)
Variable badSkip : exn.

Definition findByIdWithPassword (id : string)
  : M User.collection (option User.t) :=
  q <- User.findById id ;;
  ret (option_map User.selectWithPassword q).

(** [find(criteria, { skip, limit })]; the callers modelled here ask for
    no sort, so the documents come in insertion order. *)
Definition find (criteria : User.t -> bool) (skip limit : Z)
  : M User.collection (list User.t) :=
  l <- User.findMany badSkip criteria skip limit ;;
  ret (map User.selectDefault l).

Definition count (criteria : User.t -> bool) : M User.collection Z :=
  User.countDocuments criteria.

(** [exists(criteria)] *)
Definition exists_ (criteria : User.t -> bool) : M User.collection bool :=
  n <- count criteria ;;
  ret (0 <? n)%Z.

(** [findWithPagination(criteria, { page, limit })]; [Promise.all] runs
    the page query and the count, and fails if the page query does. *)
Definition findWithPagination (criteria : User.t -> bool)
    (page limit : option Z) : M User.collection Page.t :=
  let page := orDefaultZ page 1 in
  let limit := orDefaultZ limit 10 in
  let skip := ((page - 1) * limit)%Z in
  data <- find criteria skip limit ;;
  total <- count criteria ;;
  ret (Page.mk data
         (Page.mkPagination page limit total (ceilDiv total limit)
                            (page * limit <? total)%Z (1 <? page)%Z)).

(** [findActiveUsers()] with no options *)
Definition findActiveUsers : M User.collection (list User.t) :=
  find (fun u => User.isActive u) 0%Z 0%Z.

Definition activateUser (userId : string) (now : N)
  : M User.collection (option User.t) :=
  updateById userId (User.UpIsActive true) now.

(** [exists({ email })]: the filter is cast as in [findOne]. *)
Definition emailExists (email : string) : M User.collection bool :=
  exists_ (fun u => String.eqb (User.email u)
                               (User.castEmail (Js.toLowerCase email))).

Definition getStatistics : M User.collection Stats.t :=
  total <- count (fun _ => true) ;;
  active <- count (fun u => Bool.eqb (User.isActive u) true) ;;
  inactive <- count (fun u => Bool.eqb (User.isActive u) false) ;;
  admins <- count (fun u => String.eqb (User.role u) "admin") ;;
  users <- count (fun u => String.eqb (User.role u) "user") ;;
  ret (Stats.mk total active inactive admins users).

End WithEnv.
End UserRepository.

(* ------------------------------------------------------------------ *)
(** ** services/AuthService.js *)

(** What [register] and [login] return. *)
Module Session.

Record t : Type := mk {
  user : User.t;
  accessToken : string;
  refreshToken : string;
  message : string
}.

End Session.

Module AuthService.
Section WithEnv.

Variable env : Env.

Import Constants.

Definition generateAccessToken (user : User.t) (now : N) : result string :=
  Jwt.sign
    (Jwt.mkPayload (User._id user) (Some (User.email user))
                   (Some (User.role user)))
    (JWT_SECRET env)
    (match JWT_EXPIRES_IN env with Some n => n | None => days 7 end)
    now.

Definition generateRefreshToken (user : User.t) (now : N) : result string :=
  Jwt.sign
    (Jwt.mkPayload (User._id user) None None)
    (JWT_REFRESH_SECRET env)
    (match JWT_REFRESH_EXPIRES_IN env with Some n => n | None => days 30 end)
    now.

(** [user.toObject()] copies the document; the two [delete]s act on
    the copy. *)
Definition sanitizeUser (user : User.t) : User.t :=
  let userObj := user in
  let userObj := User.setPassword userObj None in
  let userObj := User.setRefreshToken userObj None in
  userObj.

Definition register (userData : User.data) (now : N) (oid : string)
    (salt : N) : M User.collection Session.t :=
  tryCatch
    (existingUser <-
       UserRepository.findByEmail (User.d_email userData) false ;;
     match existingUser with
     | Some _ =>
         throw (newApiError (Site.AuthService 31) now 409
                            ERROR_MESSAGES.DUPLICATE_ENTRY
                            "Email already registered")
     | None =>
         user <- UserRepository.create env userData now oid salt ;;
         accessToken <- lift (generateAccessToken user now) ;;
         refreshToken <- lift (generateRefreshToken user now) ;;
         UserRepository.updateRefreshToken (User._id user)
           (Some refreshToken) now ;;;
         UserRepository.updateLastLogin (User._id user) now ;;;
         ret (Session.mk (sanitizeUser user) accessToken refreshToken
                        SUCCESS_MESSAGES.REGISTER_SUCCESS)
     end)
    (fun error => throw error).

Definition login (email password : string) (now : N)
  : M User.collection Session.t :=
  tryCatch
    (user <- UserRepository.findByEmail email true ;;
     match user with
     | None =>
         throw (newApiError (Site.AuthService 73) now 401
                            ERROR_MESSAGES.INVALID_CREDENTIALS "")
     | Some user =>
         if negb (User.isActive user) then
           throw (newApiError (Site.AuthService 78) now 403
                              ERROR_MESSAGES.FORBIDDEN
                              "Account is deactivated")
         else
           isPasswordValid <- lift (User.comparePassword user password) ;;
           if negb isPasswordValid then
             throw (newApiError (Site.AuthService 85) now 401
                                ERROR_MESSAGES.INVALID_CREDENTIALS "")
           else
             accessToken <- lift (generateAccessToken user now) ;;
             refreshToken <- lift (generateRefreshToken user now) ;;
             UserRepository.updateRefreshToken (User._id user)
               (Some refreshToken) now ;;;
             UserRepository.updateLastLogin (User._id user) now ;;;
             ret (Session.mk (sanitizeUser user) accessToken refreshToken
                            SUCCESS_MESSAGES.LOGIN_SUCCESS)
     end)
    (fun error => throw error).

(** The [catch] clause that [refreshToken] and the [authenticate]
    middleware each write out, with its two [new ApiError] at the places
    [invalid] and [expired]. *)
Definition onJwtError {St A} (invalid expired : site) (now : N)
    (error : exn) : M St A :=
  if String.eqb (name error) "JsonWebTokenError" then
    throw (newApiError invalid now 401 ERROR_MESSAGES.INVALID_TOKEN "")
  else if String.eqb (name error) "TokenExpiredError" then
    throw (newApiError expired now 401 ERROR_MESSAGES.TOKEN_EXPIRED "")
  else throw error.

(** [refreshToken(refreshToken)] returns [{ accessToken }]. *)
Definition refreshToken (refreshToken : string) (now : N)
  : M User.collection string :=
  tryCatch
    (decoded <- lift (Jwt.verify (Some refreshToken)
                                 (JWT_REFRESH_SECRET env) now) ;;
     user <- UserRepository.findById (Jwt.userId (Jwt.body decoded)) ;;
     match user with
     | None =>
         throw (newApiError (Site.AuthService 126) now 401
                            ERROR_MESSAGES.INVALID_TOKEN "")
     | Some user =>
         if negb (User.isActive user) then
           throw (newApiError (Site.AuthService 126) now 401
                              ERROR_MESSAGES.INVALID_TOKEN "")
         else
           accessToken <- lift (generateAccessToken user now) ;;
           ret accessToken
     end)
    (onJwtError (Site.AuthService 139) (Site.AuthService 142) now).

(** [logout(userId)] returns [{ message }]. *)
Definition logout (userId : string) (now : N) : M User.collection string :=
  tryCatch
    (UserRepository.updateRefreshToken userId None now ;;;
     ret SUCCESS_MESSAGES.LOGOUT_SUCCESS)
    (fun error => throw error).

Definition verifyToken (token : string) (now : N) : result Jwt.decoded :=
  match Jwt.verify (Some token) (JWT_SECRET env) now with
  | Ok d => Ok d
  | Throw error =>
      if String.eqb (name error) "JsonWebTokenError" then
        Throw (newApiError (Site.AuthService 215) now 401
                           ERROR_MESSAGES.INVALID_TOKEN "")
      else if String.eqb (name error) "TokenExpiredError" then
        Throw (newApiError (Site.AuthService 218) now 401
                           ERROR_MESSAGES.TOKEN_EXPIRED "")
      else Throw error
  end.

End WithEnv.
End AuthService.

(* ------------------------------------------------------------------ *)
(** ** middlewares/authMiddleware.js

    [asyncHandler] passes what the handler throws to the error
    middleware; the handler is modelled by what it returns, the request
    it hands to [next()], or throws. *)

Module AuthMiddleware.
Section WithEnv.

Variable env : Env.

Import Constants.

(** [!authHeader || !authHeader.startsWith('Bearer ')] *)
Definition noBearer (authHeader : option string) : bool :=
  match authHeader with
  | None => true
  | Some h => negb (Js.truthy h) || negb (Js.startsWith h "Bearer ")
  end.

(** [authHeader.split(' ')[1]] *)
Definition bearerToken (authHeader : option string) : option string :=
  match authHeader with
  | None => None
  | Some h => nth_error (Js.split " " h) 1
  end.

Definition authenticate (req : Request.t) (now : N)
  : M User.collection Request.t :=
  let authHeader := Request.authorization req in
  if noBearer authHeader then
    throw (newApiError (Site.authMiddleware 18) now 401
                       ERROR_MESSAGES.UNAUTHORIZED "No token provided")
  else
    let token := bearerToken authHeader in
    tryCatch
      (decoded <- lift (Jwt.verify token (JWT_SECRET env) now) ;;
       user <- UserRepository.findById (Jwt.userId (Jwt.body decoded)) ;;
       match user with
       | None =>
           throw (newApiError (Site.authMiddleware 31) now 401
                              ERROR_MESSAGES.UNAUTHORIZED "User not found")
       | Some user =>
           if negb (User.isActive user) then
             throw (newApiError (Site.authMiddleware 35) now 403
                                ERROR_MESSAGES.FORBIDDEN
                                "Account is deactivated")
           else
             ret (Request.setUser req
                    (Request.mkIdentity (User._id user) (User.email user)
                                        (User.role user)))
       end)
      (AuthService.onJwtError (Site.authMiddleware 48)
                              (Site.authMiddleware 51) now).

(** [optionalAuth]: every failure is swallowed and the request goes on
    without an identity. *)
Definition optionalAuth (req : Request.t) (now : N)
  : M User.collection Request.t :=
  let authHeader := Request.authorization req in
  if noBearer authHeader then ret req
  else
    let token := bearerToken authHeader in
    tryCatch
      (decoded <- lift (Jwt.verify token (JWT_SECRET env) now) ;;
       user <- UserRepository.findById (Jwt.userId (Jwt.body decoded)) ;;
       match user with
       | Some user =>
           if User.isActive user then
             ret (Request.setUser req
                    (Request.mkIdentity (User._id user) (User.email user)
                                        (User.role user)))
           else ret req
       | None => ret req
       end)
      (fun _ => ret req).

End WithEnv.
End AuthMiddleware.

(* ------------------------------------------------------------------ *)
(** ** middlewares/roleMiddleware.js

    The guards return when they call [next()].  The owner resolver is the
    caller's: it runs on a state of its own choosing and may throw. *)

Module RoleMiddleware.

Import Constants.

Definition authorize {St} (allowedRoles : list string) (req : Request.t)
    (now : N) : M St unit :=
  match Request.user req with
  | None =>
      throw (newApiError (Site.roleMiddleware 178) now 401
                         ERROR_MESSAGES.UNAUTHORIZED "")
  | Some u =>
      if negb (existsb (String.eqb (Request.role u)) allowedRoles) then
        throw (newApiError (Site.roleMiddleware 182) now 403
                 ERROR_MESSAGES.FORBIDDEN
                 "You do not have permission to access this resource")
      else ret tt
  end.

Definition isAdmin {St} : Request.t -> N -> M St unit :=
  authorize [USER_ROLES.ADMIN].

Definition isUser {St} : Request.t -> N -> M St unit :=
  authorize [USER_ROLES.USER].

Definition isAdminOrOwner {St}
    (getResourceUserId : Request.t -> M St jsval)
    (req : Request.t) (now : N) : M St unit :=
  match Request.user req with
  | None =>
      throw (newApiError (Site.roleMiddleware 210) now 401
                         ERROR_MESSAGES.UNAUTHORIZED "")
  | Some u =>
      if String.eqb (Request.role u) USER_ROLES.ADMIN then ret tt
      else
        resourceUserId <- getResourceUserId req ;;
        mine <- lift (Ok (Request.userId u)) ;;
        theirs <- lift (toString resourceUserId) ;;
        if negb (String.eqb mine theirs) then
          throw (newApiError (Site.roleMiddleware 223) now 403
                   ERROR_MESSAGES.FORBIDDEN
                   "You can only access your own resources")
        else ret tt
  end.

End RoleMiddleware.

(* ------------------------------------------------------------------ *)
(** ** services/UserService.js *)

(** The body of a profile update: [name], and keys a caller may add. *)
Module Profile.

Record t : Type := mk {
  name : option string;
  email : option string;
  role : option string;
  isActive : option bool
}.

End Profile.

Module UserService.
Section WithEnv.

Variable env : Env.
Variable badSkip : exn.

Import Constants.

Definition getProfile (userId : string) (now : N)
  : M User.collection User.t :=
  tryCatch
    (user <- UserRepository.findById userId ;;
     match user with
     | None =>
         throw (newApiError (Site.UserService 29) now 404
                            MORE_MESSAGES.NOT_FOUND "User not found")
     | Some user => ret user
     end)
    (fun error => throw error).

(** [updateProfile] returns [{ user, message }].  Of [updateData] only
    the allowed field [name] goes into [filteredData]. *)
Definition updateProfile (userId : string) (updateData : Profile.t) (now : N)
  : M User.collection (User.t * string) :=
  tryCatch
    (let filteredData := Profile.name updateData in
     user <- match filteredData with
             | Some name => User.findByIdAndUpdateName userId name now
             | None => User.findByIdAndTouch userId now
             end ;;
     match user with
     | None =>
         throw (newApiError (Site.UserService 60) now 404
                            MORE_MESSAGES.NOT_FOUND "User not found")
     | Some user => ret (user, MORE_MESSAGES.UPDATED)
     end)
    (fun error => throw error).

(** [changePassword] returns [{ message }]. *)
Definition changePassword (userId currentPassword newPassword : string)
    (now : N) (salt : N) : M User.collection string :=
  tryCatch
    (user <- UserRepository.findByIdWithPassword userId ;;
     match user with
     | None =>
         throw (newApiError (Site.UserService 87) now 404
                            MORE_MESSAGES.NOT_FOUND "User not found")
     | Some user =>
         isPasswordValid <-
           lift (User.comparePassword user currentPassword) ;;
         if negb isPasswordValid then
           throw (newApiError (Site.UserService 94) now 401
                              ERROR_MESSAGES.INVALID_CREDENTIALS
                              "Current password is incorrect")
         else
           User.savePassword env user newPassword now salt ;;;
           ret "Password changed successfully"
     end)
    (fun error => throw error).

(** [deactivateAccount] returns [{ message }]. *)
Definition deactivateAccount (userId : string) (now : N)
  : M User.collection string :=
  tryCatch
    (user <- UserRepository.deactivateUser userId now ;;
     match user with
     | None =>
         throw (newApiError (Site.UserService 122) now 404
                            MORE_MESSAGES.NOT_FOUND "User not found")
     | Some _ => ret "Account deactivated successfully"
     end)
    (fun error => throw error).

Definition getAllUsers (page limit : option Z) : M User.collection Page.t :=
  tryCatch
    (UserRepository.findWithPagination badSkip (fun _ => true) page limit)
    (fun error => throw error).

Definition getUserStatistics : M User.collection Stats.t :=
  tryCatch UserRepository.getStatistics (fun error => throw error).

End WithEnv.
End UserService.

(* ------------------------------------------------------------------ *)
(** ** middlewares/errorMiddleware.js, utils/ApiError.js [toJSON] *)

Module ErrorMiddleware.

(** The body [toJSON] builds; the key [stack] is there in development
    mode only. *)
Record body : Type := mkBody {
  success : bool;
  statusCode : N;
  message : string;
  details : string;
  timestamp : N;
  stack : option site
}.

Section WithError.

(** [process.env.NODE_ENV === 'development'] *)
Variable development : bool.

(** Two fields of the driver's error object that [exn] does not carry:
    [Object.keys(error.keyPattern)] and [error.message]. *)
Variable keyPattern : list string.
Variable driverMessage : string.

(** [err.message] *)
Definition messageOf (err : exn) : string :=
  match err with
  | ApiError _ m _ _ _ _ => m
  | JsonWebTokenError m => m
  | TokenExpiredError => "jwt expired"
  | TypeError m => m
  | Error m => m
  | ValidationError _ => driverMessage
  | MongoServerError _ => driverMessage
  | CastError m => m
  end.

(** [array.join(', ')] *)
Fixpoint join (l : list string) : string :=
  match l with
  | [] => ""
  | [x] => x
  | x :: r => x ++ ", " ++ join r
  end.

(** [`${field} already exists`] with [field] the first key, or
    [undefined]. *)
Definition alreadyExists : string :=
  match keyPattern with
  | field :: _ => field ++ " already exists"
  | [] => "undefined already exists"
  end.

(** The fields of an [ApiError]. *)
Record apiError : Type := mkApiError {
  e_statusCode : N;
  e_message : string;
  e_details : string;
  e_isOperational : bool;
  e_timestamp : N;
  e_stack : site
}.

(** [new ApiError(statusCode, message, details)] at the line [line] of
    this file, run at [now] *)
Definition fresh (line : N) (now : N) (statusCode : N)
    (message details : string) : apiError :=
  mkApiError statusCode message details true now (Site.errorMiddleware line).

(** The [ApiError] the handler answers with: the error itself when it
    is one, a new one made at [now] otherwise. *)
Definition convert (err : exn) (now : N) : apiError :=
  match err with
  | ApiError statusCode message details isOperational timestamp stack =>
      mkApiError statusCode message details isOperational timestamp stack
  | ValidationError messages =>
      fresh 28 now Constants.HTTP_STATUS.UNPROCESSABLE_ENTITY
            "Validation Error" (join messages)
  | MongoServerError 11000 =>
      fresh 33 now Constants.HTTP_STATUS.CONFLICT "Duplicate Entry"
            alreadyExists
  | CastError _ =>
      fresh 41 now Constants.HTTP_STATUS.BAD_REQUEST "Invalid ID format" ""
  | JsonWebTokenError _ =>
      fresh 45 now Constants.HTTP_STATUS.UNAUTHORIZED "Invalid token" ""
  | TokenExpiredError =>
      fresh 48 now Constants.HTTP_STATUS.UNAUTHORIZED "Token expired" ""
  | _ =>
      fresh 52 now Constants.HTTP_STATUS.INTERNAL_SERVER_ERROR
            "Internal Server Error"
            (if development then messageOf err else "")
  end.

(** [error.toJSON()] *)
Definition toJSON (error : apiError) : body :=
  mkBody false (e_statusCode error) (e_message error) (e_details error)
         (e_timestamp error)
         (if development then Some (e_stack error) else None).

(** [errorHandler(err, req, res, next)] at instant [now]: the status
    and the body of the response. *)
Definition errorHandler (err : exn) (now : N) : N * body :=
  let error := convert err now in
  (e_statusCode error, toJSON error).

End WithError.
End ErrorMiddleware.

(* ------------------------------------------------------------------ *)
(** ** The error taxonomy

    The specification names the failures; the code throws [ApiError]
    values.  Each name below stands for the value thrown under that
    name: by [register] and [login] for the first two, which are thrown
    at one place each, and at the place [here] for the others, which
    are thrown at several. *)

Module Taxonomy.

Import Constants.

Definition DuplicateEmailError (now : N) : exn :=
  newApiError (Site.AuthService 31) now 409 ERROR_MESSAGES.DUPLICATE_ENTRY
              "Email already registered".

Definition AccountDeactivatedError (now : N) : exn :=
  newApiError (Site.AuthService 78) now 403 ERROR_MESSAGES.FORBIDDEN
              "Account is deactivated".

Definition InvalidCredentialsError (here : site) (now : N) : exn :=
  newApiError here now 401 ERROR_MESSAGES.INVALID_CREDENTIALS "".

Definition InvalidTokenError (here : site) (now : N) : exn :=
  newApiError here now 401 ERROR_MESSAGES.INVALID_TOKEN "".

Definition ExpiredTokenError (here : site) (now : N) : exn :=
  newApiError here now 401 ERROR_MESSAGES.TOKEN_EXPIRED "".

Definition UnauthorizedError (here : site) (now : N) (details : string)
  : exn :=
  newApiError here now 401 ERROR_MESSAGES.UNAUTHORIZED details.

Definition ForbiddenError (here : site) (now : N) (details : string) : exn :=
  newApiError here now 403 ERROR_MESSAGES.FORBIDDEN details.

(** What [toJSON] shows of an [ApiError] outside development mode,
    the timestamp apart. *)
Definition shape (e : exn) : option (N * string * string) :=
  match e with
  | ApiError statusCode message details _ _ _ =>
      Some (statusCode, message, details)
  | _ => None
  end.

End Taxonomy.

(** Selectors of the collection. *)
Definition byId (id : string) (u : User.t) : bool :=
  String.eqb (User._id u) id.

Definition byEmail (e : string) (u : User.t) : bool :=
  String.eqb (User.email u) e.

(** The collection with every stored refresh token erased. *)
Definition forgetRefreshTokens (c : User.collection) : User.collection :=
  map (fun u => User.setRefreshToken u None) c.

(** The writes of a successful [login] or [register] for the user [id]:
    the refresh token first, the last-login date after it. *)
Definition recordSession (id token : string) (now : N) (c : User.collection)
  : User.collection :=
  snd (User.replace id
         (fun u => User.setUpdatedAt (User.apply (User.UpLastLogin now) u) now)
         (snd (User.replace id
                 (fun u => User.setUpdatedAt
                             (User.apply (User.UpRefreshToken (Some token)) u)
                             now)
                 c))).

(** A configuration and a few documents to run the model on. *)
Module Sample.

Definition env : Env :=
  mkEnv (Some "access-secret") (Some "refresh-secret") None None None.

Definition alice : User.data :=
  User.mkData "Alice" "Alice@X.com" "Secret@123" None None.

Definition mallory : User.data :=
  User.mkData "Mallory" "mallory@x.com" "Secret@123" (Some "admin") None.

(** A deactivated account whose password is "Secret@123". *)
Definition bob : User.t :=
  User.mk "b0b" "Bob" "bob@x.com"
          (Some (Bcrypt.hash 10 3 "Secret@123")) "user" false None None
          1000 2000.

(** An active account whose password is "Secret@123". *)
Definition carol : User.t :=
  User.mk "ca401" "Carol" "carol@x.com"
          (Some (Bcrypt.hash 10 4 "Secret@123")) "user" true None None
          1000 1000.

(** The tokens [register] issues to [alice] at instant 1000, under the
    ObjectId "a11ce". *)
Definition aliceAccess : string :=
  "=a=1=1=c=e.!=a=l=i=c=e=@=x=.=c=o=m.!=u=s=e=r.p.p1000000101011100100.=a=c=c=e=s=s=-=s=e=c=r=e=t.".

Definition aliceRefresh : string :=
  "=a=1=1=c=e.??p.p100000001011000111100.=r=e=f=r=e=s=h=-=s=e=c=r=e=t.".

(** The document of [alice] after that registration. *)
Definition aliceStored : User.t :=
  User.mk "a11ce" "Alice" "alice@x.com"
          (Some (Bcrypt.hash 10 7 "Secret@123")) "user" true (Some 1000)
          (Some aliceRefresh) 1000 1000.

End Sample.

(** ** Auxiliary notions used in the statements *)

(** The role and the activity flag [Model.create] gives a document. *)
Definition roleOf (d : User.data) : string :=
  match User.d_role d with
  | Some r => r
  | None => Constants.USER_ROLES.USER
  end.

(** The document a successful [Model.create] inserts. *)
Definition created (env : Env) (d : User.data) (now : N) (oid : string)
    (salt : N) : User.t :=
  User.mk oid (Js.trim (User.d_name d))
          (Js.trim (Js.toLowerCase (User.d_email d)))
          (Some (Bcrypt.hash (orDefault (BCRYPT_ROUNDS env) 10) salt
                             (User.d_password d)))
          (roleOf d)
          (match User.d_isActive d with Some b => b | None => true end)
          None None now now.

(** The validators of the schema, on the values the setters leave. *)
Definition valid (d : User.data) : bool :=
  match (User.checkName (Js.trim (User.d_name d))
         ++ User.checkEmail (Js.trim (Js.toLowerCase (User.d_email d)))
         ++ User.checkPassword (User.d_password d)
         ++ User.checkRole (roleOf d))%list with
  | [] => true
  | _ => false
  end.

(** The same input with another [role] key. *)
Definition withRole (d : User.data) (r : option string) : User.data :=
  User.mkData (User.d_name d) (User.d_email d) (User.d_password d) r
              (User.d_isActive d).

(** The life time [generateRefreshToken] asks for, in seconds. *)
Definition refreshLifetime (env : Env) : N :=
  match JWT_REFRESH_EXPIRES_IN env with Some n => n | None => days 30 end.

(** The identity [authenticate] attaches for a stored user. *)
Definition identityOf (u : User.t) : Request.identity :=
  Request.mkIdentity (User._id u) (User.email u) (User.role u).

(** The life time [generateAccessToken] asks for, in seconds. *)
Definition accessLifetime (env : Env) : N :=
  match JWT_EXPIRES_IN env with Some n => n | None => days 7 end.

(** A document the schema accepts, with a hashed password and a
    lower-cased email. *)
Definition validDoc (u : User.t) : Prop :=
  User.password u <> None
  /\ Js.toLowerCase (User.email u) = User.email u
  /\ User.checkName (User.name u) = []
  /\ User.checkEmail (User.email u) = []
  /\ User.checkRole (User.role u) = [].

(** The invariant of the collection: no two documents share an id or an
    email, and every document is valid. *)
Definition wellFormed (c : User.collection) : Prop :=
  NoDup (map User._id c) /\ NoDup (map User.email c) /\ Forall validDoc c.

(** The collection with [f] applied to the documents of id [id]. *)
Definition amend (id : string) (f : User.t -> User.t) (c : User.collection)
  : User.collection :=
  map (fun u => if byId id u then f u else u) c.

(** The [n]-th page of [l], pages of [size] documents, from page 1. *)
Definition pageOf (n size : nat) (l : list User.t) : list User.t :=
  firstn size (skipn ((n - 1) * size) l).

(** Pages 1 to [n] of [l], one after the other. *)
Fixpoint pagesUpTo (n size : nat) (l : list User.t) : list User.t :=
  match n with
  | O => []
  | S m => pagesUpTo m size l ++ pageOf (S m) size l
  end.

(** What a session leaves on the document of its user: the refresh
    token, the last-login date and the update date. *)
Definition stamp (token : string) (now : N) (u : User.t) : User.t :=
  User.setUpdatedAt
    (User.setLastLogin (User.setRefreshToken u (Some token)) (Some now)) now.

(** A secret [jwt.sign] accepts. *)
Definition configured (secret : option string) : Prop :=
  exists k, secret = Some k /\ Js.truthy k = true.

(** What [jwt.sign] throws without a secret. *)
Definition noSecret : exn := Error "secretOrPrivateKey must have a value".

(** What [logout] leaves on the document of its user. *)
Definition loggedOut (now : N) (u : User.t) : User.t :=
  User.setUpdatedAt (User.setRefreshToken u None) now.

(** What the guards read of a document. *)
Definition guardView (u : User.t) : string * string * string * bool :=
  (User._id u, User.email u, User.role u, User.isActive u).

(** An access token that claims the role 'admin' for the sample user
    carol, whose stored role is 'user'. *)
Definition staleAdminToken : string :=
  Jwt.encode
    (Jwt.mkJws
       (Jwt.mkDecoded
          (Jwt.mkPayload "ca401" (Some "carol@x.com") (Some "admin"))
          1 604801)
       "access-secret").

(** Everything of a document but its name and its update date. *)
Definition frozen (u : User.t)
  : string * string * option Bcrypt.digest * string * bool * option N
    * option string * N :=
  (User._id u, User.email u, User.password u, User.role u, User.isActive u,
   User.lastLogin u, User.refreshToken u, User.createdAt u).


(** The number of documents matching [p]. *)
Definition countOf (p : User.t -> bool) (c : User.collection) : Z :=
  Z.of_nat (length (filter p c)).

(** What [changePassword] leaves on the document of its user. *)
Definition rehashed (env : Env) (salt : N) (newPassword : string) (now : N)
    (u : User.t) : User.t :=
  User.setUpdatedAt
    (User.setPassword u
       (Some (Bcrypt.hash (orDefault (BCRYPT_ROUNDS env) 10) salt
                          newPassword)))
    now.

(** What [deactivateUser] leaves on the document of its user. *)
Definition deactivated (now : N) (u : User.t) : User.t :=
  User.setUpdatedAt (User.setIsActive u false) now.

(** What [activateUser] leaves on the document of its user. *)
Definition activated (now : N) (u : User.t) : User.t :=
  User.setUpdatedAt (User.setIsActive u true) now.

(** Everything of a document but its activity flag and its update
    date. *)
Definition besidesActivity (u : User.t)
  : string * string * string * option Bcrypt.digest * string * option N
    * option string * N :=
  (User._id u, User.name u, User.email u, User.password u, User.role u,
   User.lastLogin u, User.refreshToken u, User.createdAt u).

(** What a client collects that asks [getAllUsers] for the pages 1 to
    [n], one after the other, with the same [limit]. *)
Fixpoint browse (badSkip : exn) (limit : option Z) (n : nat)
    (c : User.collection) : list User.t :=
  match n with
  | O => []
  | S m =>
      browse badSkip limit m c
      ++ match fst (UserService.getAllUsers badSkip (Some (Z.of_nat (S m)))
                                            limit c) with
         | Ok r => Page.data r
         | Throw _ => []
         end
  end.

(* ================================================================== *)
(** * Tasks *)

(** models/Task.js: the stored document.  Ids are ObjectIds, written as
    their hexadecimal strings; dates are instants in milliseconds. *)
Module Task.

Record t : Type := mk {
  _id : string;
  title : string;
  description : option string;
  status : string;
  priority : string;
  dueDate : option N;
  completedAt : option N;
  user : string;
  tags : list string;
  isDeleted : bool;
  createdAt : N;
  updatedAt : N
}.

(** The collection, in insertion order. *)
Definition collection : Type := list t.

Definition setIsDeleted (x : t) (b : bool) : t :=
  mk (_id x) (title x) (description x) (status x) (priority x) (dueDate x)
     (completedAt x) (user x) (tags x) b (createdAt x) (updatedAt x).

Definition setUpdatedAt (x : t) (d : N) : t :=
  mk (_id x) (title x) (description x) (status x) (priority x) (dueDate x)
     (completedAt x) (user x) (tags x) (isDeleted x) (createdAt x) d.

(** What a query returns of a document: [isDeleted] is declared
    [select: false]. *)
Record doc : Type := mkDoc {
  d_id : string;
  d_title : string;
  d_description : option string;
  d_status : string;
  d_priority : string;
  d_dueDate : option N;
  d_completedAt : option N;
  d_user : string;
  d_tags : list string;
  d_createdAt : N;
  d_updatedAt : N
}.

Definition select (x : t) : doc :=
  mkDoc (_id x) (title x) (description x) (status x) (priority x)
        (dueDate x) (completedAt x) (user x) (tags x) (createdAt x)
        (updatedAt x).

(** [Model.findOne(criteria)] *)
Definition findOne (criteria : t -> bool) : M collection (option doc) :=
  fun c => (Ok (option_map select (List.find criteria c)), c).

(** [Model.find(criteria)] with no option, in insertion order. *)
Definition findMany (criteria : t -> bool) : M collection (list doc) :=
  fun c => (Ok (map select (filter criteria c)), c).

(** [Model.countDocuments(criteria)] *)
Definition countDocuments (criteria : t -> bool) : M collection Z :=
  fun c => (Ok (Z.of_nat (length (filter criteria c))), c).

(** The first document matching [criteria] replaced by its image under
    [f]; the new document, if there is one, and the new collection. *)
Fixpoint replaceFirst (criteria : t -> bool) (f : t -> t) (c : collection)
  : option t * collection :=
  match c with
  | [] => (None, [])
  | x :: r =>
      if criteria x then (Some (f x), f x :: r)
      else let (o, r') := replaceFirst criteria f r in (o, x :: r')
  end.

(** [Model.findOneAndUpdate(criteria, { isDeleted }, { new: true })] at
    instant [now]; the schema has [timestamps]. *)
Definition findOneAndSetIsDeleted (criteria : t -> bool) (b : bool) (now : N)
  : M collection (option doc) :=
  fun c =>
    let (o, c') :=
      replaceFirst criteria (fun x => setUpdatedAt (setIsDeleted x b) now) c
    in (Ok (option_map select o), c').

End Task.

(** What [TaskRepository.getStatistics] returns. *)
Module TaskStats.

Record byStatus : Type := mkByStatus {
  pending : Z;
  inProgress : Z;
  completed : Z;
  cancelled : Z
}.

Record t : Type := mk {
  total : Z;
  statuses : byStatus;    (* the key [byStatus] *)
  overdue : Z
}.

End TaskStats.

(** repositories/TaskRepository.js *)
Module TaskRepository.

Import Constants.

(** [{ user: userId, isDeleted: false }], for an id in the form of
    [ObjectId.canonical] *)
Definition ofUser (userId : string) (x : Task.t) : bool :=
  String.eqb (Task.user x) userId && Bool.eqb (Task.isDeleted x) false.

(** [{ _id: taskId, user: userId, isDeleted: false }], for ids in that
    form *)
Definition ofIdAndUser (taskId userId : string) (x : Task.t) : bool :=
  String.eqb (Task._id x) taskId && ofUser userId x.

(** [{ status: status }] *)
Definition hasStatus (status : string) (x : Task.t) : bool :=
  String.eqb (Task.status x) status.

(** [{ status: { $ne: COMPLETED }, dueDate: { $lt: now } }]: a document
    with no due date does not match. *)
Definition late (now : N) (x : Task.t) : bool :=
  negb (String.eqb (Task.status x) TASK_STATUS.COMPLETED)
  && match Task.dueDate x with
     | Some d => d <? now
     | None => false
     end.

(** [BaseRepository.findOne] with no option *)
Definition findOne (criteria : Task.t -> bool)
  : M Task.collection (option Task.doc) :=
  tryCatch (Task.findOne criteria) (fun error => throw error).

(** [BaseRepository.find] with no option *)
Definition find (criteria : Task.t -> bool)
  : M Task.collection (list Task.doc) :=
  tryCatch (Task.findMany criteria) (fun error => throw error).

(** [BaseRepository.count] *)
Definition count (criteria : Task.t -> bool) : M Task.collection Z :=
  tryCatch (Task.countDocuments criteria) (fun error => throw error).

Definition findByUser (userId : string)
  : M Task.collection (list Task.doc) :=
  tryCatch (find (ofUser userId)) (fun error => throw error).

Definition findByIdAndUser (taskId userId : string)
  : M Task.collection (option Task.doc) :=
  tryCatch (findOne (ofIdAndUser taskId userId)) (fun error => throw error).

Definition findOverdueTasks (userId : string) (now : N)
  : M Task.collection (list Task.doc) :=
  tryCatch (find (fun x => ofUser userId x && late now x))
           (fun error => throw error).

(** [updateOne(criteria, { isDeleted: true })] *)
Definition softDelete (taskId userId : string) (now : N)
  : M Task.collection (option Task.doc) :=
  tryCatch
    (tryCatch
       (Task.findOneAndSetIsDeleted (ofIdAndUser taskId userId) true now)
       (fun error => throw error))
    (fun error => throw error).

Definition getStatistics (userId : string) (now : N)
  : M Task.collection TaskStats.t :=
  tryCatch
    (total <- count (ofUser userId) ;;
     pending <- count (fun x => ofUser userId x
                                && hasStatus TASK_STATUS.PENDING x) ;;
     inProgress <- count (fun x => ofUser userId x
                                   && hasStatus TASK_STATUS.IN_PROGRESS x) ;;
     completed <- count (fun x => ofUser userId x
                                  && hasStatus TASK_STATUS.COMPLETED x) ;;
     cancelled <- count (fun x => ofUser userId x
                                  && hasStatus TASK_STATUS.CANCELLED x) ;;
     overdue <- count (fun x => ofUser userId x && late now x) ;;
     ret (TaskStats.mk total
            (TaskStats.mkByStatus pending inProgress completed cancelled)
            overdue))
    (fun error => throw error).

End TaskRepository.

(** services/TaskService.js *)
Module TaskService.

Import Constants.

Definition getTaskById (taskId userId : string) (now : N)
  : M Task.collection Task.doc :=
  tryCatch
    (task <- TaskRepository.findByIdAndUser taskId userId ;;
     match task with
     | None =>
         throw (newApiError (Site.TaskService 106) now 404
                            MORE_MESSAGES.NOT_FOUND "Task not found")
     | Some task => ret task
     end)
    (fun error => throw error).

Definition deleteTask (taskId userId : string) (now : N)
  : M Task.collection string :=
  tryCatch
    (task <- TaskRepository.softDelete taskId userId now ;;
     match task with
     | None =>
         throw (newApiError (Site.TaskService 158) now 404
                            MORE_MESSAGES.NOT_FOUND "Task not found")
     | Some _ => ret MORE_MESSAGES.DELETED
     end)
    (fun error => throw error).

Definition getTaskStatistics (userId : string) (now : N)
  : M Task.collection TaskStats.t :=
  tryCatch (TaskRepository.getStatistics userId now)
           (fun error => throw error).

Definition getOverdueTasks (userId : string) (now : N)
  : M Task.collection (list Task.doc) :=
  tryCatch (TaskRepository.findOverdueTasks userId now)
           (fun error => throw error).

End TaskService.

(** A stored status is one of the four of the schema's [enum]. *)
Definition knownStatus (x : Task.t) : Prop :=
  In (Task.status x)
     [Constants.TASK_STATUS.PENDING; Constants.TASK_STATUS.IN_PROGRESS;
      Constants.TASK_STATUS.COMPLETED; Constants.TASK_STATUS.CANCELLED].

(** The tasks of the other users. *)
Definition foreign (userId : string) (x : Task.t) : bool :=
  negb (String.eqb (Task.user x) userId).

(** The tasks of a user that are not deleted, but the one of id
    [taskId]. *)
Definition ofUserBut (userId taskId : string) (x : Task.t) : bool :=
  TaskRepository.ofUser userId x && negb (String.eqb (Task._id x) taskId).

(** What [softDelete] leaves on the task it deletes. *)
Definition discarded (now : N) (x : Task.t) : Task.t :=
  Task.setUpdatedAt (Task.setIsDeleted x true) now.

(** Everything of a task but its deletion flag and its update date. *)
Definition besidesDeletion (x : Task.t)
  : string * string * option string * string * string * option N
    * option N * string * list string * N :=
  (Task._id x, Task.title x, Task.description x, Task.status x,
   Task.priority x, Task.dueDate x, Task.completedAt x, Task.user x,
   Task.tags x, Task.createdAt x).

Module SampleTasks.

Definition report : Task.t :=
  Task.mk "t1" "Write report" None "pending" "medium" (Some 5000) None
          "ca401" [] false 1000 1000.

Definition review : Task.t :=
  Task.mk "t2" "Review budget" (Some "Q3") "completed" "high" (Some 2000)
          (Some 1900) "ca401" ["finance"] false 1100 1900.

Definition audit : Task.t :=
  Task.mk "t3" "Audit access" None "in_progress" "urgent" (Some 3000) None
          "bo301" [] false 1200 1200.

Definition store : Task.collection := [report; review; audit].

End SampleTasks.

(** Documents whose ids are written as ObjectIds are. *)
Module SampleHex.

Definition carolId : string := "650000000000000000000ca1".
Definition bobId : string := "650000000000000000000b0b".
Definition absentId : string := "650000000000000000000da7".

Definition carol : User.t :=
  User.mk carolId "Carol" "carol@x.com"
          (Some (Bcrypt.hash 10 4 "Secret@123")) "user" true None None
          1000 2000.

Definition report : Task.t :=
  Task.mk "660000000000000000000001" "Write report" None "pending" "medium"
          (Some 5000) None carolId [] false 1000 1000.

Definition review : Task.t :=
  Task.mk "660000000000000000000002" "Review budget" (Some "Q3") "completed"
          "high" (Some 2000) (Some 1900) carolId ["finance"] false 1100 1900.

Definition audit : Task.t :=
  Task.mk "660000000000000000000003" "Audit access" None "in_progress"
          "urgent" (Some 3000) None bobId [] false 1200 1200.

Definition tasks : Task.collection := [report; review; audit].

End SampleHex.

(* ================================================================== *)
(** * Properties *)

(** ** The monad *)

Ltac unfold_m := unfold tryCatch, bind, ret, throw, lift in *.

Lemma tryCatch_rethrow {St A} (m : M St A) (s : St) :
  tryCatch m (fun error => throw error) s = m s.
Proof.
  unfold_m. destruct (m s) as [[a|e] s']; reflexivity.
Qed.

(** ** Strings *)

Lemma all_app (p : ascii -> bool) (a b : string) :
  Js.all p (a ++ b) = Js.all p a && Js.all p b.
Proof.
  induction a as [|c a IH]; simpl.
  - reflexivity.
  - rewrite IH. apply andb_assoc.
Qed.

Lemma split_noSpace (t : string) :
  Js.all Js.noSpace t = true -> Js.split " " t = [t].
Proof.
  induction t as [|c t IH]; simpl; intro H.
  - reflexivity.
  - apply andb_true_iff in H. destruct H as [Hc Ht].
    unfold Js.noSpace in Hc. apply negb_true_iff in Hc.
    rewrite Hc, (IH Ht). reflexivity.
Qed.

Lemma split_bearer (t : string) :
  Js.all Js.noSpace t = true ->
  nth_error (Js.split " " ("Bearer " ++ t)) 1 = Some t.
Proof.
  intro H. simpl. rewrite (split_noSpace t H). reflexivity.
Qed.

Lemma startsWith_truthy (h p : string) :
  Js.truthy p = true -> Js.startsWith h p = true -> Js.truthy h = true.
Proof.
  destruct h, p; simpl; intros; try reflexivity; discriminate.
Qed.

(** ** The serialisation of tokens *)

Module JwtFacts.

Import Jwt.

Lemma dec_string_enc (s r : string) :
  dec_string (enc_string s ++ r) = Some (s, r).
Proof.
  induction s as [|c s IH]; simpl.
  - reflexivity.
  - destruct (Ascii.eqb c " ") eqn:E; simpl.
    + apply Ascii.eqb_eq in E. subst c. rewrite IH. reflexivity.
    + rewrite E, IH. reflexivity.
Qed.

Lemma dec_option_enc (o : option string) (r : string) :
  dec_option (enc_option o ++ r) = Some (o, r).
Proof.
  destruct o as [s|]; simpl.
  - rewrite dec_string_enc. reflexivity.
  - reflexivity.
Qed.

Lemma dec_pos_enc (p : positive) (r : string) :
  dec_pos (enc_pos p ++ r) = Some (p, r).
Proof.
  induction p as [q IH|q IH|]; simpl; try rewrite IH; reflexivity.
Qed.

Lemma dec_N_enc (n : N) (r : string) :
  dec_N (enc_N n ++ r) = Some (n, r).
Proof.
  destruct n as [|p]; simpl.
  - reflexivity.
  - rewrite dec_pos_enc. reflexivity.
Qed.

Lemma app_empty (a : string) : (a ++ "" = a)%string.
Proof.
  induction a as [|x a IH]; simpl; [reflexivity | now rewrite IH].
Qed.

(** Decoding is the inverse of encoding. *)
Lemma decode_encode (j : jws) : decode (encode j) = Some j.
Proof.
  destruct j as [[[u e r] i x] k]. unfold decode, encode; simpl.
  rewrite dec_string_enc, dec_option_enc, dec_option_enc,
    dec_N_enc, dec_N_enc.
  rewrite <- (app_empty (enc_string k)), dec_string_enc.
  reflexivity.
Qed.

Lemma enc_string_noSpace (s : string) :
  Js.all Js.noSpace (enc_string s) = true.
Proof.
  induction s as [|c s IH]; simpl.
  - reflexivity.
  - destruct (Ascii.eqb c " ") eqn:E; simpl.
    + exact IH.
    + unfold Js.noSpace at 1. rewrite E. exact IH.
Qed.

Lemma enc_option_noSpace (o : option string) :
  Js.all Js.noSpace (enc_option o) = true.
Proof.
  destruct o; simpl; [apply enc_string_noSpace | reflexivity].
Qed.

Lemma enc_pos_noSpace (p : positive) : Js.all Js.noSpace (enc_pos p) = true.
Proof.
  induction p; simpl; auto.
Qed.

Lemma enc_N_noSpace (n : N) : Js.all Js.noSpace (enc_N n) = true.
Proof.
  destruct n; simpl; [reflexivity | apply enc_pos_noSpace].
Qed.

(** A token holds no space, so it is one segment of the header. *)
Lemma encode_noSpace (j : jws) : Js.all Js.noSpace (encode j) = true.
Proof.
  unfold encode. rewrite !all_app.
  rewrite !enc_string_noSpace, !enc_option_noSpace, !enc_N_noSpace.
  reflexivity.
Qed.

Lemma enc_string_truthy (s r : string) :
  Js.truthy (enc_string s ++ r) = true.
Proof.
  destruct s as [|c s]; simpl; [reflexivity|].
  destruct (Ascii.eqb c " "); reflexivity.
Qed.

Lemma encode_truthy (j : jws) : Js.truthy (encode j) = true.
Proof.
  unfold encode. apply enc_string_truthy.
Qed.

(** [sign] succeeds exactly under a non-empty secret. *)
Lemma sign_inv (p : payload) (secret : option string) (d now : N)
    (tok : string) :
  sign p secret d now = Ok tok ->
  exists k, secret = Some k /\ Js.truthy k = true /\
    tok = encode (mkJws (mkDecoded p (now / 1000) (now / 1000 + d)) k).
Proof.
  unfold sign. destruct secret as [k|]; [|discriminate].
  destruct (Js.truthy k) eqn:E; [|discriminate].
  intro H. injection H as <-. exists k. auto.
Qed.

Lemma sign_ok (p : payload) (k : string) (d now : N) :
  Js.truthy k = true ->
  sign p (Some k) d now
  = Ok (encode (mkJws (mkDecoded p (now / 1000) (now / 1000 + d)) k)).
Proof.
  intro H. unfold sign. rewrite H. reflexivity.
Qed.

(** What [verify] answers on a token that [sign] made. *)
Lemma verify_encode (j : jws) (secret : option string) (now : N) :
  verify (Some (encode j)) secret now =
  match secret with
  | None =>
      Throw (JsonWebTokenError "secret or public key must be provided")
  | Some k =>
      if negb (Js.truthy k) then
        Throw (JsonWebTokenError "secret or public key must be provided")
      else if negb (String.eqb (key j) k) then
        Throw (JsonWebTokenError "invalid signature")
      else if exp (content j) <=? now / 1000 then Throw TokenExpiredError
      else Ok (content j)
  end.
Proof.
  unfold verify. rewrite encode_truthy, decode_encode. reflexivity.
Qed.


End JwtFacts.

(** ** Lower case and white space *)

Lemma lowerChar_idem (c : ascii) :
  Js.lowerChar (Js.lowerChar c) = Js.lowerChar c.
Proof.
  destruct c as [[] [] [] [] [] [] [] []]; vm_compute; reflexivity.
Qed.

Lemma isSpace_lowerChar (c : ascii) :
  Js.isSpace (Js.lowerChar c) = Js.isSpace c.
Proof.
  destruct c as [[] [] [] [] [] [] [] []]; vm_compute; reflexivity.
Qed.

Lemma toLowerCase_idem (s : string) :
  Js.toLowerCase (Js.toLowerCase s) = Js.toLowerCase s.
Proof.
  induction s as [|c s IH]; simpl; [reflexivity|].
  now rewrite lowerChar_idem, IH.
Qed.

Lemma toLowerCase_app (a b : string) :
  Js.toLowerCase (a ++ b) = (Js.toLowerCase a ++ Js.toLowerCase b)%string.
Proof.
  induction a as [|c a IH]; simpl; [reflexivity|]. now rewrite IH.
Qed.

Lemma toLowerCase_rev (s : string) :
  Js.toLowerCase (Js.rev s) = Js.rev (Js.toLowerCase s).
Proof.
  induction s as [|c s IH]; simpl; [reflexivity|].
  now rewrite toLowerCase_app, IH.
Qed.

Lemma toLowerCase_trimStart (s : string) :
  Js.toLowerCase (Js.trimStart s) = Js.trimStart (Js.toLowerCase s).
Proof.
  induction s as [|c s IH]; simpl; [reflexivity|].
  rewrite isSpace_lowerChar. destruct (Js.isSpace c); [exact IH|reflexivity].
Qed.

(** Lower-casing and trimming commute. *)
Lemma toLowerCase_trim (s : string) :
  Js.toLowerCase (Js.trim s) = Js.trim (Js.toLowerCase s).
Proof.
  unfold Js.trim, Js.trimEnd.
  now rewrite toLowerCase_rev, toLowerCase_trimStart, toLowerCase_rev,
    toLowerCase_trimStart.
Qed.

(** The email [create] stores is its own lower case. *)
Lemma stored_email_lower (e : string) :
  Js.toLowerCase (Js.trim (Js.toLowerCase e)) = Js.trim (Js.toLowerCase e).
Proof.
  now rewrite toLowerCase_trim, toLowerCase_idem.
Qed.

Lemma rev_app (a b : string) :
  Js.rev (a ++ b) = (Js.rev b ++ Js.rev a)%string.
Proof.
  induction a as [|c a IH]; simpl.
  - now rewrite JwtFacts.app_empty.
  - rewrite IH. clear. induction (Js.rev b) as [|d r IH]; simpl;
      [reflexivity|now rewrite IH].
Qed.

Lemma rev_involutive (s : string) : Js.rev (Js.rev s) = s.
Proof.
  induction s as [|c s IH]; simpl; [reflexivity|].
  now rewrite rev_app, IH.
Qed.

Lemma all_rev (p : ascii -> bool) (s : string) :
  Js.all p (Js.rev s) = Js.all p s.
Proof.
  induction s as [|c s IH]; simpl; [reflexivity|].
  rewrite all_app, IH. simpl. rewrite andb_true_r. apply andb_comm.
Qed.

Lemma trimStart_idem (s : string) :
  Js.trimStart (Js.trimStart s) = Js.trimStart s.
Proof.
  induction s as [|c s IH]; simpl; [reflexivity|].
  destruct (Js.isSpace c) eqn:E; [exact IH|]. simpl. now rewrite E.
Qed.

Lemma trimStart_snoc (s : string) (c : ascii) :
  Js.isSpace c = false ->
  Js.trimStart (s ++ String c EmptyString)
  = (Js.trimStart s ++ String c EmptyString)%string.
Proof.
  intro H. induction s as [|d s IH]; simpl; [now rewrite H|].
  destruct (Js.isSpace d); [exact IH|reflexivity].
Qed.

(** Trimming the end keeps a start that is not white space. *)
Lemma trimStart_trimEnd (s : string) :
  Js.trimStart (Js.trimEnd (Js.trimStart s)) = Js.trimEnd (Js.trimStart s).
Proof.
  induction s as [|c s IH]; simpl; [reflexivity|].
  destruct (Js.isSpace c) eqn:E; [exact IH|].
  unfold Js.trimEnd. simpl. rewrite trimStart_snoc by exact E.
  rewrite rev_app. simpl. now rewrite E.
Qed.

(** [trim] is idempotent. *)
Lemma trim_idem (s : string) : Js.trim (Js.trim s) = Js.trim s.
Proof.
  unfold Js.trim. rewrite trimStart_trimEnd.
  unfold Js.trimEnd. now rewrite rev_involutive, trimStart_idem.
Qed.

(** A string with no white space is its own trimming. *)
Lemma trim_all (s : string) :
  Js.all (fun c => negb (Js.isSpace c)) s = true -> Js.trim s = s.
Proof.
  intro H.
  assert (T : forall x, Js.all (fun c => negb (Js.isSpace c)) x = true ->
                        Js.trimStart x = x).
  { intros [|c x]; simpl; [reflexivity|]. intro K.
    apply andb_prop in K. destruct K as [K _].
    apply negb_true_iff in K. now rewrite K. }
  unfold Js.trim, Js.trimEnd. rewrite (T s H).
  rewrite T by (now rewrite all_rev). apply rev_involutive.
Qed.

(** The setters of the path [email] change nothing on a value they
    made, and see no difference between a string and its lower case. *)
Lemma castEmail_idem (e : string) :
  User.castEmail (User.castEmail e) = User.castEmail e.
Proof.
  unfold User.castEmail. now rewrite stored_email_lower, trim_idem.
Qed.

Lemma castEmail_lower (e : string) :
  User.castEmail (Js.toLowerCase e) = User.castEmail e.
Proof.
  unfold User.castEmail. now rewrite toLowerCase_idem.
Qed.

(** A stored email is trimmed: when it is the lower case of an input, it
    is that input as the schema casts it. *)
Lemma castEmail_stored (stored e : string) :
  Js.trim stored = stored ->
  stored = Js.toLowerCase e ->
  stored = User.castEmail e.
Proof.
  intros T L. unfold User.castEmail. rewrite <- L. symmetry. exact T.
Qed.

Lemma cut_app (c : ascii) (s a b : string) :
  Js.cut c s = Some (a, b) -> s = (a ++ String c b)%string.
Proof.
  revert a b. induction s as [|d s IH]; simpl; [discriminate|].
  intros a b. destruct (Ascii.eqb_spec d c) as [->|_].
  - intro H. injection H as <- <-. reflexivity.
  - destruct (Js.cut c s) as [[x y]|]; [|discriminate].
    intro H. injection H as <- <-. simpl. now rewrite (IH x y eq_refl).
Qed.

(** An email the schema accepts has no white space at its ends. *)
Lemma matchEmail_trim (s : string) :
  User.matchEmail s = true -> Js.trim s = s.
Proof.
  unfold User.matchEmail. destruct (Js.cut "@" s) as [[loc dom]|] eqn:E;
    [|discriminate].
  intro H. apply andb_prop in H. destruct H as [H _].
  apply andb_prop in H. destruct H as [H Hd].
  apply andb_prop in H. destruct H as [_ Hl].
  apply trim_all. rewrite (cut_app _ _ _ _ E), all_app. simpl.
  assert (P : forall x, Js.all User.plainChar x = true ->
                        Js.all (fun c => negb (Js.isSpace c)) x = true).
  { induction x as [|c x IH]; simpl; [reflexivity|]. intro K.
    apply andb_prop in K. destruct K as [K1 K2]. unfold User.plainChar in K1.
    apply andb_prop in K1. destruct K1 as [K1 _]. now rewrite K1, IH. }
  now rewrite (P loc Hl), (P dom Hd).
Qed.


(** ** The collection *)

Module StoreFacts.

Import User.

Lemma find_Some (p : t -> bool) (c : collection) (u : t) :
  find p c = Some u -> In u c /\ p u = true.
Proof.
  induction c as [|v c IH]; simpl; [discriminate|].
  destruct (p v) eqn:E.
  - intro H. injection H as <-. auto.
  - intro H. destruct (IH H). auto.
Qed.

Lemma In_find (p : t -> bool) (c : collection) (u : t) :
  In u c -> p u = true -> exists v, find p c = Some v.
Proof.
  induction c as [|v c IH]; simpl; [tauto|].
  intros [->|Hin] Hp.
  - rewrite Hp. eauto.
  - destruct (p v); eauto.
Qed.

Lemma find_app (p : t -> bool) (c d : collection) :
  find p (c ++ d)%list =
  match find p c with Some u => Some u | None => find p d end.
Proof.
  induction c as [|v c IH]; simpl; [reflexivity|].
  destruct (p v); auto.
Qed.

(** After an update by id, the first document of that id is the
    updated one; the documents of other ids are as they were. *)
Lemma find_replace (id id' : string) (f : t -> t) (c : collection) :
  (forall u, _id (f u) = _id u) ->
  find (byId id') (snd (replace id f c)) =
  if String.eqb id' id then option_map f (find (byId id) c)
  else find (byId id') c.
Proof.
  intro Hf. induction c as [|v c IH]; simpl.
  - destruct (String.eqb id' id); reflexivity.
  - unfold byId at 2 4. destruct (String.eqb (_id v) id) eqn:E; simpl.
    + apply String.eqb_eq in E. unfold byId at 1. rewrite Hf, E.
      rewrite (String.eqb_sym id id').
      destruct (String.eqb id' id) eqn:E'; [reflexivity|].
      unfold byId at 1. reflexivity.
    + destruct (replace id f c) as [o c'] eqn:R. simpl in *.
      unfold byId at 1.
      destruct (String.eqb (_id v) id') eqn:E'.
      * apply String.eqb_eq in E'. subst id'. rewrite E. reflexivity.
      * exact IH.
Qed.

(** Erasing the stored refresh tokens changes no default read. *)
Lemma find_forget (id : string) (c d : collection) :
  forgetRefreshTokens c = forgetRefreshTokens d ->
  option_map selectDefault (find (byId id) c)
  = option_map selectDefault (find (byId id) d).
Proof.
  revert d. induction c as [|u c IH]; intros [|v d];
    unfold forgetRefreshTokens; cbn [map find option_map];
    try discriminate; [reflexivity|].
  intro H.
  remember (setRefreshToken u None) as a eqn:Ea.
  remember (setRefreshToken v None) as b eqn:Eb.
  injection H as Huv Hcd. subst a b.
  assert (Hid : _id u = _id v)
    by (destruct u, v; unfold setRefreshToken in Huv; simpl in *;
        congruence).
  assert (Hsel : selectDefault u = selectDefault v)
    by (destruct u, v; unfold selectDefault, setRefreshToken, setPassword
          in *; simpl in *; congruence).
  unfold byId at 1 3. rewrite Hid.
  destruct (String.eqb (_id v) id); simpl.
  - now rewrite Hsel.
  - apply IH, Hcd.
Qed.

End StoreFacts.

(** ** Session manager: login *)

Lemma update_snd (id : string) (up : User.update) (now : N)
    (c : User.collection) :
  snd (UserRepository.updateById id up now c)
  = snd (User.replace id (fun u => User.setUpdatedAt (User.apply up u) now) c).
Proof.
  unfold UserRepository.updateById, User.findByIdAndUpdate.
  destruct (User.replace _ _ c). reflexivity.
Qed.

Lemma update_fst_Ok (id : string) (up : User.update) (now : N)
    (c : User.collection) :
  exists o, fst (UserRepository.updateById id up now c) = Ok o.
Proof.
  unfold UserRepository.updateById, User.findByIdAndUpdate.
  destruct (User.replace _ _ c). simpl. eauto.
Qed.

(** The two writes that end [login] and [register] never throw. *)
Lemma writes_eq {A} (id token : string) (now : N) (a : A)
    (c : User.collection) :
  (UserRepository.updateRefreshToken id (Some token) now ;;;
   UserRepository.updateLastLogin id now ;;;
   ret a) c
  = (Ok a, recordSession id token now c).
Proof.
  unfold bind, ret, UserRepository.updateRefreshToken,
    UserRepository.updateLastLogin, recordSession.
  destruct (update_fst_Ok id (User.UpRefreshToken (Some token)) now c)
    as [o1 H1].
  pose proof (update_snd id (User.UpRefreshToken (Some token)) now c) as S1.
  destruct (UserRepository.updateById id (User.UpRefreshToken (Some token))
              now c) as [r1 c1].
  simpl in H1, S1. subst r1 c1.
  set (c1 := snd (User.replace id _ c)).
  destruct (update_fst_Ok id (User.UpLastLogin now) now c1) as [o2 H2].
  pose proof (update_snd id (User.UpLastLogin now) now c1) as S2.
  destruct (UserRepository.updateById id (User.UpLastLogin now) now c1)
    as [r2 c2].
  simpl in H2, S2. subst r2 c2. reflexivity.
Qed.

(** [login], branch by branch. *)
Lemma login_eq (env : Env) (email password : string) (now : N)
    (c : User.collection) :
  AuthService.login env email password now c =
  match User.find (byEmail (User.castEmail email)) c with
  | None =>
      (Throw (Taxonomy.InvalidCredentialsError (Site.AuthService 73) now), c)
  | Some stored =>
    let user := User.selectWithPassword stored in
    if negb (User.isActive stored) then
      (Throw (Taxonomy.AccountDeactivatedError now), c)
    else
      match User.password stored with
      | None => (Throw (Error "Password comparison failed"), c)
      | Some h =>
        if negb (Bcrypt.compare password h) then
          (Throw (Taxonomy.InvalidCredentialsError (Site.AuthService 85) now),
           c)
        else
          match AuthService.generateAccessToken env user now with
          | Throw e => (Throw e, c)
          | Ok accessToken =>
            match AuthService.generateRefreshToken env user now with
            | Throw e => (Throw e, c)
            | Ok refreshToken =>
                (Ok (Session.mk (AuthService.sanitizeUser user) accessToken
                       refreshToken
                       Constants.SUCCESS_MESSAGES.LOGIN_SUCCESS),
                 recordSession (User._id stored) refreshToken now c)
            end
          end
      end
  end.
Proof.
  unfold AuthService.login. rewrite tryCatch_rethrow.
  unfold bind at 1. unfold UserRepository.findByEmail, User.findOne_email.
  unfold bind at 1. unfold ret at 1. rewrite castEmail_lower.
  fold (byEmail (User.castEmail email)).
  destruct (User.find (byEmail (User.castEmail email)) c) as [stored|];
    simpl; [|reflexivity].
  destruct (User.isActive stored); simpl; [|reflexivity].
  unfold bind at 1. unfold lift at 1. unfold User.comparePassword. simpl.
  destruct (User.password stored) as [h|]; [|reflexivity].
  destruct (Bcrypt.compare password h); simpl; [|reflexivity].
  unfold bind at 1. unfold lift at 1.
  destruct (AuthService.generateAccessToken env _ now) as [a|e];
    [|reflexivity].
  unfold bind at 1. unfold lift at 1.
  destruct (AuthService.generateRefreshToken env _ now) as [r|e];
    [|reflexivity].
  apply writes_eq.
Qed.

Lemma sign_throws (p : Jwt.payload) (secret : option string) (d now : N)
    (e : exn) :
  Jwt.sign p secret d now = Throw e ->
  e = Error "secretOrPrivateKey must have a value".
Proof.
  unfold Jwt.sign. destruct secret as [k|]; [destruct (Js.truthy k)|];
    intro H; congruence.
Qed.

(** Small steps of logic for statements by cases. *)
Ltac settle :=
  repeat split; intros;
  repeat match goal with
         | H : exists _, _ |- _ => destruct H
         | H : _ /\ _ |- _ => destruct H
         | H : _ \/ _ |- _ => destruct H
         | H : Some _ = Some _ |- _ => injection H as H; try subst
         | H : Throw _ = Throw _ |- _ => injection H as H; try subst
         end;
  try discriminate; try congruence; eauto 8.

(** C1, as the code has it.  [login] fails with AccountDeactivatedError
    exactly when the looked-up user exists and is inactive, whatever the
    candidate password; it fails with InvalidCredentialsError exactly when
    no user has the email, or the user is active and the candidate
    password does not match the stored hash.  The user looked up is the
    one whose stored email is the given one as the schema casts it: in
    lower case and trimmed.  Of the two places that build an
    InvalidCredentialsError, the first serves the missing user and the
    second the password that does not match. *)
Theorem login_failure_policy (env : Env) (email password : string) (now : N)
    (c : User.collection) :
  let r := fst (AuthService.login env email password now c) in
  let found := User.find (byEmail (User.castEmail email)) c in
  let mismatch :=
    exists u h, found = Some u /\ User.isActive u = true /\
                User.password u = Some h /\
                Bcrypt.compare password h = false in
  (r = Throw (Taxonomy.AccountDeactivatedError now) <->
   exists u, found = Some u /\ User.isActive u = false)
  /\
  ((exists here, r = Throw (Taxonomy.InvalidCredentialsError here now)) <->
   found = None \/ mismatch)
  /\
  (r = Throw (Taxonomy.InvalidCredentialsError (Site.AuthService 73) now)
   <-> found = None)
  /\
  (r = Throw (Taxonomy.InvalidCredentialsError (Site.AuthService 85) now)
   <-> mismatch).
Proof.
  cbv zeta. rewrite login_eq.
  destruct (User.find (byEmail (User.castEmail email)) c) as [u|];
    cbv zeta; [|cbn [fst]; now settle].
  destruct (User.isActive u) eqn:Ha; cbn [negb fst]; [|now settle].
  destruct (User.password u) as [h|] eqn:Hp; [|now settle].
  destruct (Bcrypt.compare password h) eqn:Hc; cbn [negb fst];
    [|settle; right; eauto 8].
  destruct (AuthService.generateAccessToken env _ now) as [a|e] eqn:Ga.
  2:{ cbn [fst]. rewrite (sign_throws _ _ _ _ _ Ga). now settle. }
  destruct (AuthService.generateRefreshToken env _ now) as [t|e] eqn:Gr.
  2:{ cbn [fst]. rewrite (sign_throws _ _ _ _ _ Gr). now settle. }
  cbn [fst]. now settle.
Qed.

Lemma login_failure_policy_witness :
  fst (AuthService.login Sample.env " Bob@X.com " "wrong-password" 5000
                         [Sample.bob])
  = Throw (Taxonomy.AccountDeactivatedError 5000)
  /\ fst (AuthService.login Sample.env "nobody@x.com" "Secret@123" 5000
                            [Sample.bob])
     = Throw (Taxonomy.InvalidCredentialsError (Site.AuthService 73) 5000)
  /\ fst (AuthService.login Sample.env " Carol@x.com" "wrong-password" 5000
                            [Sample.carol])
     = Throw (Taxonomy.InvalidCredentialsError (Site.AuthService 85) 5000).
Proof.
  split; [|split].
  - pose proof (login_failure_policy Sample.env " Bob@X.com "
                  "wrong-password" 5000 [Sample.bob]) as H.
    cbv zeta in H. destruct H as (H & _). apply H.
    exists Sample.bob. split; reflexivity.
  - pose proof (login_failure_policy Sample.env "nobody@x.com"
                  "Secret@123" 5000 [Sample.bob]) as H.
    cbv zeta in H. destruct H as (_ & _ & H & _). apply H. reflexivity.
  - pose proof (login_failure_policy Sample.env " Carol@x.com"
                  "wrong-password" 5000 [Sample.carol]) as H.
    cbv zeta in H. destruct H as (_ & _ & _ & H). apply H.
    exists Sample.carol, (Bcrypt.hash 10 4 "Secret@123").
    repeat split; reflexivity.
Defined.

(** C1, as stated, fails: a deactivated account met with a password that
    does not match is answered AccountDeactivatedError, not
    InvalidCredentialsError. *)
Lemma login_deactivated_wrong_password :
  let c := [Sample.bob] in
  User.find (byEmail "bob@x.com") c = Some Sample.bob
  /\ User.isActive Sample.bob = false
  /\ User.comparePassword Sample.bob "wrong-password" = Ok false
  /\ fst (AuthService.login Sample.env "bob@x.com" "wrong-password" 5000 c)
     = Throw (Taxonomy.AccountDeactivatedError 5000)
  /\ forall here,
       fst (AuthService.login Sample.env "bob@x.com" "wrong-password" 5000 c)
       <> Throw (Taxonomy.InvalidCredentialsError here 5000).
Proof.
  repeat split; try reflexivity. intro here. vm_compute. discriminate.
Qed.

(** C3, as the code has it.  A login under an email no user has and a
    login under the email of an active user with a password that does
    not match both throw [ApiError(401, 'Invalid credentials')] with
    empty details and write nothing.  The two errors are built at two
    places, so their stack traces differ; [toJSON] leaves the stack
    trace out outside development mode, where the two responses are the
    same but for the timestamp, and the same when thrown at the same
    instant. *)
Theorem login_failures_indistinguishable (env : Env)
    (c1 c2 : User.collection) (email1 email2 password1 password2 : string)
    (now1 now2 : N) (u : User.t) (h : Bcrypt.digest) :
  User.find (byEmail (User.castEmail email1)) c1 = None ->
  User.find (byEmail (User.castEmail email2)) c2 = Some u ->
  User.isActive u = true ->
  User.password u = Some h ->
  Bcrypt.compare password2 h = false ->
  exists e1 e2,
    AuthService.login env email1 password1 now1 c1 = (Throw e1, c1)
    /\ AuthService.login env email2 password2 now2 c2 = (Throw e2, c2)
    /\ e1 = Taxonomy.InvalidCredentialsError (Site.AuthService 73) now1
    /\ e2 = Taxonomy.InvalidCredentialsError (Site.AuthService 85) now2
    /\ Taxonomy.shape e1 = Some (401, "Invalid credentials", "")
    /\ Taxonomy.shape e2 = Taxonomy.shape e1
    /\ (forall keyPattern driverMessage t1 t2,
           ErrorMiddleware.errorHandler false keyPattern driverMessage e1 t1
           = (401, ErrorMiddleware.mkBody false 401 "Invalid credentials" ""
                     now1 None)
           /\ ErrorMiddleware.errorHandler false keyPattern driverMessage
                e2 t2
              = (401, ErrorMiddleware.mkBody false 401 "Invalid credentials"
                        "" now2 None)).
Proof.
  intros H1 H2 Ha Hp Hc.
  exists (Taxonomy.InvalidCredentialsError (Site.AuthService 73) now1),
         (Taxonomy.InvalidCredentialsError (Site.AuthService 85) now2).
  rewrite !login_eq, H1, H2. cbv zeta. rewrite Ha, Hp, Hc.
  repeat split; reflexivity.
Qed.

Lemma login_failures_indistinguishable_witness :
  exists e1 e2,
    AuthService.login Sample.env "nobody@x.com" "Secret@123" 5000
                      [Sample.carol] = (Throw e1, [Sample.carol])
    /\ AuthService.login Sample.env " Carol@x.com " "wrong-password" 6000
                         [Sample.carol] = (Throw e2, [Sample.carol])
    /\ ErrorMiddleware.errorHandler false [] "" e1 5001
       = (401, ErrorMiddleware.mkBody false 401 "Invalid credentials" ""
                 5000 None)
    /\ ErrorMiddleware.errorHandler false [] "" e2 6001
       = (401, ErrorMiddleware.mkBody false 401 "Invalid credentials" ""
                 6000 None).
Proof.
  destruct (login_failures_indistinguishable Sample.env [Sample.carol]
              [Sample.carol] "nobody@x.com" " Carol@x.com " "Secret@123"
              "wrong-password" 5000 6000 Sample.carol
              (Bcrypt.hash 10 4 "Secret@123") eq_refl eq_refl eq_refl
              eq_refl eq_refl)
    as (e1 & e2 & L1 & L2 & _ & _ & _ & _ & R).
  exists e1, e2. destruct (R [] "" 5001 6001) as [R1 R2]. auto.
Defined.

(** C3, as stated, fails in development mode: there [toJSON] sends the
    stack trace, and the two failures, thrown at the same instant, are
    answered with two different bodies. *)
Lemma login_failures_differ_in_development :
  let c := [Sample.carol] in
  exists e1 e2,
    AuthService.login Sample.env "nobody@x.com" "Secret@123" 5000 c
    = (Throw e1, c)
    /\ AuthService.login Sample.env "carol@x.com" "wrong-password" 5000 c
       = (Throw e2, c)
    /\ Taxonomy.shape e1 = Taxonomy.shape e2
    /\ ErrorMiddleware.stack
         (snd (ErrorMiddleware.errorHandler true [] "" e1 5001))
       = Some (Site.AuthService 73)
    /\ ErrorMiddleware.stack
         (snd (ErrorMiddleware.errorHandler true [] "" e2 5001))
       = Some (Site.AuthService 85)
    /\ ErrorMiddleware.errorHandler true [] "" e1 5001
       <> ErrorMiddleware.errorHandler true [] "" e2 5001.
Proof.
  eexists. eexists. repeat split; try reflexivity. vm_compute. discriminate.
Qed.

(** ** Session manager: register *)

(** [register], branch by branch. *)
Lemma register_eq (env : Env) (userData : User.data) (now : N)
    (oid : string) (salt : N) (c : User.collection) :
  AuthService.register env userData now oid salt c =
  match User.find (byEmail (User.castEmail (User.d_email userData))) c with
  | Some _ => (Throw (Taxonomy.DuplicateEmailError now), c)
  | None =>
    match User.create env userData now oid salt c with
    | (Throw e, c') => (Throw e, c')
    | (Ok user, c') =>
      match AuthService.generateAccessToken env user now with
      | Throw e => (Throw e, c')
      | Ok accessToken =>
        match AuthService.generateRefreshToken env user now with
        | Throw e => (Throw e, c')
        | Ok refreshToken =>
            (Ok (Session.mk (AuthService.sanitizeUser user) accessToken
                   refreshToken
                   Constants.SUCCESS_MESSAGES.REGISTER_SUCCESS),
             recordSession (User._id user) refreshToken now c')
        end
      end
    end
  end.
Proof.
  unfold AuthService.register. rewrite tryCatch_rethrow.
  unfold bind at 1. unfold UserRepository.findByEmail, User.findOne_email.
  unfold bind at 1. unfold ret at 1. rewrite castEmail_lower.
  fold (byEmail (User.castEmail (User.d_email userData))).
  destruct (User.find (byEmail (User.castEmail (User.d_email userData))) c)
    as [stored|]; simpl; [reflexivity|].
  unfold bind at 1. unfold UserRepository.create.
  destruct (User.create env userData now oid salt c) as [[user|e] c'];
    [|reflexivity].
  unfold bind at 1. unfold lift at 1.
  destruct (AuthService.generateAccessToken env user now) as [a|e];
    [|reflexivity].
  unfold bind at 1. unfold lift at 1.
  destruct (AuthService.generateRefreshToken env user now) as [r|e];
    [|reflexivity].
  apply writes_eq.
Qed.

Lemma create_eq (env : Env) (d : User.data) (now : N) (oid : string)
    (salt : N) (c : User.collection) :
  valid d = true ->
  User.find (fun v => byId oid v
                      || byEmail (Js.trim (Js.toLowerCase (User.d_email d))) v)
            c = None ->
  User.create env d now oid salt c
  = (Ok (created env d now oid salt), (c ++ [created env d now oid salt])%list).
Proof.
  unfold valid, User.create, created, roleOf. cbv zeta.
  destruct (_ ++ _)%list; [|discriminate]. intros _ H.
  unfold byId, byEmail in H. rewrite H. reflexivity.
Qed.

Lemma create_inv (env : Env) (d : User.data) (now : N) (oid : string)
    (salt : N) (c c' : User.collection) (u : User.t) :
  User.create env d now oid salt c = (Ok u, c') ->
  valid d = true
  /\ User.find (fun v => byId oid v
                         || byEmail (Js.trim (Js.toLowerCase (User.d_email d)))
                                    v) c = None
  /\ u = created env d now oid salt
  /\ c' = (c ++ [u])%list.
Proof.
  unfold valid, User.create, created, roleOf, byId, byEmail. cbv zeta.
  destruct (_ ++ _)%list; [|discriminate].
  destruct (User.find _ c); [discriminate|].
  intro H. injection H as <- <-. auto.
Qed.

(** [Model.create] writes only when it succeeds. *)
Lemma create_throw (env : Env) (d : User.data) (now : N) (oid : string)
    (salt : N) (c c' : User.collection) (e : exn) :
  User.create env d now oid salt c = (Throw e, c') -> c' = c.
Proof.
  unfold User.create. cbv zeta.
  destruct (_ ++ _)%list; [destruct (User.find _ c)|]; congruence.
Qed.

Lemma find_or_none (p q : User.t -> bool) (c : User.collection) :
  User.find (fun v => p v || q v) c = None ->
  User.find p c = None /\ User.find q c = None.
Proof.
  induction c as [|w c IH]; simpl; [auto|].
  destruct (p w), (q w); simpl; try discriminate. exact IH.
Qed.

(** Updating by id a document appended to a collection that had no
    document of that id. *)
Lemma replace_appended (id : string) (f : User.t -> User.t)
    (c : User.collection) (u : User.t) :
  User.find (byId id) c = None ->
  byId id u = true ->
  snd (User.replace id f (c ++ [u])%list) = (c ++ [f u])%list.
Proof.
  intros Hc Hu. induction c as [|w c IH]; simpl.
  - unfold byId in Hu. rewrite Hu. reflexivity.
  - simpl in Hc. unfold byId at 1 in Hc.
    destruct (String.eqb (User._id w) id); [discriminate|].
    specialize (IH Hc).
    destruct (User.replace id f (c ++ [u])%list). simpl in *. now rewrite IH.
Qed.

(** The collection a successful [register] leaves: the new document,
    with its refresh token and its last-login date, after the old ones. *)
Lemma register_ok (env : Env) (d : User.data) (now : N) (oid : string)
    (salt : N) (c c' : User.collection) (r : Session.t) :
  AuthService.register env d now oid salt c = (Ok r, c') ->
  let u := created env d now oid salt in
  User.find (byEmail (User.castEmail (User.d_email d))) c = None
  /\ valid d = true
  /\ User.find (byId oid) c = None
  /\ User.find (byEmail (User.email u)) c = None
  /\ Session.user r = AuthService.sanitizeUser u
  /\ AuthService.generateAccessToken env u now = Ok (Session.accessToken r)
  /\ AuthService.generateRefreshToken env u now = Ok (Session.refreshToken r)
  /\ c' = (c ++ [User.mk oid (User.name u) (User.email u) (User.password u)
                         (User.role u) (User.isActive u) (Some now)
                         (Some (Session.refreshToken r)) now now])%list.
Proof.
  rewrite register_eq. cbv zeta.
  destruct (User.find (byEmail _) c); [discriminate|].
  destruct (User.create env d now oid salt c) as [[u|e] c1] eqn:C;
    [|discriminate].
  apply create_inv in C. destruct C as (Hv & Hf & -> & ->).
  apply find_or_none in Hf. destruct Hf as [Hid Hem].
  destruct (AuthService.generateAccessToken env _ now) as [a|e];
    [|discriminate].
  destruct (AuthService.generateRefreshToken env _ now) as [t|e];
    [|discriminate].
  intro H. injection H as <- <-. simpl.
  repeat split; auto.
  unfold recordSession.
  rewrite (replace_appended oid _ c _ Hid)
    by (unfold byId; simpl; apply String.eqb_refl).
  rewrite (replace_appended oid _ c _ Hid)
    by (unfold byId; simpl; apply String.eqb_refl).
  reflexivity.
Qed.

(** A hit of the duplicate lookup stops [register] before any write. *)
Lemma register_found (env : Env) (userData : User.data) (now : N)
    (oid : string) (salt : N) (c : User.collection) (v : User.t) :
  User.find (byEmail (User.castEmail (User.d_email userData))) c = Some v ->
  AuthService.register env userData now oid salt c
  = (Throw (Taxonomy.DuplicateEmailError now), c).
Proof.
  intro H. rewrite register_eq, H. reflexivity.
Qed.

(** C6.  When some stored user has the email the input has once
    normalised, [register] throws DuplicateEmailError and leaves the
    collection as it was; so does every input whose email differs from
    it in letter case only, or in white space around it as well, since
    the lookup lower-cases its key and the schema casts the filter as it
    casts a stored email, in lower case and trimmed.  On a stored email,
    which the schema has trimmed, the email of the input in lower case is
    such a normal form. *)
Theorem register_duplicate_email (env : Env) (userData : User.data) (now : N)
    (oid : string) (salt : N) (c : User.collection) (u : User.t) :
  In u c ->
  User.email u = User.castEmail (User.d_email userData) ->
  AuthService.register env userData now oid salt c
  = (Throw (Taxonomy.DuplicateEmailError now), c)
  /\
  (forall (other : User.data) (now' : N) (oid' : string) (salt' : N),
      User.castEmail (User.d_email other)
      = User.castEmail (User.d_email userData) ->
      AuthService.register env other now' oid' salt' c
      = (Throw (Taxonomy.DuplicateEmailError now'), c))
  /\
  (forall (other : User.data) (now' : N) (oid' : string) (salt' : N),
      Js.toLowerCase (User.d_email other)
      = Js.toLowerCase (User.d_email userData) ->
      AuthService.register env other now' oid' salt' c
      = (Throw (Taxonomy.DuplicateEmailError now'), c)).
Proof.
  intros Hin He.
  assert (Hf : exists v,
             User.find (byEmail (User.castEmail (User.d_email userData))) c
             = Some v).
  { apply (StoreFacts.In_find _ c u Hin). unfold byEmail. rewrite He.
    apply String.eqb_refl. }
  destruct Hf as [v Hv]. split; [|split].
  - exact (register_found env userData now oid salt c v Hv).
  - intros other now' oid' salt' Hl. rewrite <- Hl in Hv.
    exact (register_found env other now' oid' salt' c v Hv).
  - intros other now' oid' salt' Hl.
    apply (register_found env other now' oid' salt' c v).
    unfold User.castEmail in *. now rewrite Hl.
Qed.

(** The second of two registrations under one normalised email fails,
    whatever the case of its letters. *)
Lemma register_twice (env : Env) (first second : User.data) (now1 now2 : N)
    (oid1 oid2 : string) (salt1 salt2 : N) (c c1 : User.collection)
    (r : Session.t) :
  AuthService.register env first now1 oid1 salt1 c = (Ok r, c1) ->
  User.castEmail (User.d_email second) = User.castEmail (User.d_email first) ->
  AuthService.register env second now2 oid2 salt2 c1
  = (Throw (Taxonomy.DuplicateEmailError now2), c1).
Proof.
  intros H He. apply register_ok in H. cbv zeta in H.
  destruct H as (Hem & _ & _ & _ & _ & _ & _ & ->).
  set (u := User.mk _ _ _ _ _ _ _ _ _ _).
  apply (register_found env second now2 oid2 salt2 _ u).
  rewrite StoreFacts.find_app, He, Hem.
  cbn [User.find]. unfold byEmail, u. cbn [User.email created].
  change (Js.trim (Js.toLowerCase (User.d_email first)))
    with (User.castEmail (User.d_email first)).
  rewrite String.eqb_refl. reflexivity.
Qed.

Lemma register_duplicate_email_witness :
  let c := snd (AuthService.register Sample.env Sample.alice 1000 "a11ce" 7
                                     []) in
  AuthService.register Sample.env
    (User.mkData "Alice II" "ALICE@x.COM" "Secret@456" None None)
    2000 "a11ce2" 8 c
  = (Throw (Taxonomy.DuplicateEmailError 2000), c).
Proof.
  cbv zeta.
  refine (proj1 (register_duplicate_email Sample.env
                   (User.mkData "Alice II" "ALICE@x.COM" "Secret@456"
                                None None)
                   2000 "a11ce2" 8 _ Sample.aliceStored _ _)).
  - vm_compute. left. reflexivity.
  - reflexivity.
Defined.

Lemma sign_payload_irrelevant (p q : Jwt.payload) (secret : option string)
    (d now : N) (t : string) :
  Jwt.sign p secret d now = Ok t -> exists t', Jwt.sign q secret d now = Ok t'.
Proof.
  unfold Jwt.sign. destruct secret as [k|]; [|discriminate].
  destruct (Js.truthy k); [eauto|discriminate].
Qed.

(** C8.  [register] hands the caller's object to [create] as it is.  An
    input with role 'admin' registers an administrator; in general the
    role of the created user is the role of the input, and the default
    'user' only when the input has none; an input that registers
    without a role registers as well with role 'admin'. *)
Theorem register_forwards_role :
  (exists r c',
      AuthService.register Sample.env Sample.mallory 1000 "3a110" 7 []
      = (Ok r, c')
      /\ User.d_role Sample.mallory = Some "admin"
      /\ User.role (Session.user r) = "admin"
      /\ exists u, User.find (byId "3a110") c' = Some u
                   /\ User.role u = "admin")
  /\
  (forall env userData now oid salt c r c',
      AuthService.register env userData now oid salt c = (Ok r, c') ->
      User.role (Session.user r)
      = match User.d_role userData with
        | Some supplied => supplied
        | None => Constants.USER_ROLES.USER
        end
      /\ exists u, User.find (byId oid) c' = Some u
                   /\ User.role u = User.role (Session.user r))
  /\
  (forall env userData now oid salt c r c',
      User.d_role userData = None ->
      AuthService.register env userData now oid salt c = (Ok r, c') ->
      exists r2 c2,
        AuthService.register env (withRole userData (Some "admin")) now oid
                             salt c = (Ok r2, c2)
        /\ User.role (Session.user r2) = "admin").
Proof.
  split; [|split].
  - eexists. eexists. split; [vm_compute; reflexivity|].
    split; [reflexivity|]. split; [reflexivity|].
    eexists. split; vm_compute; reflexivity.
  - intros env userData now oid salt c r c' H.
    apply register_ok in H. cbv zeta in H.
    destruct H as (_ & _ & Hid & _ & Hu & _ & _ & ->).
    rewrite Hu. split; [reflexivity|].
    eexists. split.
    + rewrite StoreFacts.find_app, Hid. simpl. unfold byId. simpl.
      rewrite String.eqb_refl. reflexivity.
    + reflexivity.
  - intros env userData now oid salt c r c' Hr H.
    apply register_ok in H. cbv zeta in H.
    destruct H as (Hl & Hv & Hid & Hem & _ & Ha & Ht & _).
    rewrite register_eq. simpl. rewrite Hl.
    assert (Hv' : valid (withRole userData (Some "admin")) = true).
    { revert Hv. unfold valid, withRole, roleOf. simpl. rewrite Hr.
      simpl. rewrite !app_nil_r. auto. }
    rewrite (create_eq env _ now oid salt c Hv').
    2:{ simpl. clear - Hid Hem. simpl in Hem.
        induction c as [|w c IH]; simpl in *; [reflexivity|].
        destruct (byId oid w); [discriminate|].
        destruct (byEmail _ w); [discriminate|]. simpl. auto. }
    destruct (sign_payload_irrelevant _
                (Jwt.mkPayload
                   (User._id (created env (withRole userData (Some "admin"))
                                      now oid salt))
                   (Some (User.email
                            (created env (withRole userData (Some "admin"))
                                     now oid salt)))
                   (Some (User.role
                            (created env (withRole userData (Some "admin"))
                                     now oid salt))))
                _ _ _ _ Ha) as [a' Ha'].
    destruct (sign_payload_irrelevant _
                (Jwt.mkPayload
                   (User._id (created env (withRole userData (Some "admin"))
                                      now oid salt))
                   None None)
                _ _ _ _ Ht) as [t' Ht'].
    unfold AuthService.generateAccessToken, AuthService.generateRefreshToken.
    rewrite Ha', Ht'. eexists. eexists. split; reflexivity.
Qed.

Lemma update_keeps_id (up : User.update) (now : N) (u : User.t) :
  User._id (User.setUpdatedAt (User.apply up u) now) = User._id u.
Proof.
  destruct up; reflexivity.
Qed.

(** After the writes of a session, the first document of that id carries
    the new last-login date, if there is a document of that id at all. *)
Lemma find_recordSession (id token : string) (now : N) (c : User.collection)
    (v : User.t) :
  User.find (byId id) c = Some v ->
  exists after,
    User.find (byId id) (recordSession id token now c) = Some after
    /\ User.lastLogin after = Some now
    /\ User.refreshToken after = Some token.
Proof.
  intro H. unfold recordSession.
  rewrite StoreFacts.find_replace by (intro; apply update_keeps_id).
  rewrite String.eqb_refl.
  rewrite StoreFacts.find_replace by (intro; apply update_keeps_id).
  rewrite String.eqb_refl, H. simpl. eexists. split; [reflexivity|].
  split; reflexivity.
Qed.

(** C10, as the code has it.  The user a successful [login] returns is a
    copy of the document read at the start: its [lastLogin] is the stored
    one, not the date this login writes, and [password] and
    [refreshToken] are gone from it, while the stored document now
    carries the date of this login.  The stored value is the
    registration date, not null, when the collection is as [register]
    left it for that user. *)
Theorem login_returns_stale_lastLogin (env : Env) (email password : string)
    (now : N) (c c' : User.collection) (r : Session.t) :
  AuthService.login env email password now c = (Ok r, c') ->
  (exists stored,
      User.find (byEmail (User.castEmail email)) c = Some stored
      /\ User.lastLogin (Session.user r) = User.lastLogin stored
      /\ User.password (Session.user r) = None
      /\ User.refreshToken (Session.user r) = None
      /\ exists after,
           User.find (byId (User._id stored)) c' = Some after
           /\ User.lastLogin after = Some now)
  /\
  (forall userData now0 oid salt c0 r0,
      AuthService.register env userData now0 oid salt c0 = (Ok r0, c) ->
      User.castEmail email = User.castEmail (User.d_email userData) ->
      User.lastLogin (Session.user r) = Some now0).
Proof.
  rewrite login_eq. cbv zeta.
  destruct (User.find (byEmail (User.castEmail email)) c) as [stored|] eqn:F;
    [|discriminate].
  destruct (User.isActive stored); simpl; [|discriminate].
  destruct (User.password stored) as [h|]; [|discriminate].
  destruct (Bcrypt.compare password h); simpl; [|discriminate].
  destruct (AuthService.generateAccessToken env _ now) as [a|e];
    [|discriminate].
  destruct (AuthService.generateRefreshToken env _ now) as [t|e];
    [|discriminate].
  intro H. injection H as <- <-. simpl. split.
  - exists stored. repeat split.
    destruct (StoreFacts.find_Some _ _ _ F) as [Hin _].
    destruct (StoreFacts.In_find (byId (User._id stored)) c stored Hin)
      as [v Hv]; [apply String.eqb_refl|].
    destruct (find_recordSession (User._id stored) t now c v Hv)
      as (after & H1 & H2 & _).
    exists after. auto.
  - intros userData now0 oid salt c0 r0 R He.
    apply register_ok in R. cbv zeta in R.
    destruct R as (Hem & _ & _ & _ & _ & _ & _ & ->).
    rewrite StoreFacts.find_app, He, Hem in F.
    cbn [User.find] in F. unfold byEmail in F.
    cbn [User.email created] in F.
    change (Js.trim (Js.toLowerCase (User.d_email userData)))
      with (User.castEmail (User.d_email userData)) in F.
    rewrite String.eqb_refl in F.
    injection F as <-. reflexivity.
Qed.

(** C10, as stated, fails on "null on the first login": [register] writes
    [lastLogin] too, so the first login after it returns the registration
    date. *)
Lemma first_login_returns_registration_date :
  let c1 := snd (AuthService.register Sample.env Sample.alice 1000 "a11ce" 7
                                      []) in
  exists r c2,
    AuthService.login Sample.env "alice@x.com" "Secret@123" 5000 c1
    = (Ok r, c2)
    /\ User.lastLogin (Session.user r) = Some 1000
    /\ User.lastLogin (Session.user r) <> None.
Proof.
  cbv zeta. eexists. eexists.
  split; [vm_compute; reflexivity|].
  split; [reflexivity|discriminate].
Qed.

Lemma login_returns_stale_lastLogin_witness :
  exists r c',
    AuthService.login Sample.env "carol@x.com" "Secret@123" 5000
                      [Sample.carol] = (Ok r, c')
    /\ User.lastLogin (Session.user r) = User.lastLogin Sample.carol
    /\ User.password (Session.user r) = None
    /\ User.refreshToken (Session.user r) = None
    /\ exists after,
         User.find (byId "ca401") c' = Some after
         /\ User.lastLogin after = Some 5000.
Proof.
  eassert (L : AuthService.login Sample.env "carol@x.com" "Secret@123" 5000
                                 [Sample.carol] = (Ok _, _))
    by (vm_compute; reflexivity).
  destruct (login_returns_stale_lastLogin Sample.env "carol@x.com"
              "Secret@123" 5000 [Sample.carol] _ _ L)
    as [(stored & F & H1 & H2 & H3 & H4) _].
  eexists. eexists. split; [exact L|].
  vm_compute in F. injection F as <-. auto.
Defined.

(** ** Session manager: refresh and logout *)

Lemma onJwtError_snd {A} (invalid expired : site) (now : N) (e : exn)
    (c : User.collection) :
  snd (@AuthService.onJwtError User.collection A invalid expired now e c) = c.
Proof.
  unfold AuthService.onJwtError.
  destruct (String.eqb (name e) "JsonWebTokenError"); [reflexivity|].
  destruct (String.eqb (name e) "TokenExpiredError"); reflexivity.
Qed.

(** [refreshToken], branch by branch. *)
Lemma refresh_eq (env : Env) (token : string) (now : N)
    (c : User.collection) :
  AuthService.refreshToken env token now c =
  match Jwt.verify (Some token) (JWT_REFRESH_SECRET env) now with
  | Throw e => AuthService.onJwtError (Site.AuthService 139)
                                       (Site.AuthService 142) now e c
  | Ok decoded =>
    match User.find (byId (Jwt.userId (Jwt.body decoded))) c with
    | None => (Throw (Taxonomy.InvalidTokenError (Site.AuthService 126) now), c)
    | Some stored =>
      if negb (User.isActive stored) then
        (Throw (Taxonomy.InvalidTokenError (Site.AuthService 126) now), c)
      else
        match AuthService.generateAccessToken env (User.selectDefault stored)
                                              now with
        | Ok accessToken => (Ok accessToken, c)
        | Throw e => (Throw e, c)
        end
    end
  end.
Proof.
  unfold AuthService.refreshToken, tryCatch.
  unfold bind at 1. unfold lift at 1.
  destruct (Jwt.verify (Some token) (JWT_REFRESH_SECRET env) now)
    as [decoded|e]; [|reflexivity].
  unfold bind at 1. unfold UserRepository.findById, User.findById.
  unfold bind at 1. unfold ret at 1.
  fold (byId (Jwt.userId (Jwt.body decoded))).
  destruct (User.find (byId (Jwt.userId (Jwt.body decoded))) c)
    as [stored|]; simpl; [|reflexivity].
  destruct (User.isActive stored); simpl; [|reflexivity].
  unfold bind at 1. unfold lift at 1.
  destruct (AuthService.generateAccessToken env _ now) as [a|e] eqn:G;
    [reflexivity|].
  apply sign_throws in G. subst e. reflexivity.
Qed.

(** [refreshToken] never writes, whatever it answers. *)
Lemma refresh_snd (env : Env) (token : string) (now : N)
    (c : User.collection) :
  snd (AuthService.refreshToken env token now c) = c.
Proof.
  rewrite refresh_eq.
  destruct (Jwt.verify _ _ now) as [d|e]; [|apply onJwtError_snd].
  destruct (User.find _ c) as [stored|]; [|reflexivity].
  destruct (User.isActive stored); simpl; [|reflexivity].
  destruct (AuthService.generateAccessToken env _ now); reflexivity.
Qed.

(** What [refreshToken] answers does not depend on any stored refresh
    token. *)
Lemma refresh_ignores_stored_token (env : Env) (token : string) (now : N)
    (c d : User.collection) :
  forgetRefreshTokens c = forgetRefreshTokens d ->
  fst (AuthService.refreshToken env token now c)
  = fst (AuthService.refreshToken env token now d).
Proof.
  intro H. rewrite !refresh_eq.
  destruct (Jwt.verify _ _ now) as [dec|e].
  2:{ unfold AuthService.onJwtError.
      destruct (String.eqb (name e) "JsonWebTokenError"); [reflexivity|].
      destruct (String.eqb (name e) "TokenExpiredError"); reflexivity. }
  pose proof (StoreFacts.find_forget (Jwt.userId (Jwt.body dec)) c d H) as F.
  destruct (User.find _ c) as [u|], (User.find _ d) as [v|];
    cbn [option_map] in F; try discriminate; [|reflexivity].
  assert (F' : User.selectDefault u = User.selectDefault v) by congruence.
  clear F. rename F' into F.
  assert (Ha : User.isActive u = User.isActive v)
    by (change (User.isActive (User.selectDefault u)
                = User.isActive (User.selectDefault v)); now rewrite F).
  rewrite Ha, F. destruct (User.isActive v); simpl; [|reflexivity].
  destruct (AuthService.generateAccessToken env _ now); reflexivity.
Qed.

Lemma logout_eq (userId : string) (now : N) (c : User.collection) :
  AuthService.logout userId now c
  = (Ok Constants.SUCCESS_MESSAGES.LOGOUT_SUCCESS,
     snd (User.replace userId
            (fun u => User.setUpdatedAt
                        (User.apply (User.UpRefreshToken None) u) now) c)).
Proof.
  unfold AuthService.logout. rewrite tryCatch_rethrow.
  unfold bind, ret, UserRepository.updateRefreshToken.
  destruct (update_fst_Ok userId (User.UpRefreshToken None) now c) as [o H].
  pose proof (update_snd userId (User.UpRefreshToken None) now c) as S.
  destruct (UserRepository.updateById userId _ now c) as [r c1].
  simpl in H, S. subst r c1. reflexivity.
Qed.

(** C2.  A refresh token issued to a user at [now0] still refreshes after
    [logout] has set the stored token to null, as long as the token has
    not expired and the user is present and active: the answer is a new
    access token for the stored user, and nothing is written.  What
    [refreshToken] answers is the same on any two collections that differ
    in stored refresh tokens only. *)
Theorem refresh_after_logout (env : Env) (u after : User.t) (token : string)
    (now0 nowL now : N) (c : User.collection) :
  AuthService.generateRefreshToken env u now0 = Ok token ->
  (exists a0, AuthService.generateAccessToken env u now0 = Ok a0) ->
  let c' := snd (AuthService.logout (User._id u) nowL c) in
  User.find (byId (User._id u)) c' = Some after ->
  User.isActive after = true ->
  now / 1000 < now0 / 1000 + refreshLifetime env ->
  fst (AuthService.logout (User._id u) nowL c)
  = Ok Constants.SUCCESS_MESSAGES.LOGOUT_SUCCESS
  /\ User.refreshToken after = None
  /\ (exists accessToken,
         AuthService.refreshToken env token now c' = (Ok accessToken, c')
         /\ AuthService.generateAccessToken env (User.selectDefault after) now
            = Ok accessToken)
  /\ (forall d,
         forgetRefreshTokens d = forgetRefreshTokens c' ->
         fst (AuthService.refreshToken env token now d)
         = fst (AuthService.refreshToken env token now c')).
Proof.
  intros Ht [a0 Ha0] c' Hf Hact Hexp. subst c'.
  rewrite logout_eq in *. simpl in *.
  split; [reflexivity|]. split.
  { rewrite StoreFacts.find_replace in Hf by (intro; reflexivity).
    rewrite String.eqb_refl in Hf.
    destruct (User.find (byId (User._id u)) c) as [v|]; [|discriminate].
    simpl in Hf. injection Hf as <-. reflexivity. }
  split.
  - unfold AuthService.generateRefreshToken in Ht.
    apply JwtFacts.sign_inv in Ht. destruct Ht as (k & Hk & Hkt & ->).
    unfold AuthService.generateAccessToken in Ha0.
    apply JwtFacts.sign_inv in Ha0. destruct Ha0 as (ka & Hka & Hkat & _).
    rewrite refresh_eq, JwtFacts.verify_encode, Hk, Hkt.
    fold (refreshLifetime env).
    cbn [negb Jwt.key Jwt.content Jwt.exp Jwt.body Jwt.userId].
    rewrite String.eqb_refl. cbn [negb].
    destruct (N.leb_spec (now0 / 1000 + refreshLifetime env) (now / 1000))
      as [Hle|_]; [lia|].
    cbn [Jwt.body Jwt.userId]. rewrite Hf, Hact. cbn [negb].
    unfold AuthService.generateAccessToken. rewrite Hka.
    rewrite JwtFacts.sign_ok by exact Hkat. eauto.
  - intros d Hd. apply refresh_ignores_stored_token. exact Hd.
Qed.

Lemma refresh_after_logout_witness :
  let c := snd (AuthService.register Sample.env Sample.alice 1000 "a11ce" 7
                                     []) in
  let c' := snd (AuthService.logout "a11ce" 2000 c) in
  exists accessToken,
    AuthService.refreshToken Sample.env Sample.aliceRefresh 3000 c'
    = (Ok accessToken, c').
Proof.
  cbv zeta.
  destruct (refresh_after_logout Sample.env Sample.aliceStored
              (User.setUpdatedAt (User.setRefreshToken Sample.aliceStored None)
                                 2000)
              Sample.aliceRefresh 1000 2000 3000
              (snd (AuthService.register Sample.env Sample.alice 1000 "a11ce"
                                         7 [])))
    as (_ & _ & (a & Ha & _) & _).
  - reflexivity.
  - eexists. vm_compute. reflexivity.
  - reflexivity.
  - reflexivity.
  - vm_compute. reflexivity.
  - exists a. exact Ha.
Defined.

(** C4.  A successful [refreshToken] leaves the collection as it found
    it, every field of every document included: the token verified under
    the refresh secret, its [userId] is that of a stored, active user,
    and the one output is the access token signed for that user at this
    instant. *)
Theorem refresh_writes_nothing (env : Env) (token accessToken : string)
    (now : N) (c c' : User.collection) :
  AuthService.refreshToken env token now c = (Ok accessToken, c') ->
  c' = c
  /\ exists decoded stored,
       Jwt.verify (Some token) (JWT_REFRESH_SECRET env) now = Ok decoded
       /\ User.find (byId (Jwt.userId (Jwt.body decoded))) c = Some stored
       /\ User.isActive stored = true
       /\ AuthService.generateAccessToken env (User.selectDefault stored) now
          = Ok accessToken.
Proof.
  intro H. split.
  - rewrite <- (refresh_snd env token now c), H. reflexivity.
  - rewrite refresh_eq in H.
    destruct (Jwt.verify _ _ now) as [d|e] eqn:V.
    2:{ unfold AuthService.onJwtError, throw in H.
        destruct (String.eqb (name e) "JsonWebTokenError"); [discriminate|].
        destruct (String.eqb (name e) "TokenExpiredError"); discriminate. }
    destruct (User.find _ c) as [stored|] eqn:F; [|discriminate].
    destruct (User.isActive stored) eqn:A; simpl in H; [|discriminate].
    destruct (AuthService.generateAccessToken env _ now) as [a|e] eqn:G;
      [|discriminate].
    injection H as <- _. exists d, stored. auto.
Qed.

Lemma refresh_writes_nothing_witness :
  let c := snd (AuthService.register Sample.env Sample.alice 1000 "a11ce" 7
                                     []) in
  let token := Sample.aliceRefresh in
  exists accessToken,
    AuthService.refreshToken Sample.env token 3000 c = (Ok accessToken, c)
    /\ exists decoded stored,
         Jwt.verify (Some token) (JWT_REFRESH_SECRET Sample.env) 3000
         = Ok decoded
         /\ User.find (byId (Jwt.userId (Jwt.body decoded))) c = Some stored
         /\ User.isActive stored = true
         /\ AuthService.generateAccessToken Sample.env
              (User.selectDefault stored) 3000 = Ok accessToken.
Proof.
  cbv zeta.
  eassert (H : AuthService.refreshToken Sample.env Sample.aliceRefresh 3000
                 (snd (AuthService.register Sample.env Sample.alice 1000
                                            "a11ce" 7 []))
               = (Ok _, _)) by (vm_compute; reflexivity).
  destruct (refresh_writes_nothing Sample.env _ _ 3000 _ _ H) as [_ Hrest].
  eexists. split; [exact H | exact Hrest].
Defined.

(** A token does not verify under a secret other than its key. *)
Lemma verify_other_secret (j : Jwt.jws) (secret : option string) (now : N) :
  secret <> Some (Jwt.key j) ->
  exists m,
    Jwt.verify (Some (Jwt.encode j)) secret now = Throw (JsonWebTokenError m).
Proof.
  intro H. rewrite JwtFacts.verify_encode.
  destruct secret as [k|]; [|eauto].
  destruct (Js.truthy k); simpl; [|eauto].
  destruct (String.eqb_spec (Jwt.key j) k) as [E|_]; simpl; [|eauto].
  subst k. contradiction.
Qed.

(** ** Access control guard *)

(** [authenticate], branch by branch. *)
Lemma authenticate_eq (env : Env) (req : Request.t) (now : N)
    (c : User.collection) :
  AuthMiddleware.authenticate env req now c =
  if AuthMiddleware.noBearer (Request.authorization req) then
    (Throw (Taxonomy.UnauthorizedError (Site.authMiddleware 18) now "No token provided"), c)
  else
    match Jwt.verify (AuthMiddleware.bearerToken (Request.authorization req))
                     (JWT_SECRET env) now with
    | Throw e => AuthService.onJwtError (Site.authMiddleware 48)
                                         (Site.authMiddleware 51) now e c
    | Ok decoded =>
      match User.find (byId (Jwt.userId (Jwt.body decoded))) c with
      | None => (Throw (Taxonomy.UnauthorizedError (Site.authMiddleware 31) now "User not found"), c)
      | Some stored =>
        if negb (User.isActive stored) then
          (Throw (Taxonomy.ForbiddenError (Site.authMiddleware 35) now "Account is deactivated"), c)
        else
          (Ok (Request.mk (Request.authorization req)
                          (Some (identityOf stored))), c)
      end
    end.
Proof.
  unfold AuthMiddleware.authenticate. cbv zeta.
  destruct (AuthMiddleware.noBearer (Request.authorization req));
    [reflexivity|].
  unfold tryCatch. unfold bind at 1. unfold lift at 1.
  destruct (Jwt.verify _ (JWT_SECRET env) now) as [decoded|e]; [|reflexivity].
  unfold bind at 1. unfold UserRepository.findById, User.findById.
  unfold bind at 1. unfold ret at 1.
  fold (byId (Jwt.userId (Jwt.body decoded))).
  destruct (User.find (byId (Jwt.userId (Jwt.body decoded))) c)
    as [stored|]; simpl; [|reflexivity].
  destruct (User.isActive stored); reflexivity.
Qed.

(** [authenticate] never writes, whatever it answers. *)
Lemma authenticate_snd (env : Env) (req : Request.t) (now : N)
    (c : User.collection) :
  snd (AuthMiddleware.authenticate env req now c) = c.
Proof.
  rewrite authenticate_eq.
  destruct (AuthMiddleware.noBearer _); [reflexivity|].
  destruct (Jwt.verify _ _ now) as [d|e]; [|apply onJwtError_snd].
  destruct (User.find _ c) as [stored|]; [|reflexivity].
  destruct (User.isActive stored); reflexivity.
Qed.

(** C7.  Without a header, or with one that does not start with
    'Bearer ', [authenticate] throws UnauthorizedError.  With a header
    whose token verifies under the access secret, it throws
    UnauthorizedError when no user has the token's [userId],
    ForbiddenError when that user is inactive, and otherwise hands on the
    request with exactly [{ userId, email, role }] of that user
    attached.  In no case does it write to the collection. *)
Theorem authenticate_guard (env : Env) (req : Request.t) (now : N)
    (c : User.collection) :
  (Request.authorization req = None
   \/ (exists h, Request.authorization req = Some h
                 /\ Js.startsWith h "Bearer " = false) ->
   AuthMiddleware.authenticate env req now c
   = (Throw (Taxonomy.UnauthorizedError (Site.authMiddleware 18) now "No token provided"), c))
  /\
  (forall h decoded,
      Request.authorization req = Some h ->
      Js.startsWith h "Bearer " = true ->
      Jwt.verify (nth_error (Js.split " " h) 1) (JWT_SECRET env) now
      = Ok decoded ->
      match User.find (byId (Jwt.userId (Jwt.body decoded))) c with
      | None =>
          AuthMiddleware.authenticate env req now c
          = (Throw (Taxonomy.UnauthorizedError (Site.authMiddleware 31) now "User not found"), c)
      | Some stored =>
          if User.isActive stored then
            AuthMiddleware.authenticate env req now c
            = (Ok (Request.mk (Some h)
                     (Some (Request.mkIdentity (User._id stored)
                              (User.email stored) (User.role stored)))),
               c)
          else
            AuthMiddleware.authenticate env req now c
            = (Throw (Taxonomy.ForbiddenError (Site.authMiddleware 35) now "Account is deactivated"),
               c)
      end)
  /\
  (forall req' c',
      AuthMiddleware.authenticate env req now c = (Ok req', c') ->
      c' = c
      /\ Request.authorization req' = Request.authorization req
      /\ exists stored,
           In stored c /\ User.isActive stored = true
           /\ Request.user req'
              = Some (Request.mkIdentity (User._id stored)
                        (User.email stored) (User.role stored)))
  /\ snd (AuthMiddleware.authenticate env req now c) = c.
Proof.
  split; [|split; [|split]].
  - intro H. rewrite authenticate_eq.
    destruct H as [H|[h [H Hs]]]; rewrite H.
    + reflexivity.
    + unfold AuthMiddleware.noBearer. rewrite Hs, orb_true_r. reflexivity.
  - intros h decoded Hh Hs Hv. rewrite authenticate_eq, Hh.
    unfold AuthMiddleware.noBearer.
    rewrite (startsWith_truthy h "Bearer " eq_refl Hs), Hs.
    cbn [negb orb AuthMiddleware.bearerToken]. rewrite Hv.
    destruct (User.find _ c) as [stored|]; [|reflexivity].
    destruct (User.isActive stored); reflexivity.
  - intros req' c' H.
    pose proof (authenticate_snd env req now c) as S.
    rewrite H in S. simpl in S. subst c'. split; [reflexivity|].
    rewrite authenticate_eq in H.
    destruct (AuthMiddleware.noBearer _); [discriminate|].
    destruct (Jwt.verify _ _ now) as [d|e].
    2:{ unfold AuthService.onJwtError, throw in H.
        destruct (String.eqb (name e) "JsonWebTokenError"); [discriminate|].
        destruct (String.eqb (name e) "TokenExpiredError"); discriminate. }
    destruct (User.find _ c) as [stored|] eqn:F; [|discriminate].
    destruct (User.isActive stored) eqn:A; simpl in H; [|discriminate].
    injection H as <-. split; [reflexivity|].
    exists stored. destruct (StoreFacts.find_Some _ _ _ F). auto.
  - apply authenticate_snd.
Qed.

Lemma authenticate_guard_witness :
  let c := snd (AuthService.register Sample.env Sample.alice 1000 "a11ce" 7
                                     []) in
  let h := "Bearer " ++ Sample.aliceAccess in
  AuthMiddleware.authenticate Sample.env (Request.mk None None) 3000 c
  = (Throw (Taxonomy.UnauthorizedError (Site.authMiddleware 18) 3000 "No token provided"), c)
  /\ AuthMiddleware.authenticate Sample.env (Request.mk (Some h) None) 3000 c
     = (Ok (Request.mk (Some h)
              (Some (Request.mkIdentity "a11ce" "alice@x.com" "user"))), c).
Proof.
  cbv zeta. split.
  - apply (proj1 (authenticate_guard Sample.env (Request.mk None None) 3000
                    _)).
    left. reflexivity.
  - pose proof (proj1 (proj2 (authenticate_guard Sample.env
                                (Request.mk
                                   (Some ("Bearer " ++ Sample.aliceAccess))
                                   None)
                                3000
                                (snd (AuthService.register Sample.env
                                        Sample.alice 1000 "a11ce" 7 []))))
                  ("Bearer " ++ Sample.aliceAccess)
                  (Jwt.mkDecoded
                     (Jwt.mkPayload "a11ce" (Some "alice@x.com") (Some "user"))
                     1 604801)
                  eq_refl eq_refl eq_refl) as H.
    exact H.
Defined.

Lemma noBearer_bearer (t : string) :
  AuthMiddleware.noBearer (Some ("Bearer " ++ t)) = false.
Proof.
  reflexivity.
Qed.

(** C5.  When the two secrets differ, an access token presented to
    [refreshToken] and a refresh token presented to [verifyToken] or, as a
    bearer token, to [authenticate] are each refused with
    InvalidTokenError. *)
Theorem secret_isolation (env : Env) (u : User.t) (now0 now : N)
    (c : User.collection) :
  JWT_SECRET env <> JWT_REFRESH_SECRET env ->
  (forall token,
      AuthService.generateAccessToken env u now0 = Ok token ->
      AuthService.refreshToken env token now c
      = (Throw (Taxonomy.InvalidTokenError (Site.AuthService 139) now), c))
  /\
  (forall token,
      AuthService.generateRefreshToken env u now0 = Ok token ->
      AuthService.verifyToken env token now
      = Throw (Taxonomy.InvalidTokenError (Site.AuthService 215) now)
      /\ AuthMiddleware.authenticate env
           (Request.mk (Some ("Bearer " ++ token)) None) now c
         = (Throw (Taxonomy.InvalidTokenError (Site.authMiddleware 48) now), c)).
Proof.
  intro Hd. split.
  - intros token H. unfold AuthService.generateAccessToken in H.
    apply JwtFacts.sign_inv in H. destruct H as (k & Hk & _ & ->).
    rewrite refresh_eq.
    match goal with
    | |- context [Jwt.verify (Some (Jwt.encode ?j)) ?s ?n] =>
        destruct (verify_other_secret j s n) as [m Hm];
          [simpl; congruence|]
    end.
    rewrite Hm. reflexivity.
  - intros token H. unfold AuthService.generateRefreshToken in H.
    apply JwtFacts.sign_inv in H. destruct H as (k & Hk & _ & ->).
    split.
    + unfold AuthService.verifyToken.
      match goal with
      | |- context [Jwt.verify (Some (Jwt.encode ?j)) ?s ?n] =>
          destruct (verify_other_secret j s n) as [m Hm];
            [simpl; congruence|]
      end.
      rewrite Hm. reflexivity.
    + rewrite authenticate_eq.
      cbn [Request.authorization]. rewrite noBearer_bearer.
      cbn [AuthMiddleware.bearerToken].
      rewrite split_bearer by apply JwtFacts.encode_noSpace.
      match goal with
      | |- context [Jwt.verify (Some (Jwt.encode ?j)) ?s ?n] =>
          destruct (verify_other_secret j s n) as [m Hm];
            [simpl; congruence|]
      end.
      rewrite Hm. reflexivity.
Qed.

Lemma secret_isolation_witness :
  let access := Sample.aliceAccess in
  let refresh := Sample.aliceRefresh in
  AuthService.refreshToken Sample.env access 3000 [Sample.carol]
  = (Throw (Taxonomy.InvalidTokenError (Site.AuthService 139) 3000), [Sample.carol])
  /\ AuthService.verifyToken Sample.env refresh 3000
     = Throw (Taxonomy.InvalidTokenError (Site.AuthService 215) 3000)
  /\ AuthMiddleware.authenticate Sample.env
       (Request.mk (Some ("Bearer " ++ refresh)) None) 3000 [Sample.carol]
     = (Throw (Taxonomy.InvalidTokenError (Site.authMiddleware 48) 3000), [Sample.carol]).
Proof.
  cbv zeta.
  destruct (secret_isolation Sample.env Sample.aliceStored 1000 3000
                             [Sample.carol]) as [H1 H2].
  - discriminate.
  - split.
    + apply H1. reflexivity.
    + apply H2. reflexivity.
Defined.

(** [isAdminOrOwner] past the administrator test, once the resolver has
    returned. *)
Lemma isAdminOrOwner_eq {St : Type}
    (getResourceUserId : Request.t -> M St jsval)
    (req : Request.t) (now : N) (st st' : St) (u : Request.identity)
    (v : jsval) :
  Request.user req = Some u ->
  Request.role u <> Constants.USER_ROLES.ADMIN ->
  getResourceUserId req st = (Ok v, st') ->
  RoleMiddleware.isAdminOrOwner getResourceUserId req now st =
  match toString v with
  | Throw e => (Throw e, st')
  | Ok theirs =>
      if String.eqb (Request.userId u) theirs then (Ok tt, st')
      else (Throw (Taxonomy.ForbiddenError (Site.roleMiddleware 223) now
                     "You can only access your own resources"), st')
  end.
Proof.
  intros Hu Hr Hg.
  unfold RoleMiddleware.isAdminOrOwner. rewrite Hu.
  destruct (String.eqb_spec (Request.role u) Constants.USER_ROLES.ADMIN)
    as [E|_]; [contradiction|].
  unfold bind, lift. rewrite Hg.
  destruct (toString v) as [theirs|e]; [|reflexivity].
  destruct (String.eqb (Request.userId u) theirs); reflexivity.
Qed.

(** C9.  For an authenticated caller who is not an administrator, once
    the owner resolver has returned: on [null] or [undefined] the guard
    throws the TypeError of [toString] on a missing value; it throws
    ForbiddenError exactly when the resolver returned an owner id other
    than the caller's [userId]; it lets the request through when the two
    are the same.  The state is as the resolver left it. *)
Theorem owner_guard {St : Type} (getResourceUserId : Request.t -> M St jsval)
    (req : Request.t) (now : N) (st st' : St) (u : Request.identity)
    (v : jsval) :
  Request.user req = Some u ->
  Request.role u <> Constants.USER_ROLES.ADMIN ->
  getResourceUserId req st = (Ok v, st') ->
  let outcome := RoleMiddleware.isAdminOrOwner getResourceUserId req now st in
  (v = JsNull \/ v = JsUndefined ->
   exists m, outcome = (Throw (TypeError m), st'))
  /\
  (fst outcome
   = Throw (Taxonomy.ForbiddenError (Site.roleMiddleware 223) now
              "You can only access your own resources")
   <-> exists owner, v = JsString owner /\ owner <> Request.userId u)
  /\
  (forall owner,
      v = JsString owner -> owner = Request.userId u ->
      outcome = (Ok tt, st'))
  /\ snd outcome = st'.
Proof.
  intros Hu Hr Hg. cbv zeta.
  rewrite (isAdminOrOwner_eq getResourceUserId req now st st' u v Hu Hr Hg).
  destruct v as [| |owner]; simpl.
  - split; [eauto|]. split; [|split; [discriminate|reflexivity]].
    split; [discriminate|]. intros [o [H _]]. discriminate.
  - split; [eauto|]. split; [|split; [discriminate|reflexivity]].
    split; [discriminate|]. intros [o [H _]]. discriminate.
  - split; [intros [H|H]; discriminate|].
    destruct (String.eqb_spec (Request.userId u) owner) as [E|E]; simpl.
    + split; [|split; [reflexivity|reflexivity]].
      split; [discriminate|].
      intros [o [H Ho]]. injection H as <-. congruence.
    + split; [|split; [|reflexivity]].
      * split; [|reflexivity]. intros _. exists owner. split; congruence.
      * intros o H Ho. injection H as <-. congruence.
Qed.

Lemma owner_guard_witness :
  let caller := Request.mkIdentity "ca401" "carol@x.com" "user" in
  let req := Request.mk None (Some caller) in
  exists m,
    RoleMiddleware.isAdminOrOwner (fun _ => ret JsNull) req 7000 tt
    = (Throw (TypeError m), tt).
Proof.
  cbv zeta.
  destruct (owner_guard (St := unit) (fun _ => ret JsNull)
              (Request.mk None
                 (Some (Request.mkIdentity "ca401" "carol@x.com" "user")))
              7000 tt tt
              (Request.mkIdentity "ca401" "carol@x.com" "user") JsNull)
    as [H _].
  - reflexivity.
  - discriminate.
  - reflexivity.
  - apply H. left. reflexivity.
Defined.

(** ** The scenario of the specification, run on the model

    Register, fail a login on a wrong password, log in, refresh with the
    refresh token of that login, log out: the refreshed access token
    carries the same claims as the one of the login under a later issue
    date, the stored refresh token ends null, and the refresh token of
    the login still refreshes after the logout. *)
Example scenario :
  let c0 : User.collection := [] in
  let registered := AuthService.register Sample.env Sample.alice 1000 "a11ce"
                                         7 c0 in
  let c1 := snd registered in
  let c2 := snd (AuthService.login Sample.env "alice@x.com" "Secret@123" 5000
                                   c1) in
  let c3 := snd (AuthService.logout "a11ce" 9000 c2) in
  registered
  = (Ok (Session.mk
           (User.mk "a11ce" "Alice" "alice@x.com" None "user" true None None
                    1000 1000)
           Sample.aliceAccess Sample.aliceRefresh "Registration successful"),
     [Sample.aliceStored])
  /\ fst (AuthService.login Sample.env "alice@x.com" "Wrong@123" 4000 c1)
     = Throw (Taxonomy.InvalidCredentialsError (Site.AuthService 85) 4000)
  /\ (exists session accessToken d1 d2 later,
         fst (AuthService.login Sample.env "alice@x.com" "Secret@123" 5000 c1)
         = Ok session
         /\ AuthService.refreshToken Sample.env (Session.refreshToken session)
                                     7000 c2
            = (Ok accessToken, c2)
         /\ accessToken <> Session.accessToken session
         /\ AuthService.verifyToken Sample.env (Session.accessToken session)
                                    8000 = Ok d1
         /\ AuthService.verifyToken Sample.env accessToken 8000 = Ok d2
         /\ Jwt.body d1 = Jwt.body d2
         /\ AuthService.refreshToken Sample.env (Session.refreshToken session)
                                     9500 c3
            = (Ok later, c3))
  /\ option_map User.refreshToken (User.find (byId "a11ce") c3) = Some None.
Proof.
  cbv zeta. split; [reflexivity|]. split; [reflexivity|]. split.
  - do 5 eexists.
    split; [vm_compute; reflexivity|].
    split; [vm_compute; reflexivity|].
    split; [discriminate|].
    split; [vm_compute; reflexivity|].
    split; [vm_compute; reflexivity|].
    split; [reflexivity|vm_compute; reflexivity].
  - reflexivity.
Qed.

(* ================================================================== *)
(** * Further properties of the code *)

(** ** Strings: case and white space *)

(** ** The collection under unique ids *)

Module AmendFacts.

Import User.

Lemma find_None_iff (id : string) (c : collection) :
  find (byId id) c = None <-> ~ In id (map _id c).
Proof.
  induction c as [|u c IH]; simpl; [tauto|].
  unfold byId at 1. destruct (String.eqb_spec (_id u) id) as [E|E].
  - split; [discriminate|]. intro H. exfalso. apply H. now left.
  - rewrite IH. tauto.
Qed.

Lemma find_email_None_iff (e : string) (c : collection) :
  find (byEmail e) c = None <-> ~ In e (map email c).
Proof.
  induction c as [|u c IH]; simpl; [tauto|].
  unfold byEmail at 1. destruct (String.eqb_spec (email u) e) as [E|E].
  - split; [discriminate|]. intro H. exfalso. apply H. now left.
  - rewrite IH. tauto.
Qed.

Lemma amend_absent (id : string) (f : t -> t) (c : collection) :
  ~ In id (map _id c) -> amend id f c = c.
Proof.
  induction c as [|u c IH]; simpl; [reflexivity|]. intro H.
  unfold byId at 1. destruct (String.eqb_spec (_id u) id) as [E|E].
  - exfalso. apply H. now left.
  - f_equal. apply IH. tauto.
Qed.

Lemma replace_fst (id : string) (f : t -> t) (c : collection) :
  fst (replace id f c) = option_map f (find (byId id) c).
Proof.
  induction c as [|v c IH]; simpl; [reflexivity|].
  unfold byId at 1. destruct (String.eqb (_id v) id); [reflexivity|].
  destruct (replace id f c). exact IH.
Qed.

(** With unique ids, an update by id is an update of every document of
    that id: there is at most one. *)
Lemma replace_amend (id : string) (f : t -> t) (c : collection) :
  NoDup (map _id c) -> snd (replace id f c) = amend id f c.
Proof.
  induction c as [|u c IH]; simpl; [reflexivity|]. intro H.
  inversion H as [|x l Hx Hl]; subst.
  unfold byId at 1. destruct (String.eqb_spec (_id u) id) as [E|E]; simpl.
  - subst id. now rewrite (amend_absent _ f c Hx).
  - specialize (IH Hl). destruct (replace id f c). simpl in *. now rewrite IH.
Qed.

Lemma map_id_amend (id : string) (f : t -> t) (c : collection) :
  (forall u, _id (f u) = _id u) -> map _id (amend id f c) = map _id c.
Proof.
  intro Hf. unfold amend. rewrite map_map. apply map_ext.
  intro u. destruct (byId id u); [apply Hf|reflexivity].
Qed.

Lemma map_email_amend (id : string) (f : t -> t) (c : collection) :
  (forall u, email (f u) = email u) -> map email (amend id f c) = map email c.
Proof.
  intro Hf. unfold amend. rewrite map_map. apply map_ext.
  intro u. destruct (byId id u); [apply Hf|reflexivity].
Qed.

Lemma amend_amend (id : string) (f g : t -> t) (c : collection) :
  (forall u, _id (f u) = _id u) ->
  amend id g (amend id f c) = amend id (fun u => g (f u)) c.
Proof.
  intro Hf. unfold amend. rewrite map_map. apply map_ext. intro u.
  destruct (byId id u) eqn:E.
  - unfold byId in *. rewrite Hf, E. reflexivity.
  - rewrite E. reflexivity.
Qed.

Lemma length_amend (id : string) (f : t -> t) (c : collection) :
  length (amend id f c) = length c.
Proof.
  unfold amend. apply length_map.
Qed.

(** An update that keeps ids, emails and validity keeps the invariant. *)
Lemma wellFormed_amend (id : string) (f : t -> t) (c : collection) :
  (forall u, _id (f u) = _id u) ->
  (forall u, email (f u) = email u) ->
  (forall u, validDoc u -> validDoc (f u)) ->
  wellFormed c -> wellFormed (amend id f c).
Proof.
  intros Hi He Hv (N1 & N2 & F). unfold wellFormed.
  rewrite map_id_amend, map_email_amend by assumption.
  split; [assumption|]. split; [assumption|].
  unfold amend. apply Forall_map. revert F. apply Forall_impl.
  intros u Hu. destruct (byId id u); auto.
Qed.

(** With unique ids, a stored document is the one its id finds. *)
Lemma find_own_id (c : collection) (u : t) :
  NoDup (map _id c) -> In u c -> find (byId (_id u)) c = Some u.
Proof.
  induction c as [|v c IH]; simpl; [tauto|]. intros H Hin.
  inversion H as [|x l Hx Hl]; subst.
  unfold byId at 1. destruct (String.eqb_spec (_id v) (_id u)) as [E|E].
  - destruct Hin as [->|Hin]; [reflexivity|].
    exfalso. apply Hx. rewrite E. now apply in_map.
  - destruct Hin as [->|Hin]; [congruence|]. now apply IH.
Qed.

Lemma find_own_email (c : collection) (u : t) :
  NoDup (map email c) -> In u c -> find (byEmail (email u)) c = Some u.
Proof.
  induction c as [|v c IH]; simpl; [tauto|]. intros H Hin.
  inversion H as [|x l Hx Hl]; subst.
  unfold byEmail at 1. destruct (String.eqb_spec (email v) (email u)) as [E|E].
  - destruct Hin as [->|Hin]; [reflexivity|].
    exfalso. apply Hx. rewrite E. now apply in_map.
  - destruct Hin as [->|Hin]; [congruence|]. now apply IH.
Qed.

(** What an id finds after an update by id. *)
Lemma find_amend (id id' : string) (f : t -> t) (c : collection) :
  (forall u, _id (f u) = _id u) ->
  find (byId id') (amend id f c) =
  if String.eqb id' id then option_map f (find (byId id) c)
  else find (byId id') c.
Proof.
  intro Hf. induction c as [|v c IH]; simpl.
  - destruct (String.eqb id' id); reflexivity.
  - destruct (byId id v) eqn:E.
    + unfold byId at 1. rewrite Hf. unfold byId in E.
      apply String.eqb_eq in E. rewrite E, (String.eqb_sym id id').
      destruct (String.eqb id' id) eqn:E'; [reflexivity|].
      unfold byId at 2. rewrite E, (String.eqb_sym id id'), E'. exact IH.
    + destruct (byId id' v) eqn:E'.
      * unfold byId in E, E'. apply String.eqb_eq in E'. subst id'.
        rewrite E. reflexivity.
      * exact IH.
Qed.

(** What an email finds after an update by id that keeps emails. *)
Lemma find_email_amend (id e : string) (f : t -> t) (c : collection) :
  (forall u, email (f u) = email u) ->
  find (byEmail e) (amend id f c)
  = option_map (fun u => if byId id u then f u else u) (find (byEmail e) c).
Proof.
  intro Hf. induction c as [|v c IH]; simpl; [reflexivity|].
  assert (H : byEmail e (if byId id v then f v else v) = byEmail e v)
    by (unfold byEmail; destruct (byId id v); [now rewrite Hf|reflexivity]).
  rewrite H. destruct (byEmail e v); [reflexivity|exact IH].
Qed.

End AmendFacts.

(** ** Sessions on a well-formed collection *)

Lemma recordSession_amend (id token : string) (now : N)
    (c : User.collection) :
  NoDup (map User._id c) ->
  recordSession id token now c = amend id (stamp token now) c.
Proof.
  intro H. unfold recordSession.
  rewrite (AmendFacts.replace_amend id _ c H).
  rewrite AmendFacts.replace_amend
    by (rewrite AmendFacts.map_id_amend; [exact H|intro; reflexivity]).
  rewrite AmendFacts.amend_amend by (intro; reflexivity).
  unfold amend. apply map_ext. intro u.
  destruct (byId id u); [destruct u; reflexivity|reflexivity].
Qed.

Lemma validDoc_stamp (token : string) (now : N) (u : User.t) :
  validDoc u -> validDoc (stamp token now u).
Proof.
  destruct u. unfold validDoc. simpl. tauto.
Qed.

Lemma sign_configured (p : Jwt.payload) (secret : option string) (d now : N) :
  (exists t, Jwt.sign p secret d now = Ok t) <-> configured secret.
Proof.
  unfold configured, Jwt.sign. split.
  - intros [t H]. destruct secret as [k|]; [|discriminate].
    destruct (Js.truthy k) eqn:E; [eauto|discriminate].
  - intros (k & -> & ->). eauto.
Qed.

Lemma sign_unconfigured (p : Jwt.payload) (secret : option string)
    (d now : N) :
  ~ configured secret -> Jwt.sign p secret d now = Throw noSecret.
Proof.
  intro H. unfold Jwt.sign. destruct secret as [k|]; [|reflexivity].
  destruct (Js.truthy k) eqn:E; [|reflexivity].
  exfalso. apply H. exists k. auto.
Qed.

(** The email of a valid document is in the form the schema casts to:
    a lookup under it finds it as it is. *)
Lemma validDoc_castEmail (u : User.t) :
  validDoc u -> User.castEmail (User.email u) = User.email u.
Proof.
  intros (_ & L & _ & V & _). unfold User.castEmail. rewrite L.
  apply matchEmail_trim. unfold User.checkEmail in V.
  destruct (negb (Js.truthy (User.email u))); [discriminate|].
  destruct (User.matchEmail (User.email u)); [reflexivity|discriminate].
Qed.

(** X1: a successful [login] changes three fields of one document.  On a
    well-formed collection the collection after it is the one before it
    with the refresh token, the last-login date and the update date of
    the logged-in user replaced; the stored refresh token is the one
    returned, and the collection is well formed again.  The user is the
    one whose stored email is the given one in lower case and trimmed. *)
Theorem login_rotates (env : Env) (email password : string) (now : N)
    (c c' : User.collection) (r : Session.t) :
  wellFormed c ->
  AuthService.login env email password now c = (Ok r, c') ->
  exists stored,
    In stored c
    /\ User.email stored = User.castEmail email
    /\ c' = amend (User._id stored) (stamp (Session.refreshToken r) now) c
    /\ User.find (byId (User._id stored)) c'
       = Some (stamp (Session.refreshToken r) now stored)
    /\ length c' = length c
    /\ wellFormed c'.
Proof.
  intros W. pose proof W as (N1 & N2 & F).
  rewrite login_eq. cbv zeta.
  destruct (User.find (byEmail (User.castEmail email)) c) as [stored|] eqn:E;
    [|discriminate].
  destruct (User.isActive stored); simpl; [|discriminate].
  destruct (User.password stored) as [h|]; [|discriminate].
  destruct (Bcrypt.compare password h); simpl; [|discriminate].
  destruct (AuthService.generateAccessToken env _ now) as [a|e];
    [|discriminate].
  destruct (AuthService.generateRefreshToken env _ now) as [t|e];
    [|discriminate].
  intro H. injection H as <- <-. simpl.
  destruct (StoreFacts.find_Some _ _ _ E) as [Hin He].
  apply String.eqb_eq in He.
  exists stored. rewrite recordSession_amend by exact N1.
  split; [exact Hin|]. split; [exact He|]. split; [reflexivity|].
  split.
  { rewrite AmendFacts.find_amend by (intro; reflexivity).
    rewrite String.eqb_refl, (AmendFacts.find_own_id c stored N1 Hin).
    reflexivity. }
  split; [apply AmendFacts.length_amend|].
  apply AmendFacts.wellFormed_amend; try (intro; reflexivity); [|exact W].
  intros u. apply validDoc_stamp.
Qed.

(** The sample collection of two users is well formed. *)
Lemma sample_wellFormed : wellFormed [Sample.carol; Sample.aliceStored].
Proof.
  split; [|split].
  - repeat constructor; simpl; intuition discriminate.
  - repeat constructor; simpl; intuition discriminate.
  - repeat constructor; try discriminate.
Qed.

Lemma login_rotates_witness :
  exists r c',
    AuthService.login Sample.env "alice@x.com" "Secret@123" 5000
                      [Sample.carol; Sample.aliceStored] = (Ok r, c')
    /\ exists stored,
         In stored [Sample.carol; Sample.aliceStored]
         /\ User.email stored = User.castEmail "alice@x.com"
         /\ c' = amend (User._id stored) (stamp (Session.refreshToken r) 5000)
                       [Sample.carol; Sample.aliceStored]
         /\ User.find (byId (User._id stored)) c'
            = Some (stamp (Session.refreshToken r) 5000 stored)
         /\ length c' = 2%nat
         /\ wellFormed c'.
Proof.
  eassert (L : AuthService.login Sample.env "alice@x.com" "Secret@123" 5000
                 [Sample.carol; Sample.aliceStored] = (Ok _, _))
    by (vm_compute; reflexivity).
  eexists. eexists. split; [exact L|].
  exact (login_rotates Sample.env "alice@x.com" "Secret@123" 5000 _ _ _
           sample_wellFormed L).
Defined.

(** X2: [login] succeeds exactly when the email, in lower case and
    trimmed as the schema casts the filter, finds an active user whose
    stored hash matches the password and both token secrets are
    configured. *)
Theorem login_succeeds_iff (env : Env) (email password : string) (now : N)
    (c : User.collection) :
  (exists r c', AuthService.login env email password now c = (Ok r, c'))
  <->
  (exists stored h,
      User.find (byEmail (User.castEmail email)) c = Some stored
      /\ User.isActive stored = true
      /\ User.password stored = Some h
      /\ Bcrypt.compare password h = true)
  /\ configured (JWT_SECRET env)
  /\ configured (JWT_REFRESH_SECRET env).
Proof.
  rewrite login_eq. cbv zeta. split.
  - intros (r & c' & H).
    destruct (User.find _ c) as [stored|]; [|discriminate].
    destruct (User.isActive stored) eqn:A; simpl in H; [|discriminate].
    destruct (User.password stored) as [h|] eqn:P; [|discriminate].
    destruct (Bcrypt.compare password h) eqn:B; simpl in H; [|discriminate].
    destruct (AuthService.generateAccessToken env _ now) as [a|e] eqn:Ga;
      [|discriminate].
    destruct (AuthService.generateRefreshToken env _ now) as [t|e] eqn:Gt;
      [|discriminate].
    split; [exists stored, h; auto|]. split.
    + unfold AuthService.generateAccessToken in Ga.
      eapply sign_configured. eexists. exact Ga.
    + unfold AuthService.generateRefreshToken in Gt.
      eapply sign_configured. eexists. exact Gt.
  - intros ((stored & h & -> & -> & -> & ->) & Ca & Ct). simpl.
    unfold AuthService.generateAccessToken, AuthService.generateRefreshToken.
    destruct Ca as (ka & -> & Hka). destruct Ct as (kt & -> & Hkt).
    rewrite !JwtFacts.sign_ok by assumption. eauto.
Qed.

Lemma login_succeeds_iff_witness :
  exists r c',
    AuthService.login Sample.env " Carol@X.com " "Secret@123" 5000
                      [Sample.carol] = (Ok r, c').
Proof.
  apply (proj2 (login_succeeds_iff Sample.env " Carol@X.com " "Secret@123"
                  5000 [Sample.carol])).
  split; [|split].
  - exists Sample.carol, (Bcrypt.hash 10 4 "Secret@123").
    repeat split; reflexivity.
  - eexists; split; reflexivity.
  - eexists; split; reflexivity.
Defined.

(** ** Registration: what it leaves behind *)

Lemma valid_inv (d : User.data) :
  valid d = true ->
  User.checkName (Js.trim (User.d_name d)) = []
  /\ User.checkEmail (Js.trim (Js.toLowerCase (User.d_email d))) = []
  /\ User.checkPassword (User.d_password d) = []
  /\ User.checkRole (roleOf d) = [].
Proof.
  unfold valid.
  destruct (User.checkName _), (User.checkEmail _), (User.checkPassword _),
    (User.checkRole _); simpl; try discriminate. auto.
Qed.

Lemma validDoc_created (env : Env) (d : User.data) (now : N) (oid : string)
    (salt : N) :
  valid d = true -> validDoc (created env d now oid salt).
Proof.
  intro H. apply valid_inv in H. destruct H as (H1 & H2 & _ & H4).
  unfold validDoc, created. simpl.
  split; [discriminate|]. split; [apply stored_email_lower|]. auto.
Qed.

(** Appending a document of a new id and a new email keeps the
    invariant. *)
Lemma wellFormed_app (c : User.collection) (u : User.t) :
  wellFormed c ->
  User.find (byId (User._id u)) c = None ->
  User.find (byEmail (User.email u)) c = None ->
  validDoc u ->
  wellFormed (c ++ [u])%list.
Proof.
  intros (N1 & N2 & F) Hi He Hv.
  apply AmendFacts.find_None_iff in Hi.
  apply AmendFacts.find_email_None_iff in He.
  unfold wellFormed. rewrite !map_app. simpl.
  split; [|split].
  - apply NoDup_app; [exact N1|repeat constructor; tauto|].
    intros x Hx [<-|[]]. contradiction.
  - apply NoDup_app; [exact N2|repeat constructor; tauto|].
    intros x Hx [<-|[]]. contradiction.
  - apply Forall_app. split; [exact F|].
    apply Forall_cons; [exact Hv|constructor].
Qed.

(** [register], by what it leaves in the collection, whatever it
    answers. *)
Lemma register_cases (env : Env) (d : User.data) (now : N) (oid : string)
    (salt : N) (c c' : User.collection) (x : result Session.t) :
  AuthService.register env d now oid salt c = (x, c') ->
  (c' = c /\ (forall e, x = Throw e -> e <> noSecret)
   /\ forall r, x <> Ok r)
  \/
  (valid d = true
   /\ User.find (byId oid) c = None
   /\ User.find (byEmail (Js.trim (Js.toLowerCase (User.d_email d)))) c = None
   /\ ((x = Throw noSecret /\ c' = (c ++ [created env d now oid salt])%list)
       \/ exists r,
            x = Ok r
            /\ c' = (c ++ [stamp (Session.refreshToken r) now
                                 (created env d now oid salt)])%list)).
Proof.
  rewrite register_eq.
  destruct (User.find (byEmail _) c).
  { intro H. injection H as <- <-. left.
    split; [reflexivity|]. split; [|discriminate].
    intros e H. injection H as <-. discriminate. }
  destruct (User.create env d now oid salt c) as [[u|e] c1] eqn:C.
  2:{ intro H. injection H as <- <-. left.
      split; [exact (create_throw _ _ _ _ _ _ _ _ C)|].
      split; [|discriminate].
      intros e' H. injection H as <-.
      unfold User.create in C. cbv zeta in C.
      destruct (_ ++ _)%list; [destruct (User.find _ c)|];
        inversion C; discriminate. }
  apply create_inv in C. destruct C as (Hv & Hf & -> & ->).
  apply find_or_none in Hf. destruct Hf as [Hid Hem].
  destruct (AuthService.generateAccessToken env _ now) as [a|e] eqn:Ga.
  2:{ intro H. injection H as <- <-. right. repeat split; auto.
      left. apply sign_throws in Ga. subst e. auto. }
  destruct (AuthService.generateRefreshToken env _ now) as [t|e] eqn:Gt.
  2:{ intro H. injection H as <- <-. right. repeat split; auto.
      left. apply sign_throws in Gt. subst e. auto. }
  intro H. injection H as <- <-. right. repeat split; auto.
  right. eexists. split; [reflexivity|]. simpl.
  unfold recordSession.
  rewrite (replace_appended oid _ c _ Hid)
    by (unfold byId; simpl; apply String.eqb_refl).
  rewrite (replace_appended oid _ c _ Hid)
    by (unfold byId; simpl; apply String.eqb_refl).
  reflexivity.
Qed.

(** X3: [register] keeps the collection well formed, whatever it
    answers: ids and emails stay unique and every document valid.  It
    leaves the collection as it was or with one more document, and as it
    was whenever it throws anything but the error of a missing token
    secret. *)
Theorem register_keeps_wellFormed (env : Env) (userData : User.data)
    (now : N) (oid : string) (salt : N) (c c' : User.collection)
    (x : result Session.t) :
  wellFormed c ->
  AuthService.register env userData now oid salt c = (x, c') ->
  wellFormed c'
  /\ (c' = c
      \/ exists u, c' = (c ++ [u])%list /\ User._id u = oid
                   /\ User.email u
                      = Js.trim (Js.toLowerCase (User.d_email userData)))
  /\ (forall e, x = Throw e -> e <> noSecret -> c' = c).
Proof.
  intros W H. apply register_cases in H.
  destruct H as [(-> & Hn & _)|(Hv & Hid & Hem & H)].
  { split; [exact W|]. split; [now left|]. reflexivity. }
  assert (W1 : forall u,
             User._id u = oid ->
             User.email u
             = Js.trim (Js.toLowerCase (User.d_email userData)) ->
             validDoc u -> wellFormed (c ++ [u])%list).
  { intros u Hi He Hu. apply wellFormed_app; auto; congruence. }
  destruct H as [[-> ->]|(r & -> & ->)].
  - split; [|split].
    + apply W1; try reflexivity. now apply validDoc_created.
    + right. eexists. split; [reflexivity|]. split; reflexivity.
    + intros e H He. injection H as <-. contradiction.
  - split; [|split].
    + apply W1; try reflexivity.
      apply validDoc_stamp. now apply validDoc_created.
    + right. eexists. split; [reflexivity|]. split; reflexivity.
    + discriminate.
Qed.

Lemma register_keeps_wellFormed_witness :
  exists x c',
    AuthService.register Sample.env Sample.mallory 7000 "3a110" 9
                         [Sample.carol; Sample.aliceStored] = (x, c')
    /\ wellFormed c'.
Proof.
  eexists. eexists. split; [reflexivity|].
  exact (proj1 (register_keeps_wellFormed Sample.env Sample.mallory 7000
                  "3a110" 9 _ _ _ sample_wellFormed eq_refl)).
Defined.

Lemma find_appended (e : string) (c : User.collection) (u : User.t) :
  User.find (byEmail e) c = None ->
  User.email u = e ->
  User.find (byEmail e) (c ++ [u])%list = Some u.
Proof.
  intros H He. rewrite StoreFacts.find_app, H. simpl.
  unfold byEmail. rewrite He, String.eqb_refl. reflexivity.
Qed.

(** X4: the tokens are signed before they are stored, and the user is
    inserted before they are signed.  With a token secret missing,
    [register] of a valid, new user throws after the insertion: the user
    stays in the collection without a session, and registering again
    under that email answers DuplicateEmailError. *)
Theorem register_not_rolled_back (env : Env) (userData : User.data)
    (now : N) (oid : string) (salt : N) (c : User.collection) :
  valid userData = true ->
  User.find (byId oid) c = None ->
  User.find (byEmail (Js.toLowerCase (User.d_email userData))) c = None ->
  Js.trim (Js.toLowerCase (User.d_email userData))
  = Js.toLowerCase (User.d_email userData) ->
  ~ configured (JWT_SECRET env) \/ ~ configured (JWT_REFRESH_SECRET env) ->
  let c' := (c ++ [created env userData now oid salt])%list in
  AuthService.register env userData now oid salt c = (Throw noSecret, c')
  /\ forall now' oid' salt',
       AuthService.register env userData now' oid' salt' c'
       = (Throw (Taxonomy.DuplicateEmailError now'), c').
Proof.
  intros Hv Hid Hem Ht Hs. cbv zeta. split.
  - rewrite register_eq. unfold User.castEmail. rewrite Ht, Hem.
    rewrite (create_eq env userData now oid salt c Hv).
    2:{ rewrite Ht. clear - Hid Hem.
        induction c as [|w c IH]; simpl in *; [reflexivity|].
        destruct (byId oid w); [discriminate|].
        destruct (byEmail _ w); [discriminate|]. simpl. auto. }
    unfold AuthService.generateAccessToken, AuthService.generateRefreshToken.
    destruct Hs as [Hs|Hs].
    + rewrite sign_unconfigured by exact Hs. reflexivity.
    + rewrite (sign_unconfigured _ (JWT_REFRESH_SECRET env)) by exact Hs.
      destruct (Jwt.sign _ (JWT_SECRET env) _ now) as [a|e] eqn:G;
        [reflexivity|].
      apply sign_throws in G. subst e. reflexivity.
  - intros now' oid' salt'.
    apply (register_found env userData now' oid' salt' _
             (created env userData now oid salt)).
    unfold User.castEmail. rewrite Ht.
    apply find_appended; [exact Hem|]. simpl. exact Ht.
Qed.

Lemma register_not_rolled_back_witness :
  let env := mkEnv (Some "access-secret") None None None None in
  let c' := [created env Sample.alice 1000 "a11ce" 7] in
  AuthService.register env Sample.alice 1000 "a11ce" 7 []
  = (Throw noSecret, c')
  /\ forall now' oid' salt',
       AuthService.register env Sample.alice now' oid' salt' c'
       = (Throw (Taxonomy.DuplicateEmailError now'), c').
Proof.
  cbv zeta.
  apply (register_not_rolled_back
           (mkEnv (Some "access-secret") None None None None) Sample.alice
           1000 "a11ce" 7 []); try reflexivity.
  right. intros (k & H & _). discriminate.
Defined.


(** X5: a user who has registered can log in.  After a successful
    [register], [login] under that email, in any letter case and with
    any white space around it, succeeds for that user with the
    registered password, and with any password of which bcrypt reads
    the same 72 bytes; with a password of which it reads other bytes,
    [login] throws InvalidCredentialsError and writes nothing; if the
    input had set [isActive] to false, every login throws
    AccountDeactivatedError. *)
Theorem register_then_login (env : Env) (userData : User.data)
    (now0 now : N) (oid : string) (salt : N) (c c1 : User.collection)
    (r0 : Session.t) (email : string) :
  AuthService.register env userData now0 oid salt c = (Ok r0, c1) ->
  User.castEmail email = User.castEmail (User.d_email userData) ->
  match User.d_isActive userData with
  | Some false =>
      forall password,
        AuthService.login env email password now c1
        = (Throw (Taxonomy.AccountDeactivatedError now), c1)
  | _ =>
      (forall password,
          Bcrypt.key password = Bcrypt.key (User.d_password userData) ->
          exists r c2,
            AuthService.login env email password now c1 = (Ok r, c2)
            /\ User._id (Session.user r) = oid)
      /\ forall password,
           Bcrypt.key password <> Bcrypt.key (User.d_password userData) ->
           AuthService.login env email password now c1
           = (Throw (Taxonomy.InvalidCredentialsError (Site.AuthService 85)
                                                      now), c1)
  end.
Proof.
  intros R He. apply register_ok in R. cbv zeta in R.
  destruct R as (Hem & _ & _ & _ & _ & Ha & Ht & ->).
  set (u := User.mk _ _ _ _ _ _ _ _ _ _).
  assert (F : User.find (byEmail (User.castEmail email)) (c ++ [u])%list
              = Some u).
  { rewrite He. apply find_appended; [exact Hem|reflexivity]. }
  assert (Ca : configured (JWT_SECRET env))
    by (eapply sign_configured; eexists; exact Ha).
  assert (Ct : configured (JWT_REFRESH_SECRET env))
    by (eapply sign_configured; eexists; exact Ht).
  assert (L : forall password,
             AuthService.login env email password now (c ++ [u])%list =
             if negb (match User.d_isActive userData with
                      | Some b => b
                      | None => true
                      end) then
               (Throw (Taxonomy.AccountDeactivatedError now), (c ++ [u])%list)
             else if negb (String.eqb (Bcrypt.key password)
                             (Bcrypt.key (User.d_password userData)))
             then (Throw (Taxonomy.InvalidCredentialsError
                            (Site.AuthService 85) now), (c ++ [u])%list)
             else
               match AuthService.generateAccessToken env
                       (User.selectWithPassword u) now with
               | Throw e => (Throw e, (c ++ [u])%list)
               | Ok accessToken =>
                 match AuthService.generateRefreshToken env
                         (User.selectWithPassword u) now with
                 | Throw e => (Throw e, (c ++ [u])%list)
                 | Ok refreshToken =>
                     (Ok (Session.mk
                            (AuthService.sanitizeUser
                               (User.selectWithPassword u))
                            accessToken refreshToken
                            Constants.SUCCESS_MESSAGES.LOGIN_SUCCESS),
                      recordSession oid refreshToken now (c ++ [u])%list)
                 end
               end).
  { intro password. rewrite login_eq, F. reflexivity. }
  assert (K : forall password,
             Bcrypt.key password = Bcrypt.key (User.d_password userData) ->
             (match User.d_isActive userData with
              | Some b => b
              | None => true
              end) = true ->
             exists r c2,
               AuthService.login env email password now (c ++ [u])%list
               = (Ok r, c2)
               /\ User._id (Session.user r) = oid).
  { intros password Hk Hact. rewrite L, Hact, Hk, String.eqb_refl.
    cbn [negb].
    unfold AuthService.generateAccessToken, AuthService.generateRefreshToken.
    destruct Ca as (ka & -> & Hka). destruct Ct as (kt & -> & Hkt).
    rewrite !JwtFacts.sign_ok by assumption. eexists. eexists.
    split; reflexivity. }
  assert (D : forall password,
             Bcrypt.key password <> Bcrypt.key (User.d_password userData) ->
             (match User.d_isActive userData with
              | Some b => b
              | None => true
              end) = true ->
             AuthService.login env email password now (c ++ [u])%list
             = (Throw (Taxonomy.InvalidCredentialsError
                         (Site.AuthService 85) now), (c ++ [u])%list)).
  { intros password Hk Hact. rewrite L, Hact.
    apply String.eqb_neq in Hk. rewrite Hk. reflexivity. }
  destruct (User.d_isActive userData) as [[]|] eqn:A.
  - split; intros password Hk; [apply K|apply D]; auto.
  - intro password. rewrite L. reflexivity.
  - split; intros password Hk; [apply K|apply D]; auto.
Qed.

Lemma register_then_login_witness :
  let c1 := snd (AuthService.register Sample.env Sample.alice 1000 "a11ce" 7
                                      []) in
  (exists r c2,
      AuthService.login Sample.env " ALICE@x.com " "Secret@123" 5000 c1
      = (Ok r, c2)
      /\ User._id (Session.user r) = "a11ce")
  /\ AuthService.login Sample.env " ALICE@x.com " "Secret@124" 5000 c1
     = (Throw (Taxonomy.InvalidCredentialsError (Site.AuthService 85) 5000),
        c1).
Proof.
  cbv zeta.
  eassert (R : AuthService.register Sample.env Sample.alice 1000 "a11ce" 7 []
               = (Ok _, _)) by (vm_compute; reflexivity).
  destruct (register_then_login Sample.env Sample.alice 1000 5000 "a11ce" 7
              [] _ _ " ALICE@x.com " R eq_refl) as [H1 H2].
  split.
  - apply H1. reflexivity.
  - apply H2. vm_compute. discriminate.
Defined.

(** ** Tokens *)

(** X6: an access token verifies until it expires.  [verifyToken] on a
    token [generateAccessToken] made returns the id, the email and the
    role of the user with the issue and expiry dates, and from the
    expiry date on throws ExpiredTokenError. *)
Theorem access_token_round_trip (env : Env) (u : User.t) (now0 now : N)
    (token : string) :
  AuthService.generateAccessToken env u now0 = Ok token ->
  AuthService.verifyToken env token now =
  if now0 / 1000 + accessLifetime env <=? now / 1000 then
    Throw (Taxonomy.ExpiredTokenError (Site.AuthService 218) now)
  else
    Ok (Jwt.mkDecoded
          (Jwt.mkPayload (User._id u) (Some (User.email u))
                         (Some (User.role u)))
          (now0 / 1000) (now0 / 1000 + accessLifetime env)).
Proof.
  intro H. unfold AuthService.generateAccessToken in H.
  apply JwtFacts.sign_inv in H. destruct H as (k & Hk & Hkt & ->).
  unfold AuthService.verifyToken.
  rewrite JwtFacts.verify_encode, Hk, Hkt.
  fold (accessLifetime env).
  cbn [negb Jwt.key Jwt.content Jwt.exp]. rewrite String.eqb_refl.
  cbn [negb].
  destruct (now0 / 1000 + accessLifetime env <=? now / 1000); reflexivity.
Qed.

Lemma access_token_round_trip_witness :
  AuthService.verifyToken Sample.env Sample.aliceAccess 604800999
  = Ok (Jwt.mkDecoded
          (Jwt.mkPayload "a11ce" (Some "alice@x.com") (Some "user"))
          1 604801)
  /\ AuthService.verifyToken Sample.env Sample.aliceAccess 604801000
     = Throw (Taxonomy.ExpiredTokenError (Site.AuthService 218) 604801000).
Proof.
  split.
  - exact (access_token_round_trip Sample.env Sample.aliceStored 1000
             604800999 Sample.aliceAccess eq_refl).
  - exact (access_token_round_trip Sample.env Sample.aliceStored 1000
             604801000 Sample.aliceAccess eq_refl).
Defined.



(** ** Logout *)

Lemma replace_replace (id : string) (f g : User.t -> User.t)
    (c : User.collection) :
  (forall u, User._id (f u) = User._id u) ->
  snd (User.replace id g (snd (User.replace id f c)))
  = snd (User.replace id (fun u => g (f u)) c).
Proof.
  intro Hf. induction c as [|v c IH]; simpl; [reflexivity|].
  destruct (String.eqb (User._id v) id) eqn:E; simpl.
  - rewrite Hf, E. reflexivity.
  - destruct (User.replace id f c) as [o1 c1].
    destruct (User.replace id (fun u => g (f u)) c) as [o2 c2].
    simpl in *. rewrite E.
    destruct (User.replace id g c1) as [o3 c3]. simpl in *. now rewrite IH.
Qed.

Lemma replace_ext (id : string) (f g : User.t -> User.t)
    (c : User.collection) :
  (forall u, f u = g u) ->
  snd (User.replace id f c) = snd (User.replace id g c).
Proof.
  intro H. induction c as [|v c IH]; simpl; [reflexivity|].
  destruct (String.eqb (User._id v) id); simpl; [now rewrite H|].
  destruct (User.replace id f c), (User.replace id g c). simpl in *.
  now rewrite IH.
Qed.

Lemma replace_absent (id : string) (f : User.t -> User.t)
    (c : User.collection) :
  User.find (byId id) c = None -> User.replace id f c = (None, c).
Proof.
  induction c as [|v c IH]; simpl; [reflexivity|].
  unfold byId at 1. destruct (String.eqb (User._id v) id); [discriminate|].
  intro H. now rewrite (IH H).
Qed.

(** X8: [logout] answers success for every id written as an ObjectId
    is, stored or not, and is idempotent.  It writes null over the
    stored refresh token of the first document of that id and moves its
    update date, leaving every other field and every document of
    another id as they were; for an id no document has it changes
    nothing; logging out twice leaves what the second logout alone
    would leave. *)
Theorem logout_idempotent (userId : string) (now1 now2 : N)
    (c : User.collection) :
  ObjectId.canonical userId = true ->
  let c1 := snd (AuthService.logout userId now1 c) in
  fst (AuthService.logout userId now1 c)
  = Ok Constants.SUCCESS_MESSAGES.LOGOUT_SUCCESS
  /\ User.find (byId userId) c1
     = option_map (loggedOut now1) (User.find (byId userId) c)
  /\ (forall other, other <> userId ->
                    User.find (byId other) c1 = User.find (byId other) c)
  /\ (User.find (byId userId) c = None -> c1 = c)
  /\ length c1 = length c
  /\ snd (AuthService.logout userId now2 c1)
     = snd (AuthService.logout userId now2 c).
Proof.
  intros _. cbv zeta. rewrite !logout_eq. cbn [fst snd].
  split; [reflexivity|]. split; [|split; [|split; [|split]]].
  - rewrite StoreFacts.find_replace by (intro; reflexivity).
    rewrite String.eqb_refl. reflexivity.
  - intros other Ho.
    rewrite StoreFacts.find_replace by (intro; reflexivity).
    destruct (String.eqb_spec other userId); [contradiction|reflexivity].
  - intro H. rewrite (replace_absent _ _ _ H). reflexivity.
  - clear. induction c as [|v c IH]; simpl; [reflexivity|].
    destruct (String.eqb (User._id v) userId); simpl; [reflexivity|].
    destruct (User.replace userId _ c). simpl in *. now rewrite IH.
  - rewrite replace_replace by (intro; reflexivity).
    apply replace_ext. intro u. destruct u; reflexivity.
Qed.

Lemma logout_idempotent_witness :
  AuthService.logout SampleHex.absentId 3000 [SampleHex.carol]
  = (Ok "Logout successful", [SampleHex.carol])
  /\ AuthService.logout SampleHex.carolId 3000 [SampleHex.carol]
     = (Ok "Logout successful", [loggedOut 3000 SampleHex.carol]).
Proof.
  destruct (logout_idempotent SampleHex.absentId 3000 4000 [SampleHex.carol]
              eq_refl) as (H1 & _ & _ & H2 & _).
  destruct (logout_idempotent SampleHex.carolId 3000 4000 [SampleHex.carol]
              eq_refl) as (H3 & _).
  split.
  - rewrite (surjective_pairing (AuthService.logout _ _ _)).
    rewrite H1, (H2 eq_refl). reflexivity.
  - rewrite (surjective_pairing (AuthService.logout _ _ _)).
    rewrite H3. reflexivity.
Defined.

(** ** What the guard reads *)

(** The guard reads the id, the email, the role and the activity flag
    of a document: an update by id that keeps the four changes nothing
    of what [authenticate] answers. *)
Lemma authenticate_frame (env : Env) (req : Request.t) (now : N)
    (id : string) (f : User.t -> User.t) (c : User.collection) :
  (forall u, guardView (f u) = guardView u) ->
  fst (AuthMiddleware.authenticate env req now (snd (User.replace id f c)))
  = fst (AuthMiddleware.authenticate env req now c).
Proof.
  intro Hf.
  assert (Hid : forall u, User._id (f u) = User._id u)
    by (intro u; specialize (Hf u); unfold guardView in Hf; congruence).
  rewrite !authenticate_eq.
  destruct (AuthMiddleware.noBearer _); [reflexivity|].
  destruct (Jwt.verify _ _ now) as [d|e].
  2:{ unfold AuthService.onJwtError.
      destruct (String.eqb (name e) "JsonWebTokenError"); [reflexivity|].
      destruct (String.eqb (name e) "TokenExpiredError"); reflexivity. }
  rewrite StoreFacts.find_replace by exact Hid.
  destruct (String.eqb_spec (Jwt.userId (Jwt.body d)) id) as [->|_];
    [|destruct (User.find _ c) as [u|]; [destruct (User.isActive u)|];
      reflexivity].
  destruct (User.find (byId id) c) as [u|]; [|reflexivity]. simpl.
  specialize (Hf u). unfold guardView in Hf. injection Hf as H1 H2 H3 H4.
  unfold identityOf. rewrite H1, H2, H3, H4.
  destruct (User.isActive u); reflexivity.
Qed.

(** X9: neither a logout nor a later login revokes an access token.
    What [authenticate] answers to a request is the same after [logout]
    of any user, and after the writes of any session, as before. *)
Theorem authenticate_survives_logout (env : Env) (req : Request.t)
    (now nowL : N) (userId token : string) (c : User.collection) :
  fst (AuthMiddleware.authenticate env req now
         (snd (AuthService.logout userId nowL c)))
  = fst (AuthMiddleware.authenticate env req now c)
  /\
  fst (AuthMiddleware.authenticate env req now
         (recordSession userId token nowL c))
  = fst (AuthMiddleware.authenticate env req now c).
Proof.
  split.
  - rewrite logout_eq. cbn [snd].
    apply authenticate_frame. intro u. destruct u; reflexivity.
  - unfold recordSession.
    rewrite authenticate_frame by (intro u; destruct u; reflexivity).
    apply authenticate_frame. intro u. destruct u; reflexivity.
Qed.

(** ** From login to the guards *)

(** What a successful [login] issued and wrote, on a collection with
    unique ids. *)
Lemma login_ok (env : Env) (email password : string) (now : N)
    (c c' : User.collection) (r : Session.t) :
  NoDup (map User._id c) ->
  AuthService.login env email password now c = (Ok r, c') ->
  exists stored,
    In stored c
    /\ User.isActive stored = true
    /\ Session.user r = User.selectDefault stored
    /\ AuthService.generateAccessToken env (User.selectWithPassword stored)
                                       now = Ok (Session.accessToken r)
    /\ AuthService.generateRefreshToken env (User.selectWithPassword stored)
                                        now = Ok (Session.refreshToken r)
    /\ c' = amend (User._id stored) (stamp (Session.refreshToken r) now) c.
Proof.
  intros N1. rewrite login_eq. cbv zeta.
  destruct (User.find (byEmail (User.castEmail email)) c) as [stored|] eqn:E;
    [|discriminate].
  destruct (User.isActive stored) eqn:A; simpl; [|discriminate].
  destruct (User.password stored) as [h|]; [|discriminate].
  destruct (Bcrypt.compare password h); simpl; [|discriminate].
  destruct (AuthService.generateAccessToken env _ now) as [a|e] eqn:Ga;
    [|discriminate].
  destruct (AuthService.generateRefreshToken env _ now) as [t|e] eqn:Gt;
    [|discriminate].
  intro H. injection H as <- <-. simpl.
  destruct (StoreFacts.find_Some _ _ _ E) as [Hin _].
  exists stored. rewrite recordSession_amend by exact N1.
  repeat split; auto.
Qed.

(** X10: the access token of a login opens the guard.  After a successful
    [login] on a collection with unique ids, [authenticate] on the bearer
    header made of the returned access token, before the token expires,
    attaches the id, the email and the role of the returned user, and
    writes nothing. *)
Theorem login_then_authenticate (env : Env) (email password : string)
    (now now2 : N) (c c' : User.collection) (r : Session.t) :
  NoDup (map User._id c) ->
  AuthService.login env email password now c = (Ok r, c') ->
  now2 / 1000 < now / 1000 + accessLifetime env ->
  let header := "Bearer " ++ Session.accessToken r in
  AuthMiddleware.authenticate env (Request.mk (Some header) None) now2 c'
  = (Ok (Request.mk (Some header)
           (Some (Request.mkIdentity (User._id (Session.user r))
                    (User.email (Session.user r))
                    (User.role (Session.user r))))), c').
Proof.
  intros N1 L Hexp. cbv zeta.
  destruct (login_ok env email password now c c' r N1 L)
    as (stored & Hin & Hact & Hu & Ha & _ & ->).
  unfold AuthService.generateAccessToken in Ha.
  apply JwtFacts.sign_inv in Ha. destruct Ha as (k & Hk & Hkt & Ha).
  rewrite authenticate_eq. cbn [Request.authorization].
  rewrite noBearer_bearer. cbn [AuthMiddleware.bearerToken].
  rewrite Ha, split_bearer by apply JwtFacts.encode_noSpace.
  rewrite JwtFacts.verify_encode, Hk, Hkt.
  cbn [negb Jwt.key Jwt.content Jwt.exp]. rewrite String.eqb_refl.
  cbn [negb]. fold (accessLifetime env).
  destruct (N.leb_spec (now / 1000 + accessLifetime env) (now2 / 1000))
    as [Hle|_]; [lia|].
  cbn [Jwt.body Jwt.userId User.selectWithPassword User.setRefreshToken
       User._id].
  rewrite AmendFacts.find_amend by (intro; reflexivity).
  rewrite String.eqb_refl, (AmendFacts.find_own_id c stored N1 Hin).
  cbn [option_map]. rewrite Hu.
  destruct stored; simpl in *. rewrite Hact. reflexivity.
Qed.

Lemma login_then_authenticate_witness :
  exists r c',
    AuthService.login Sample.env "alice@x.com" "Secret@123" 5000
                      [Sample.carol; Sample.aliceStored] = (Ok r, c')
    /\ AuthMiddleware.authenticate Sample.env
         (Request.mk (Some ("Bearer " ++ Session.accessToken r)) None)
         9000 c'
       = (Ok (Request.mk (Some ("Bearer " ++ Session.accessToken r))
                (Some (Request.mkIdentity (User._id (Session.user r))
                         (User.email (Session.user r))
                         (User.role (Session.user r))))), c').
Proof.
  eassert (L : AuthService.login Sample.env "alice@x.com" "Secret@123" 5000
                 [Sample.carol; Sample.aliceStored] = (Ok _, _))
    by (vm_compute; reflexivity).
  eexists. eexists. split; [exact L|].
  apply (login_then_authenticate Sample.env "alice@x.com" "Secret@123" 5000
           9000 _ _ _ (proj1 sample_wellFormed) L).
  reflexivity.
Defined.

(** X11: the administrator gate reads the stored role.  On the route
    [authenticate, isAdmin], a request whose token verifies for a stored,
    active user passes exactly when the role of the stored document is
    'admin', whatever role the token claims. *)
Theorem admin_gate_reads_stored_role (env : Env) (req : Request.t) (now : N)
    (c : User.collection) (h : string) (decoded : Jwt.decoded)
    (stored : User.t) :
  Request.authorization req = Some h ->
  Js.startsWith h "Bearer " = true ->
  Jwt.verify (nth_error (Js.split " " h) 1) (JWT_SECRET env) now
  = Ok decoded ->
  User.find (byId (Jwt.userId (Jwt.body decoded))) c = Some stored ->
  User.isActive stored = true ->
  (req' <- AuthMiddleware.authenticate env req now ;;
   RoleMiddleware.isAdmin req' now) c
  = if String.eqb (User.role stored) "admin" then (Ok tt, c)
    else (Throw (Taxonomy.ForbiddenError (Site.roleMiddleware 182) now
                   "You do not have permission to access this resource"),
          c).
Proof.
  intros Hh Hs Hv Hf Ha. unfold bind.
  rewrite authenticate_eq, Hh. unfold AuthMiddleware.noBearer.
  rewrite (startsWith_truthy h "Bearer " eq_refl Hs), Hs.
  cbn [negb orb AuthMiddleware.bearerToken]. rewrite Hv, Hf, Ha.
  cbn [negb]. unfold RoleMiddleware.isAdmin, RoleMiddleware.authorize.
  cbn [Request.user identityOf Request.role existsb].
  rewrite orb_false_r.
  destruct (String.eqb_spec (User.role stored) Constants.USER_ROLES.ADMIN)
    as [E|E].
  - rewrite E. reflexivity.
  - destruct (String.eqb_spec (User.role stored) "admin") as [E'|_];
      [contradiction|reflexivity].
Qed.

Lemma admin_gate_reads_stored_role_witness :
  (req' <- AuthMiddleware.authenticate Sample.env
             (Request.mk (Some ("Bearer " ++ staleAdminToken)) None) 3000 ;;
   RoleMiddleware.isAdmin req' 3000) [Sample.carol]
  = (Throw (Taxonomy.ForbiddenError (Site.roleMiddleware 182) 3000
              "You do not have permission to access this resource"),
     [Sample.carol]).
Proof.
  exact (admin_gate_reads_stored_role Sample.env
           (Request.mk (Some ("Bearer " ++ staleAdminToken)) None) 3000
           [Sample.carol] ("Bearer " ++ staleAdminToken)
           (Jwt.mkDecoded
              (Jwt.mkPayload "ca401" (Some "carol@x.com") (Some "admin"))
              1 604801)
           Sample.carol eq_refl eq_refl eq_refl eq_refl eq_refl).
Defined.

(** X12: [optionalAuth] never throws and never writes.  It hands on the
    request [authenticate] would hand on when that one succeeds, and the
    request as it came, with no identity attached, when that one
    throws. *)
Theorem optionalAuth_never_throws (env : Env) (req : Request.t) (now : N)
    (c : User.collection) :
  exists req',
    AuthMiddleware.optionalAuth env req now c = (Ok req', c)
    /\ (forall r c',
           AuthMiddleware.authenticate env req now c = (Ok r, c') ->
           req' = r)
    /\ (forall e c',
           AuthMiddleware.authenticate env req now c = (Throw e, c') ->
           req' = req).
Proof.
  rewrite authenticate_eq. unfold AuthMiddleware.optionalAuth. cbv zeta.
  destruct (AuthMiddleware.noBearer _).
  { exists req. split; [reflexivity|]. split; [discriminate|reflexivity]. }
  unfold tryCatch. unfold bind at 1. unfold lift at 1.
  destruct (Jwt.verify _ _ now) as [d|e].
  2:{ exists req. split; [reflexivity|]. split; [|reflexivity].
      intros r c'. unfold AuthService.onJwtError, throw.
      destruct (String.eqb (name e) "JsonWebTokenError"); [discriminate|].
      destruct (String.eqb (name e) "TokenExpiredError"); discriminate. }
  unfold bind at 1. unfold UserRepository.findById, User.findById.
  unfold bind at 1. unfold ret at 1.
  fold (byId (Jwt.userId (Jwt.body d))).
  destruct (User.find (byId (Jwt.userId (Jwt.body d))) c) as [u|]; simpl.
  2:{ exists req. split; [reflexivity|]. split; [discriminate|reflexivity]. }
  destruct (User.isActive u); simpl.
  - eexists. split; [reflexivity|]. split; [|discriminate].
    intros r c' H. injection H as <- _. reflexivity.
  - exists req. split; [reflexivity|]. split; [discriminate|reflexivity].
Qed.

(** X13: the owner guard consults the resolver only for an authenticated
    caller who is not an administrator.  Without an identity it throws
    UnauthorizedError and for an administrator it lets the request
    through, in both cases with the state untouched, whatever the
    resolver would do; what the resolver throws comes out unchanged. *)
Theorem owner_guard_short_circuits {St : Type}
    (getResourceUserId : Request.t -> M St jsval) (req : Request.t)
    (now : N) (st : St) :
  (Request.user req = None ->
   RoleMiddleware.isAdminOrOwner getResourceUserId req now st
   = (Throw (Taxonomy.UnauthorizedError (Site.roleMiddleware 210) now ""),
      st))
  /\
  (forall u,
      Request.user req = Some u -> Request.role u = "admin" ->
      RoleMiddleware.isAdminOrOwner getResourceUserId req now st
      = (Ok tt, st))
  /\
  (forall u e st',
      Request.user req = Some u -> Request.role u <> "admin" ->
      getResourceUserId req st = (Throw e, st') ->
      RoleMiddleware.isAdminOrOwner getResourceUserId req now st
      = (Throw e, st')).
Proof.
  unfold RoleMiddleware.isAdminOrOwner. split; [|split].
  - intros ->. reflexivity.
  - intros u -> ->. reflexivity.
  - intros u e st' -> Hr Hg.
    destruct (String.eqb_spec (Request.role u) Constants.USER_ROLES.ADMIN)
      as [E|_]; [contradiction|].
    unfold bind at 1. rewrite Hg. reflexivity.
Qed.

(** ** The repository: statistics and existence *)

Lemma count_split (p : User.t -> bool) (c : User.collection) :
  (countOf p c + countOf (fun u => negb (p u)) c = Z.of_nat (length c))%Z.
Proof.
  unfold countOf. induction c as [|u c IH]; [reflexivity|].
  cbn [filter]. destruct (p u); cbn [negb length]; lia.
Qed.

Lemma count_ext (p q : User.t -> bool) (c : User.collection) :
  (forall u, In u c -> p u = q u) -> countOf p c = countOf q c.
Proof.
  unfold countOf. intro H. f_equal. f_equal.
  induction c as [|u c IH]; simpl; [reflexivity|].
  rewrite (H u) by now left.
  destruct (q u); [f_equal|]; apply IH; intros v Hv; apply H; now right.
Qed.

Lemma count_disjoint (p q : User.t -> bool) (c : User.collection) :
  (forall u, p u && q u = false) ->
  (countOf p c + countOf q c <= Z.of_nat (length c))%Z.
Proof.
  unfold countOf. intro H. induction c as [|u c IH]; [simpl; lia|].
  specialize (H u). cbn [filter].
  destruct (p u), (q u); cbn [length andb] in *; try discriminate; lia.
Qed.

Lemma count_cover (p q : User.t -> bool) (c : User.collection) :
  (forall u, p u && q u = false) ->
  (forall u, In u c -> p u || q u = true) ->
  (countOf p c + countOf q c = Z.of_nat (length c))%Z.
Proof.
  unfold countOf. intros H K. induction c as [|u c IH]; [simpl; lia|].
  specialize (H u). pose proof (K u (or_introl eq_refl)) as Ku.
  assert (IH' := IH (fun v Hv => K v (or_intror Hv))).
  cbn [filter].
  destruct (p u), (q u); cbn [length andb orb] in *; try discriminate; lia.
Qed.

Lemma checkRole_inv (r : string) :
  User.checkRole r = [] -> r = "admin" \/ r = "user".
Proof.
  unfold User.checkRole.
  destruct (String.eqb_spec r Constants.USER_ROLES.ADMIN) as [E|_];
    [now left|].
  destruct (String.eqb_spec r Constants.USER_ROLES.USER) as [E|_];
    [now right|discriminate].
Qed.

(** X14: the statistics add up.  [getStatistics] writes nothing; its
    total is the number of documents and equals active plus inactive;
    administrators plus users never exceed the total, and equal it when
    every document is valid. *)
Theorem statistics_add_up (c : User.collection) :
  exists s,
    UserRepository.getStatistics c = (Ok s, c)
    /\ Stats.total s = Z.of_nat (length c)
    /\ (Stats.active s + Stats.inactive s = Stats.total s)%Z
    /\ (Stats.admins s + Stats.users s <= Stats.total s)%Z
    /\ (Forall validDoc c ->
        (Stats.admins s + Stats.users s = Stats.total s)%Z).
Proof.
  eexists. split; [reflexivity|]. cbn [Stats.total Stats.active
    Stats.inactive Stats.admins Stats.users].
  fold (countOf (fun _ => true) c).
  fold (countOf (fun u => Bool.eqb (User.isActive u) true) c).
  fold (countOf (fun u => Bool.eqb (User.isActive u) false) c).
  fold (countOf (fun u => String.eqb (User.role u) "admin") c).
  fold (countOf (fun u => String.eqb (User.role u) "user") c).
  assert (T : countOf (fun _ => true) c = Z.of_nat (length c)).
  { unfold countOf. f_equal. f_equal.
    induction c as [|u c IH]; simpl; [reflexivity|]. now rewrite IH. }
  rewrite T. split; [reflexivity|]. split; [|split].
  - rewrite <- (count_split (fun u => Bool.eqb (User.isActive u) true) c).
    f_equal. apply count_ext. intros u _. destruct (User.isActive u);
      reflexivity.
  - apply count_disjoint. intro u.
    destruct (String.eqb_spec (User.role u) "admin") as [E|_];
      [rewrite E|]; reflexivity.
  - intro F. apply count_cover.
    + intro u. destruct (String.eqb_spec (User.role u) "admin") as [E|_];
        [rewrite E|]; reflexivity.
    + intros u Hu. rewrite Forall_forall in F.
      destruct (F u Hu) as (_ & _ & _ & _ & Hr).
      destruct (checkRole_inv _ Hr) as [->| ->]; reflexivity.
Qed.

Lemma filter_nonempty_find (p : User.t -> bool) (c : User.collection) :
  (0 <? Z.of_nat (length (filter p c)))%Z
  = match User.find p c with Some _ => true | None => false end.
Proof.
  induction c as [|u c IH]; simpl; [reflexivity|].
  destruct (p u); [|exact IH].
  cbn [length]. apply Z.ltb_lt. lia.
Qed.

(** X15: [emailExists] answers what the duplicate check of [register]
    decides.  It writes nothing; it answers true exactly when
    [findByEmail] finds a user, and then every registration under an
    email of that lower case throws DuplicateEmailError, while after the
    answer false no registration under it throws that error. *)
Theorem emailExists_agrees (env : Env) (email : string)
    (c : User.collection) :
  exists b,
    UserRepository.emailExists email c = (Ok b, c)
    /\ (b = true <->
        exists u, UserRepository.findByEmail email false c = (Ok (Some u), c))
    /\ forall userData now oid salt,
         Js.toLowerCase (User.d_email userData) = Js.toLowerCase email ->
         (b = true <->
          fst (AuthService.register env userData now oid salt c)
          = Throw (Taxonomy.DuplicateEmailError now)).
Proof.
  eexists. split; [reflexivity|].
  rewrite filter_nonempty_find.
  fold (byEmail (User.castEmail (Js.toLowerCase email))).
  unfold UserRepository.findByEmail, User.findOne_email, bind, ret.
  fold (byEmail (User.castEmail (Js.toLowerCase email))).
  rewrite castEmail_lower.
  split.
  - destruct (User.find (byEmail (User.castEmail email)) c) as [u|]; simpl.
    + split; [eauto|reflexivity].
    + split; [discriminate|]. intros [u H]. discriminate.
  - intros userData now oid salt He. rewrite register_eq.
    rewrite <- (castEmail_lower (User.d_email userData)), He, castEmail_lower.
    destruct (User.find (byEmail (User.castEmail email)) c) as [u|].
    + split; reflexivity.
    + split; [discriminate|]. intro H. exfalso.
      destruct (User.create env userData now oid salt c) as [[v|e] c1] eqn:C.
      * destruct (AuthService.generateAccessToken env v now) as [a|e] eqn:Ga;
          [|simpl in H; injection H as H; apply sign_throws in Ga;
            subst e; discriminate].
        destruct (AuthService.generateRefreshToken env v now) as [t|e] eqn:Gt;
          [discriminate|].
        simpl in H. injection H as H. apply sign_throws in Gt.
        subst e. discriminate.
      * simpl in H. injection H as H. subst e.
        unfold User.create in C. cbv zeta in C.
        destruct (_ ++ _)%list; [destruct (User.find _ c)|];
          inversion C.
Qed.

(** ** The user service *)

Lemma map_replace {B : Type} (g : User.t -> B) (id : string)
    (f : User.t -> User.t) (c : User.collection) :
  (forall u, g (f u) = g u) ->
  map g (snd (User.replace id f c)) = map g c.
Proof.
  intro H. induction c as [|v c IH]; simpl; [reflexivity|].
  destruct (String.eqb (User._id v) id); simpl; [now rewrite H|].
  destruct (User.replace id f c). simpl in *. now rewrite IH.
Qed.

(** [updateProfile], branch by branch. *)
Lemma updateProfile_eq (userId : string) (updateData : Profile.t) (now : N)
    (c : User.collection) :
  UserService.updateProfile userId updateData now c =
  let f := match Profile.name updateData with
           | Some name =>
               fun u => User.setUpdatedAt (User.setName u (Js.trim name)) now
           | None => fun u => User.setUpdatedAt u now
           end in
  match match Profile.name updateData with
        | Some name => User.checkName (Js.trim name)
        | None => []
        end with
  | [] =>
      match User.find (byId userId) c with
      | Some stored =>
          (Ok (User.selectDefault (f stored),
               Constants.MORE_MESSAGES.UPDATED),
           snd (User.replace userId f c))
      | None =>
          (Throw (newApiError (Site.UserService 60) now 404
                              Constants.MORE_MESSAGES.NOT_FOUND
                              "User not found"), c)
      end
  | errs => (Throw (ValidationError errs), c)
  end.
Proof.
  unfold UserService.updateProfile. rewrite tryCatch_rethrow. cbv zeta.
  unfold bind at 1.
  destruct (Profile.name updateData) as [name|].
  - unfold User.findByIdAndUpdateName. cbv zeta.
    destruct (User.checkName (Js.trim name)) eqn:K; [|reflexivity].
    pose proof (AmendFacts.replace_fst userId
                  (fun u => User.setUpdatedAt (User.setName u (Js.trim name))
                                              now) c) as F.
    destruct (User.find (byId userId) c) as [stored|] eqn:E.
    + destruct (User.replace userId _ c) as [o c1]. simpl in F. subst o.
      reflexivity.
    + rewrite (replace_absent _ _ _ E). reflexivity.
  - unfold User.findByIdAndTouch.
    pose proof (AmendFacts.replace_fst userId
                  (fun u => User.setUpdatedAt u now) c) as F.
    destruct (User.find (byId userId) c) as [stored|] eqn:E.
    + destruct (User.replace userId _ c) as [o c1]. simpl in F. subst o.
      reflexivity.
    + rewrite (replace_absent _ _ _ E). reflexivity.
Qed.

(** X16: [updateProfile] can change a name and nothing else.  Whatever the
    body carries beside [name], and whatever the call answers, every
    document keeps its id, email, password, role, activity flag,
    last-login date, refresh token and creation date, and the
    collection keeps its length and its order. *)
Theorem updateProfile_changes_only_name (userId : string)
    (updateData : Profile.t) (now : N) (c : User.collection) :
  map frozen (snd (UserService.updateProfile userId updateData now c))
  = map frozen c.
Proof.
  rewrite updateProfile_eq. cbv zeta.
  destruct (match Profile.name updateData with
            | Some name => User.checkName (Js.trim name)
            | None => []
            end); [|reflexivity].
  destruct (User.find (byId userId) c); [|reflexivity].
  cbn [snd]. apply map_replace. intro u.
  destruct (Profile.name updateData); destruct u; reflexivity.
Qed.

(** [getProfile], branch by branch. *)
Lemma getProfile_eq (userId : string) (now : N) (c : User.collection) :
  UserService.getProfile userId now c =
  match User.find (byId userId) c with
  | Some stored => (Ok (User.selectDefault stored), c)
  | None =>
      (Throw (newApiError (Site.UserService 29) now 404
                          Constants.MORE_MESSAGES.NOT_FOUND
                          "User not found"), c)
  end.
Proof.
  unfold UserService.getProfile. rewrite tryCatch_rethrow.
  unfold bind at 1. unfold UserRepository.findById, User.findById.
  unfold bind at 1. unfold ret at 1. fold (byId userId).
  destruct (User.find (byId userId) c); reflexivity.
Qed.

(** X17: a profile update shows in the profile.  When [updateProfile]
    succeeds with a name, the user it returns carries that name trimmed,
    with no password and no refresh token, and [getProfile] right after
    returns the same user.  For an id written as an ObjectId is, a name
    the schema refuses throws ValidationError before any write, and an
    id no document has throws the 404 error built at line 60. *)
Theorem updateProfile_then_getProfile (userId name : string)
    (updateData : Profile.t) (now now' : N) (c : User.collection) :
  Profile.name updateData = Some name ->
  (ObjectId.canonical userId = true ->
   User.checkName (Js.trim name) <> [] ->
   UserService.updateProfile userId updateData now c
   = (Throw (ValidationError (User.checkName (Js.trim name))), c))
  /\
  (ObjectId.canonical userId = true ->
   User.checkName (Js.trim name) = [] ->
   User.find (byId userId) c = None ->
   UserService.updateProfile userId updateData now c
   = (Throw (newApiError (Site.UserService 60) now 404 "Resource not found"
                         "User not found"), c))
  /\
  (forall user message c',
      UserService.updateProfile userId updateData now c
      = (Ok (user, message), c') ->
      User.name user = Js.trim name
      /\ User.updatedAt user = now
      /\ User.password user = None
      /\ User.refreshToken user = None
      /\ UserService.getProfile userId now' c' = (Ok user, c')).
Proof.
  intro Hn. rewrite updateProfile_eq, Hn. cbv zeta. split; [|split].
  - intros _ H. destruct (User.checkName (Js.trim name)); [contradiction|].
    reflexivity.
  - intros _ -> ->. reflexivity.
  - intros user message c'.
    destruct (User.checkName (Js.trim name)); [|discriminate].
    destruct (User.find (byId userId) c) as [stored|] eqn:E; [|discriminate].
    intro H. injection H as <- _ <-.
    repeat split.
    rewrite getProfile_eq.
    rewrite StoreFacts.find_replace by (intro; reflexivity).
    rewrite String.eqb_refl, E. reflexivity.
Qed.

Lemma updateProfile_then_getProfile_witness :
  (exists user c',
      UserService.updateProfile SampleHex.carolId
        (Profile.mk (Some "  Caroline ") (Some "evil@x.com") (Some "admin")
                    (Some false))
        8000 [SampleHex.carol]
      = (Ok (user, "Resource updated successfully"), c')
      /\ User.name user = "Caroline"
      /\ User.role user = "user"
      /\ UserService.getProfile SampleHex.carolId 9000 c' = (Ok user, c'))
  /\ UserService.updateProfile SampleHex.absentId
       (Profile.mk (Some "  Caroline ") None None None) 8000
       [SampleHex.carol]
     = (Throw (newApiError (Site.UserService 60) 8000 404
                           "Resource not found" "User not found"),
        [SampleHex.carol])
  /\ UserService.updateProfile SampleHex.absentId
       (Profile.mk (Some " C ") None None None) 8000 [SampleHex.carol]
     = (Throw (ValidationError ["Name must be at least 2 characters"]),
        [SampleHex.carol]).
Proof.
  split; [|split].
  - eassert (U : UserService.updateProfile SampleHex.carolId
                   (Profile.mk (Some "  Caroline ") (Some "evil@x.com")
                               (Some "admin") (Some false))
                   8000 [SampleHex.carol] = (Ok (_, _), _))
      by (vm_compute; reflexivity).
    destruct (updateProfile_then_getProfile SampleHex.carolId "  Caroline "
                (Profile.mk (Some "  Caroline ") (Some "evil@x.com")
                            (Some "admin") (Some false))
                8000 9000 [SampleHex.carol] eq_refl) as (_ & _ & H).
    destruct (H _ _ _ U) as (H1 & _ & _ & _ & H5).
    eexists. eexists. split; [exact U|].
    split; [reflexivity|]. split; [reflexivity|exact H5].
  - destruct (updateProfile_then_getProfile SampleHex.absentId "  Caroline "
                (Profile.mk (Some "  Caroline ") None None None)
                8000 9000 [SampleHex.carol] eq_refl) as (_ & H & _).
    apply H; reflexivity.
  - destruct (updateProfile_then_getProfile SampleHex.absentId " C "
                (Profile.mk (Some " C ") None None None)
                8000 9000 [SampleHex.carol] eq_refl) as (H & _ & _).
    apply H; [reflexivity|discriminate].
Defined.

Lemma find_byId_id (id : string) (c : User.collection) (u : User.t) :
  User.find (byId id) c = Some u -> User._id u = id.
Proof.
  intro H. destruct (StoreFacts.find_Some _ _ _ H) as [_ E].
  now apply String.eqb_eq in E.
Qed.

(** [changePassword], branch by branch. *)
Lemma changePassword_eq (env : Env)
    (userId currentPassword newPassword : string) (now salt : N)
    (c : User.collection) :
  UserService.changePassword env userId currentPassword newPassword now salt c
  =
  match User.find (byId userId) c with
  | None =>
      (Throw (newApiError (Site.UserService 87) now 404
                          Constants.MORE_MESSAGES.NOT_FOUND
                          "User not found"), c)
  | Some stored =>
    match User.password stored with
    | None => (Throw (Error "Password comparison failed"), c)
    | Some h =>
      if negb (Bcrypt.compare currentPassword h) then
        (Throw (newApiError (Site.UserService 94) now 401
                  Constants.ERROR_MESSAGES.INVALID_CREDENTIALS
                  "Current password is incorrect"), c)
      else
        match (User.checkName (User.name stored)
               ++ User.checkEmail (User.email stored)
               ++ User.checkPassword newPassword
               ++ User.checkRole (User.role stored))%list with
        | [] =>
            (Ok "Password changed successfully",
             snd (User.replace userId (rehashed env salt newPassword now) c))
        | errs => (Throw (ValidationError errs), c)
        end
    end
  end.
Proof.
  unfold UserService.changePassword. rewrite tryCatch_rethrow.
  unfold bind at 1. unfold UserRepository.findByIdWithPassword, User.findById.
  unfold bind at 1. unfold ret at 1. fold (byId userId).
  destruct (User.find (byId userId) c) as [stored|] eqn:E; simpl;
    [|reflexivity].
  unfold bind at 1. unfold lift at 1. unfold User.comparePassword. simpl.
  destruct (User.password stored) as [h|]; [|reflexivity].
  destruct (Bcrypt.compare currentPassword h); simpl; [|reflexivity].
  unfold bind, ret, User.savePassword. simpl.
  destruct (_ ++ _)%list; [|reflexivity].
  rewrite (find_byId_id _ _ _ E).
  pose proof (AmendFacts.replace_fst userId
                (fun v => User.setUpdatedAt
                            (User.setPassword v
                               (Some (Bcrypt.hash
                                        (orDefault (BCRYPT_ROUNDS env) 10)
                                        salt newPassword))) now) c) as F.
  rewrite E in F. unfold rehashed.
  destruct (User.replace userId _ c) as [o c1]. simpl in F. subst o.
  reflexivity.
Qed.



(** [refreshToken] reads of a document what the guard reads: an update
    by id that keeps the four changes nothing of what it answers. *)
Lemma refresh_frame (env : Env) (token : string) (now : N)
    (id : string) (f : User.t -> User.t) (c : User.collection) :
  (forall u, guardView (f u) = guardView u) ->
  fst (AuthService.refreshToken env token now (snd (User.replace id f c)))
  = fst (AuthService.refreshToken env token now c).
Proof.
  intro Hf.
  assert (Hid : forall u, User._id (f u) = User._id u)
    by (intro u; specialize (Hf u); unfold guardView in Hf; congruence).
  rewrite !refresh_eq.
  destruct (Jwt.verify _ _ now) as [d|e].
  2:{ unfold AuthService.onJwtError.
      destruct (String.eqb (name e) "JsonWebTokenError"); [reflexivity|].
      destruct (String.eqb (name e) "TokenExpiredError"); reflexivity. }
  rewrite StoreFacts.find_replace by exact Hid.
  destruct (String.eqb_spec (Jwt.userId (Jwt.body d)) id) as [->|_].
  2:{ destruct (User.find _ c) as [u|]; [|reflexivity].
      destruct (User.isActive u); simpl; [|reflexivity].
      destruct (AuthService.generateAccessToken env _ now); reflexivity. }
  destruct (User.find (byId id) c) as [u|]; [|reflexivity]. simpl.
  specialize (Hf u). unfold guardView in Hf. injection Hf as H1 H2 H3 H4.
  rewrite H4. destruct (User.isActive u); simpl; [|reflexivity].
  unfold AuthService.generateAccessToken. cbn [User._id User.email User.role
    User.selectDefault]. 
  replace (User._id (User.selectDefault (f u))) with (User._id u)
    by (destruct (f u); destruct u; simpl in *; congruence).
  replace (User.email (User.selectDefault (f u))) with (User.email u)
    by (destruct (f u); destruct u; simpl in *; congruence).
  replace (User.role (User.selectDefault (f u))) with (User.role u)
    by (destruct (f u); destruct u; simpl in *; congruence).
  replace (User._id (User.selectDefault u)) with (User._id u)
    by (destruct u; reflexivity).
  replace (User.email (User.selectDefault u)) with (User.email u)
    by (destruct u; reflexivity).
  replace (User.role (User.selectDefault u)) with (User.role u)
    by (destruct u; reflexivity).
  destruct (Jwt.sign _ _ _ now); reflexivity.
Qed.



(** X20: a change of password ends no session.  Whatever its outcome,
    [changePassword] leaves every stored refresh token in place, and
    [refreshToken] and [authenticate] answer every token after it as
    they did before: tokens issued under the old password keep
    working. *)
Theorem changePassword_keeps_sessions (env : Env)
    (userId currentPassword newPassword : string) (now salt now' : N)
    (c : User.collection) :
  let c' := snd (UserService.changePassword env userId currentPassword
                   newPassword now salt c) in
  map User.refreshToken c' = map User.refreshToken c
  /\ (forall token,
         fst (AuthService.refreshToken env token now' c')
         = fst (AuthService.refreshToken env token now' c))
  /\ (forall req,
         fst (AuthMiddleware.authenticate env req now' c')
         = fst (AuthMiddleware.authenticate env req now' c)).
Proof.
  cbv zeta. rewrite changePassword_eq.
  destruct (User.find (byId userId) c) as [stored|]; [|now repeat split].
  destruct (User.password stored) as [h|]; [|now repeat split].
  destruct (negb (Bcrypt.compare currentPassword h)); [now repeat split|].
  destruct (_ ++ _)%list; [|now repeat split]. cbn [snd].
  split; [|split].
  - apply map_replace. intro u. destruct u; reflexivity.
  - intro token. apply refresh_frame. intro u. destruct u; reflexivity.
  - intro req. apply authenticate_frame. intro u. destruct u; reflexivity.
Qed.

(** ** Deactivation *)

(** [deactivateAccount], branch by branch. *)
Lemma deactivateAccount_eq (userId : string) (now : N)
    (c : User.collection) :
  UserService.deactivateAccount userId now c =
  match User.find (byId userId) c with
  | Some _ =>
      (Ok "Account deactivated successfully",
       snd (User.replace userId (deactivated now) c))
  | None =>
      (Throw (newApiError (Site.UserService 122) now 404
                          Constants.MORE_MESSAGES.NOT_FOUND
                          "User not found"), c)
  end.
Proof.
  unfold UserService.deactivateAccount. rewrite tryCatch_rethrow.
  unfold bind, UserRepository.deactivateUser, UserRepository.updateById,
    User.findByIdAndUpdate.
  pose proof (AmendFacts.replace_fst userId
                (fun u => User.setUpdatedAt
                            (User.apply (User.UpIsActive false) u) now) c)
    as F.
  destruct (User.find (byId userId) c) as [stored|] eqn:E.
  - change (fun u => User.setUpdatedAt
                       (User.apply (User.UpIsActive false) u) now)
      with (deactivated now) in *.
    destruct (User.replace userId (deactivated now) c) as [o c1].
    simpl in F. subst o. reflexivity.
  - rewrite (replace_absent _ _ _ E). reflexivity.
Qed.

(** [activateUser], branch by branch. *)
Lemma activateUser_eq (userId : string) (now : N) (c : User.collection) :
  UserRepository.activateUser userId now c =
  (Ok (option_map (fun u => User.selectDefault (activated now u))
                  (User.find (byId userId) c)),
   snd (User.replace userId (activated now) c)).
Proof.
  unfold UserRepository.activateUser, UserRepository.updateById,
    User.findByIdAndUpdate.
  pose proof (AmendFacts.replace_fst userId
                (fun u => User.setUpdatedAt
                            (User.apply (User.UpIsActive true) u) now) c)
    as F.
  change (fun u => User.setUpdatedAt
                     (User.apply (User.UpIsActive true) u) now)
    with (activated now) in *.
  destruct (User.replace userId (activated now) c) as [o c1].
  simpl in F. subst o.
  destruct (User.find (byId userId) c); reflexivity.
Qed.

(** X21: what a deactivation shuts.  [deactivateAccount] of an id
    written as an ObjectId is and that no document has throws the 404
    error of line 122 and writes nothing.  For a stored user of a
    well-formed collection it succeeds and clears the flag of that
    document only; from then on [login] with the user's email, in any
    letter case and with any white space around it, throws 'Account is
    deactivated' whatever the password, [authenticate] throws the 403
    error on every good access token of the user, and [refreshToken]
    throws the 401 error on every good refresh token of the user. *)
Theorem deactivate_locks_out (env : Env) (userId : string) (nowD : N)
    (c : User.collection) :
  let outcome := UserService.deactivateAccount userId nowD c in
  (ObjectId.canonical userId = true ->
   User.find (byId userId) c = None ->
   outcome
   = (Throw (newApiError (Site.UserService 122) nowD 404
                         "Resource not found" "User not found"), c))
  /\
  (forall stored,
      wellFormed c -> In stored c -> User._id stored = userId ->
      outcome = (Ok "Account deactivated successfully",
                 amend userId (deactivated nowD) c)
      /\ (forall email password now,
             User.castEmail email = User.email stored ->
             AuthService.login env email password now (snd outcome)
             = (Throw (Taxonomy.AccountDeactivatedError now), snd outcome))
      /\ (forall req decoded now,
             AuthMiddleware.noBearer (Request.authorization req) = false ->
             Jwt.verify
               (AuthMiddleware.bearerToken (Request.authorization req))
               (JWT_SECRET env) now = Ok decoded ->
             Jwt.userId (Jwt.body decoded) = userId ->
             AuthMiddleware.authenticate env req now (snd outcome)
             = (Throw (Taxonomy.ForbiddenError (Site.authMiddleware 35) now
                         "Account is deactivated"),
                snd outcome))
      /\ (forall token decoded now,
             Jwt.verify (Some token) (JWT_REFRESH_SECRET env) now
             = Ok decoded ->
             Jwt.userId (Jwt.body decoded) = userId ->
             AuthService.refreshToken env token now (snd outcome)
             = (Throw (Taxonomy.InvalidTokenError (Site.AuthService 126) now),
                snd outcome))).
Proof.
  cbv zeta. rewrite deactivateAccount_eq. split.
  - intros _ ->. reflexivity.
  - intros stored (N1 & N2 & F) Hin Hid. subst userId.
    rewrite (AmendFacts.find_own_id c stored N1 Hin).
    rewrite (AmendFacts.replace_amend _ _ _ N1). cbn [snd].
    assert (Ei : User.find (byId (User._id stored))
                   (amend (User._id stored) (deactivated nowD) c)
                 = Some (deactivated nowD stored)).
    { rewrite AmendFacts.find_amend by (intro u; destruct u; reflexivity).
      rewrite String.eqb_refl, (AmendFacts.find_own_id c stored N1 Hin).
      reflexivity. }
    split; [reflexivity|]. split; [|split].
    + intros email password now L. rewrite login_eq, L.
      rewrite AmendFacts.find_email_amend
        by (intro u; destruct u; reflexivity).
      rewrite (AmendFacts.find_own_email c stored N2 Hin). cbn [option_map].
      unfold byId. rewrite String.eqb_refl. reflexivity.
    + intros req decoded now B V U. rewrite authenticate_eq, B, V, U, Ei.
      reflexivity.
    + intros token decoded now V U. rewrite refresh_eq, V, U, Ei.
      reflexivity.
Qed.

Lemma deactivate_locks_out_witness :
  let c' := [deactivated 8000 SampleHex.carol] in
  UserService.deactivateAccount SampleHex.carolId 8000 [SampleHex.carol]
  = (Ok "Account deactivated successfully", c')
  /\ AuthService.login Sample.env " Carol@X.com" "Secret@123" 9000 c'
     = (Throw (Taxonomy.AccountDeactivatedError 9000), c')
  /\ UserService.deactivateAccount SampleHex.absentId 8000 [SampleHex.carol]
     = (Throw (newApiError (Site.UserService 122) 8000 404
                           "Resource not found" "User not found"),
        [SampleHex.carol]).
Proof.
  assert (W : wellFormed [SampleHex.carol]).
  { repeat split; try discriminate.
    - repeat constructor; simpl; tauto.
    - repeat constructor; simpl; tauto.
    - apply Forall_cons; [repeat split; discriminate|constructor]. }
  destruct (deactivate_locks_out Sample.env SampleHex.carolId 8000
              [SampleHex.carol]) as [_ H].
  destruct (H SampleHex.carol W (or_introl eq_refl) eq_refl) as (H1 & H2 & _).
  split; [exact H1|]. split.
  - apply (H2 " Carol@X.com" "Secret@123" 9000). reflexivity.
  - destruct (deactivate_locks_out Sample.env SampleHex.absentId 8000
                [SampleHex.carol]) as [H0 _].
    apply H0; reflexivity.
Defined.

(** X22: [activateUser] undoes a deactivation.  For a stored active user
    of a well-formed collection, deactivating and then activating
    changes nothing of the collection but the update date of that user,
    so that the password, the stored refresh token and the role are
    those of before, and [login] with the user's password succeeds
    again. *)
Theorem activate_restores (env : Env) (password : string) (nowD nowA now : N)
    (c : User.collection) (stored : User.t) (h : Bcrypt.digest) :
  wellFormed c ->
  In stored c ->
  User.isActive stored = true ->
  User.password stored = Some h ->
  Bcrypt.compare password h = true ->
  configured (JWT_SECRET env) ->
  configured (JWT_REFRESH_SECRET env) ->
  let c1 := snd (UserService.deactivateAccount (User._id stored) nowD c) in
  let c2 := snd (UserRepository.activateUser (User._id stored) nowA c1) in
  c2 = amend (User._id stored) (fun u => User.setUpdatedAt u nowA) c
  /\ map besidesActivity c2 = map besidesActivity c
  /\ exists r c3,
       AuthService.login env (User.email stored) password now c2
       = (Ok r, c3).
Proof.
  intros (N1 & N2 & F) Hin A P B Ca Ct. cbv zeta.
  pose proof (validDoc_castEmail _ (proj1 (Forall_forall _ _) F _ Hin))
    as L.
  rewrite deactivateAccount_eq, (AmendFacts.find_own_id c stored N1 Hin).
  cbn [snd]. rewrite activateUser_eq. cbn [snd].
  rewrite replace_replace by (intro u; destruct u; reflexivity).
  rewrite (AmendFacts.replace_amend _ _ _ N1).
  assert (E : amend (User._id stored)
                (fun u => activated nowA (deactivated nowD u)) c
              = amend (User._id stored) (fun u => User.setUpdatedAt u nowA) c).
  { unfold amend. apply map_ext_in. intros u Hu.
    destruct (byId (User._id stored) u) eqn:Eu; [|reflexivity].
    unfold byId in Eu. apply String.eqb_eq in Eu.
    assert (u = stored).
    { pose proof (AmendFacts.find_own_id c u N1 Hu) as F1.
      rewrite Eu, (AmendFacts.find_own_id c stored N1 Hin) in F1.
      congruence. }
    subst u. destruct stored; simpl in *; subst; reflexivity. }
  rewrite E. split; [reflexivity|]. split.
  - unfold amend. rewrite map_map. apply map_ext. intro u.
    destruct (byId (User._id stored) u); [destruct u|]; reflexivity.
  - rewrite login_eq, L.
    rewrite AmendFacts.find_email_amend by (intro u; destruct u; reflexivity).
    rewrite (AmendFacts.find_own_email c stored N2 Hin). cbn [option_map].
    unfold byId. rewrite String.eqb_refl. cbv zeta.
    replace (User.isActive (User.setUpdatedAt stored nowA)) with true
      by (rewrite <- A; destruct stored; reflexivity).
    replace (User.password (User.setUpdatedAt stored nowA)) with (Some h)
      by (rewrite <- P; destruct stored; reflexivity).
    rewrite B. cbn [negb].
    unfold AuthService.generateAccessToken, AuthService.generateRefreshToken.
    destruct Ca as (ka & -> & Hka). destruct Ct as (kt & -> & Hkt).
    rewrite !JwtFacts.sign_ok by assumption. eauto.
Qed.

Lemma activate_restores_witness :
  exists r c3,
    AuthService.login Sample.env "carol@x.com" "Secret@123" 9500
      (snd (UserRepository.activateUser "ca401" 9000
              (snd (UserService.deactivateAccount "ca401" 8000
                      [Sample.carol]))))
    = (Ok r, c3).
Proof.
  assert (W : wellFormed [Sample.carol]).
  { repeat split; try discriminate.
    - repeat constructor; simpl; tauto.
    - repeat constructor; simpl; tauto.
    - apply Forall_cons; [repeat split; discriminate|constructor]. }
  destruct (activate_restores Sample.env "Secret@123" 8000 9000 9500
              [Sample.carol] Sample.carol _ W (or_introl eq_refl)
              eq_refl eq_refl eq_refl) as (_ & _ & H).
  - eexists; split; reflexivity.
  - eexists; split; reflexivity.
  - exact H.
Defined.

(** ** Pagination *)

(** [page < Math.ceil(total / limit)] is [page * limit < total] when
    the limit is positive. *)
Lemma ltNum_ceilDiv (page limit total : Z) :
  (1 <= limit)%Z ->
  ltNum page (ceilDiv total limit) = (page * limit <? total)%Z.
Proof.
  intro H. unfold ceilDiv.
  destruct (Z.eqb_spec limit 0) as [E|_]; [lia|]. cbn [ltNum].
  destruct (Z.ltb_spec (page * limit) total) as [H1|H1].
  - apply Z.ltb_lt.
    assert ((- total) / limit < - page)%Z; [|lia].
    apply Z.div_lt_upper_bound; lia.
  - apply Z.ltb_ge.
    assert (- page <= (- total) / limit)%Z; [|lia].
    apply Z.div_le_lower_bound; lia.
Qed.

Lemma filter_all {A : Type} (l : list A) : filter (fun _ => true) l = l.
Proof.
  induction l as [|x l IH]; simpl; [reflexivity|now rewrite IH].
Qed.

Lemma firstn_plus {A : Type} (a b : nat) (l : list A) :
  firstn (a + b) l = (firstn a l ++ firstn b (skipn a l))%list.
Proof.
  revert l. induction a as [|a IH]; intro l; simpl; [reflexivity|].
  destruct l as [|x l]; simpl.
  - now rewrite firstn_nil.
  - now rewrite IH.
Qed.

Lemma skipn_nonempty {A : Type} (n : nat) (l : list A) :
  skipn n l <> [] <-> (n < length l)%nat.
Proof.
  revert l. induction n as [|n IH]; intro l; destruct l as [|x l]; simpl.
  - split; [congruence|lia].
  - split; [lia|discriminate].
  - split; [congruence|lia].
  - rewrite IH. lia.
Qed.

(** [getAllUsers] on a page and a limit that are positive after the
    defaults. *)
Lemma getAllUsers_eq (badSkip : exn) (page limit : option Z)
    (c : User.collection) :
  (1 <= orDefaultZ page 1)%Z ->
  (1 <= orDefaultZ limit 10)%Z ->
  UserService.getAllUsers badSkip page limit c
  = (Ok (Page.mk
           (map User.selectDefault
                (pageOf (Z.to_nat (orDefaultZ page 1))
                        (Z.to_nat (orDefaultZ limit 10)) c))
           (calculatePagination (orDefaultZ page 1) (orDefaultZ limit 10)
                                (Z.of_nat (length c)))), c).
Proof.
  intros HP HL. unfold UserService.getAllUsers. rewrite tryCatch_rethrow.
  unfold UserRepository.findWithPagination. cbv zeta.
  unfold bind at 1. unfold UserRepository.find. unfold bind at 1.
  unfold User.findMany, User.window. rewrite filter_all.
  destruct (Z.ltb_spec ((orDefaultZ page 1 - 1) * orDefaultZ limit 10) 0)
    as [H|_]; [nia|].
  destruct (Z.eqb_spec (orDefaultZ limit 10) 0) as [H|_]; [lia|].
  unfold ret at 1. unfold bind at 1.
  unfold UserRepository.count, User.countDocuments. rewrite filter_all.
  unfold ret, calculatePagination, pageOf.
  rewrite ltNum_ceilDiv by exact HL.
  rewrite Z.abs_eq by lia.
  rewrite Z2Nat.inj_mul, Z2Nat.inj_sub by lia.
  reflexivity.
Qed.

(** X23: what a page of [getAllUsers] holds.  When the page and the limit
    are positive after the defaults (page 1, limit 10, also for 0),
    [getAllUsers] writes nothing and returns the documents of that page
    in insertion order, without passwords, at most [limit] of them;
    [total] counts the whole collection, [hasNext] tells that documents
    remain after the page, [hasPrev] that the page is not the first, and
    the pagination is the one [calculatePagination] computes. *)
Theorem getAllUsers_page (badSkip : exn) (page limit : option Z)
    (c : User.collection) :
  let P := orDefaultZ page 1 in
  let L := orDefaultZ limit 10 in
  (1 <= P)%Z ->
  (1 <= L)%Z ->
  exists r,
    UserService.getAllUsers badSkip page limit c = (Ok r, c)
    /\ Page.data r
       = map User.selectDefault
             (firstn (Z.to_nat L) (skipn (Z.to_nat ((P - 1) * L)) c))
    /\ (length (Page.data r) <= Z.to_nat L)%nat
    /\ Forall (fun u => User.password u = None) (Page.data r)
    /\ Page.total (Page.meta r) = Z.of_nat (length c)
    /\ (Page.hasNext (Page.meta r) = true
        <-> skipn (Z.to_nat (P * L)) c <> [])
    /\ (Page.hasPrev (Page.meta r) = true <-> (1 < P)%Z)
    /\ Page.meta r = calculatePagination P L (Z.of_nat (length c)).
Proof.
  cbv zeta. intros HP HL. eexists. split; [apply getAllUsers_eq; assumption|].
  cbn [Page.data Page.meta]. split; [|split; [|split; [|split; [|split]]]].
  - unfold pageOf. rewrite Z2Nat.inj_mul, Z2Nat.inj_sub by lia. reflexivity.
  - rewrite length_map. unfold pageOf. apply firstn_le_length.
  - apply Forall_map, Forall_forall. intros u _. destruct u; reflexivity.
  - reflexivity.
  - unfold calculatePagination. cbn [Page.hasNext].
    rewrite ltNum_ceilDiv by exact HL. rewrite skipn_nonempty, Z.ltb_lt.
    lia.
  - split; [|reflexivity]. unfold calculatePagination. cbn [Page.hasPrev].
    apply Z.ltb_lt.
Qed.

Lemma getAllUsers_page_witness :
  exists r,
    UserService.getAllUsers (Error "bad skip") (Some 2%Z) (Some 1%Z)
                            [Sample.bob; Sample.carol; Sample.aliceStored]
    = (Ok r, [Sample.bob; Sample.carol; Sample.aliceStored])
    /\ (length (Page.data r) <= 1)%nat.
Proof.
  destruct (getAllUsers_page (Error "bad skip") (Some 2%Z) (Some 1%Z)
              [Sample.bob; Sample.carol; Sample.aliceStored])
    as (r & H1 & _ & H2 & _).
  - vm_compute. discriminate.
  - vm_compute. discriminate.
  - exists r. split; [exact H1|exact H2].
Defined.

Lemma browse_firstn (badSkip : exn) (limit : option Z) (n : nat)
    (c : User.collection) :
  (1 <= orDefaultZ limit 10)%Z ->
  browse badSkip limit n c
  = map User.selectDefault
        (firstn (n * Z.to_nat (orDefaultZ limit 10)) c).
Proof.
  intro HL. induction n as [|n IH]; [reflexivity|].
  cbn [browse]. rewrite IH.
  assert (E : orDefaultZ (Some (Z.of_nat (S n))) 1 = Z.of_nat (S n))
    by (unfold orDefaultZ; destruct (Z.eqb_spec (Z.of_nat (S n)) 0);
        [lia|reflexivity]).
  rewrite getAllUsers_eq by (rewrite ?E; lia).
  cbn [fst Page.data]. rewrite E, Nat2Z.id. unfold pageOf.
  rewrite <- map_app. f_equal.
  replace (S n * Z.to_nat (orDefaultZ limit 10))%nat
    with (n * Z.to_nat (orDefaultZ limit 10)
          + Z.to_nat (orDefaultZ limit 10))%nat by lia.
  rewrite firstn_plus. replace (S n - 1)%nat with n by lia. reflexivity.
Qed.

(** X24: the pages cover the collection.  With a limit that is positive
    after the default, a client that asks [getAllUsers] for the pages 1
    to [n] collects the first [n * limit] documents, each once and in
    insertion order; when [n] is the [totalPages] the pagination
    announces, that is the whole collection. *)
Theorem pages_cover (badSkip : exn) (limit : option Z) (n : nat)
    (c : User.collection) :
  let L := orDefaultZ limit 10 in
  (1 <= L)%Z ->
  browse badSkip limit n c
  = map User.selectDefault (firstn (n * Z.to_nat L) c)
  /\ (ceilDiv (Z.of_nat (length c)) L = Finite (Z.of_nat n) ->
      browse badSkip limit n c = map User.selectDefault c).
Proof.
  cbv zeta. intro HL. split; [now apply browse_firstn|].
  intro H. rewrite browse_firstn by exact HL. f_equal.
  apply firstn_all2. unfold ceilDiv in H.
  destruct (Z.eqb_spec (orDefaultZ limit 10) 0) as [E|_]; [lia|].
  injection H as H.
  assert (Z.of_nat (length c) <= Z.of_nat n * orDefaultZ limit 10)%Z;
    [|nia].
  pose proof (Z.mul_div_le (- Z.of_nat (length c)) (orDefaultZ limit 10)).
  nia.
Qed.

Lemma pages_cover_witness :
  browse (Error "bad skip") (Some 1%Z) 3
         [Sample.bob; Sample.carol; Sample.aliceStored]
  = map User.selectDefault [Sample.bob; Sample.carol; Sample.aliceStored].
Proof.
  destruct (pages_cover (Error "bad skip") (Some 1%Z) 3%nat
              [Sample.bob; Sample.carol; Sample.aliceStored]) as [_ H].
  - vm_compute. discriminate.
  - apply H. reflexivity.
Defined.

(** X25: what [calculatePagination] announces.  With a positive limit,
    [totalPages] is the least number of pages that hold [total] items
    and [hasNext] tells that items remain after the page.  With the
    limit 0 and at least one item, [totalPages] is [Infinity] and
    [hasNext] is true on every page; with the limit 0 and no item,
    [totalPages] is [NaN] and [hasNext] is false. *)
Theorem calculatePagination_pages (page limit total : Z) :
  ((1 <= limit)%Z ->
   Page.hasNext (calculatePagination page limit total)
   = (page * limit <? total)%Z
   /\ exists tp,
        Page.totalPages (calculatePagination page limit total) = Finite tp
        /\ ((tp - 1) * limit < total <= tp * limit)%Z)
  /\ (limit = 0%Z -> (0 < total)%Z ->
      Page.totalPages (calculatePagination page limit total) = PlusInfinity
      /\ Page.hasNext (calculatePagination page limit total) = true)
  /\ (limit = 0%Z -> total = 0%Z ->
      Page.totalPages (calculatePagination page limit total) = NaN
      /\ Page.hasNext (calculatePagination page limit total) = false).
Proof.
  unfold calculatePagination. cbn [Page.hasNext Page.totalPages].
  split; [|split].
  - intro H. split; [now apply ltNum_ceilDiv|].
    unfold ceilDiv. destruct (Z.eqb_spec limit 0) as [E|_]; [lia|].
    eexists. split; [reflexivity|].
    pose proof (Z.mul_div_le (- total) limit).
    pose proof (Z.mul_succ_div_gt (- total) limit). nia.
  - intros -> H. unfold ceilDiv. cbn [Z.eqb].
    destruct (Z.eqb_spec total 0) as [E|_]; [lia|].
    destruct (Z.ltb_spec 0 total); [split; reflexivity|lia].
  - intros -> ->. split; reflexivity.
Qed.

Lemma calculatePagination_pages_witness :
  Page.hasNext (calculatePagination 2 10 25) = true
  /\ Page.totalPages (calculatePagination 7 0 25) = PlusInfinity
  /\ Page.totalPages (calculatePagination 1 0 0) = NaN.
Proof.
  destruct (calculatePagination_pages 2 10 25) as [H1 _].
  destruct (calculatePagination_pages 7 0 25) as (_ & H2 & _).
  destruct (calculatePagination_pages 1 0 0) as (_ & _ & H3).
  split; [|split].
  - destruct H1 as [H _]; [lia|]. rewrite H. reflexivity.
  - apply H2; [reflexivity|lia].
  - apply H3; reflexivity.
Defined.

(** ** Failures, as the error handler answers them *)




(** X27: how a failed login is answered.  A failure of [login] writes
    nothing, and the error handler answers it 401 'Invalid credentials'
    with no detail, or 403 'Account is deactivated', both with the
    instant of the login; or else 500 'Internal Server Error', whose
    detail is empty outside development mode, and that only when a
    secret is not configured or a stored document holds no
    password.  In development mode the answer names the line that built
    the error: 73 or 85 of the service for the first, 78 for the
    second, 52 of the handler for the third. *)
Theorem login_failure_response (development : bool)
    (keyPattern : list string) (driverMessage : string) (env : Env)
    (email password : string) (now now' : N) (c c' : User.collection)
    (e : exn) :
  AuthService.login env email password now c = (Throw e, c') ->
  let answer := ErrorMiddleware.errorHandler development keyPattern
                  driverMessage e now' in
  c' = c
  /\ ((exists line,
          (line = 73 \/ line = 85)
          /\ answer
             = (401, ErrorMiddleware.mkBody false 401
                       Constants.ERROR_MESSAGES.INVALID_CREDENTIALS "" now
                       (if development then Some (Site.AuthService line)
                        else None)))
      \/ answer
         = (403, ErrorMiddleware.mkBody false 403
                   Constants.ERROR_MESSAGES.FORBIDDEN
                   "Account is deactivated" now
                   (if development then Some (Site.AuthService 78)
                    else None))
      \/ (exists m,
             answer
             = (500, ErrorMiddleware.mkBody false 500
                       "Internal Server Error"
                       (if development then m else "") now'
                       (if development then Some (Site.errorMiddleware 52)
                        else None)))
         /\ (~ (configured (JWT_SECRET env)
                /\ configured (JWT_REFRESH_SECRET env))
             \/ exists stored, In stored c /\ User.password stored = None)).
Proof.
  rewrite login_eq. cbv zeta. intro H.
  destruct (User.find _ c) as [stored|] eqn:F.
  2:{ injection H as <- <-. split; [reflexivity|]. left. exists 73.
      split; [now left|reflexivity]. }
  destruct (User.isActive stored); cbn [negb] in H.
  2:{ injection H as <- <-. split; [reflexivity|]. right. left.
      reflexivity. }
  destruct (User.password stored) as [h|] eqn:P.
  2:{ injection H as <- <-. split; [reflexivity|]. right. right.
      split; [eexists; reflexivity|]. right. exists stored.
      split; [|exact P]. now destruct (StoreFacts.find_Some _ _ _ F). }
  destruct (Bcrypt.compare password h); cbn [negb] in H.
  2:{ injection H as <- <-. split; [reflexivity|]. left. exists 85.
      split; [now right|reflexivity]. }
  destruct (AuthService.generateAccessToken env _ now) as [a|e1] eqn:Ga.
  2:{ injection H as <- <-. split; [reflexivity|]. right. right.
      unfold AuthService.generateAccessToken in Ga.
      rewrite (sign_throws _ _ _ _ _ Ga).
      split; [eexists; reflexivity|]. left. intros [Ca _].
      destruct Ca as (k & Hk & T). unfold Jwt.sign in Ga.
      rewrite Hk, T in Ga. discriminate. }
  destruct (AuthService.generateRefreshToken env _ now) as [t|e1] eqn:Gt.
  2:{ injection H as <- <-. split; [reflexivity|]. right. right.
      unfold AuthService.generateRefreshToken in Gt.
      rewrite (sign_throws _ _ _ _ _ Gt).
      split; [eexists; reflexivity|]. left. intros [_ Ct].
      destruct Ct as (k & Hk & T). unfold Jwt.sign in Gt.
      rewrite Hk, T in Gt. discriminate. }
  discriminate.
Qed.

Lemma login_failure_response_witness :
  ErrorMiddleware.errorHandler true ["email"] "driver"
    (Taxonomy.InvalidCredentialsError (Site.AuthService 85) 7000) 7001
  = (401, ErrorMiddleware.mkBody false 401 "Invalid credentials" "" 7000
            (Some (Site.AuthService 85))).
Proof.
  destruct (login_failure_response true ["email"] "driver" Sample.env
              "carol@x.com" "Wrong@123" 7000 7001 [Sample.carol]
              [Sample.carol]
              (Taxonomy.InvalidCredentialsError (Site.AuthService 85) 7000)
              eq_refl) as (_ & [(line & _ & H) | [H | [[m H] _]]]).
  - reflexivity.
  - discriminate H.
  - discriminate H.
Defined.

(** X28: how a failed registration is answered.  A failure of [register]
    is answered in one of four ways: 409 'Duplicate entry' with the
    detail 'Email already registered', at the instant of the
    registration; 422 'Validation Error' with the messages of the
    validators, joined by commas; 409 'Duplicate Entry' with the first
    key of the violated index; in these three cases nothing is written.
    Or else 500 'Internal Server Error', with the detail of the missing
    secret in development mode only, and then the new user is stored
    all the same.  In development mode the answer names the line that
    built the error: 31 of the service for the first, 28, 33 and 52 of
    the handler for the others. *)
Theorem register_failure_response (development : bool)
    (keyPattern : list string) (driverMessage : string) (env : Env)
    (userData : User.data) (now now' : N) (oid : string) (salt : N)
    (c c' : User.collection) (e : exn) :
  AuthService.register env userData now oid salt c = (Throw e, c') ->
  let answer := ErrorMiddleware.errorHandler development keyPattern
                  driverMessage e now' in
  (c' = c
   /\ answer
      = (409, ErrorMiddleware.mkBody false 409
                Constants.ERROR_MESSAGES.DUPLICATE_ENTRY
                "Email already registered" now
                (if development then Some (Site.AuthService 31)
                 else None)))
  \/ (c' = c
      /\ exists messages,
           messages <> []
           /\ answer
              = (422, ErrorMiddleware.mkBody false 422 "Validation Error"
                        (ErrorMiddleware.join messages) now'
                        (if development then Some (Site.errorMiddleware 28)
                         else None)))
  \/ (c' = c
      /\ answer
         = (409, ErrorMiddleware.mkBody false 409 "Duplicate Entry"
                   (ErrorMiddleware.alreadyExists keyPattern) now'
                   (if development then Some (Site.errorMiddleware 33)
                    else None)))
  \/ (c' = (c ++ [created env userData now oid salt])%list
      /\ answer
         = (500, ErrorMiddleware.mkBody false 500 "Internal Server Error"
                   (if development
                    then "secretOrPrivateKey must have a value" else "")
                   now'
                   (if development then Some (Site.errorMiddleware 52)
                    else None))).
Proof.
  rewrite register_eq. cbv zeta. intro H.
  destruct (User.find _ c) as [u|].
  { injection H as <- <-. left. split; reflexivity. }
  unfold User.create in H. cbv zeta in H.
  destruct (_ ++ _)%list as [|m l] eqn:V.
  2:{ injection H as <- <-. right. left. split; [reflexivity|].
      exists (m :: l). split; [discriminate|reflexivity]. }
  destruct (User.find _ c) as [u|].
  { injection H as <- <-. right. right. left. split; reflexivity. }
  fold (roleOf userData) in H. fold (created env userData now oid salt) in H.
  destruct (AuthService.generateAccessToken env _ now) as [a|e1] eqn:Ga.
  2:{ injection H as <- <-. right. right. right.
      unfold AuthService.generateAccessToken in Ga.
      rewrite (sign_throws _ _ _ _ _ Ga). split; reflexivity. }
  destruct (AuthService.generateRefreshToken env _ now) as [t|e1] eqn:Gt.
  2:{ injection H as <- <-. right. right. right.
      unfold AuthService.generateRefreshToken in Gt.
      rewrite (sign_throws _ _ _ _ _ Gt). split; reflexivity. }
  discriminate.
Qed.

Lemma register_failure_response_witness :
  ErrorMiddleware.errorHandler false ["email"] "driver"
    (ValidationError ["Password must be at least 8 characters"]) 7001
  = (422, ErrorMiddleware.mkBody false 422 "Validation Error"
            "Password must be at least 8 characters" 7001 None).
Proof.
  destruct (register_failure_response false ["email"] "driver" Sample.env
              (User.mkData "Dave" "dave@x.com" "short" None None)
              7000 7001 "da501" 5 [Sample.carol] [Sample.carol]
              (ValidationError ["Password must be at least 8 characters"])
              eq_refl)
    as [[_ H] | [(_ & m & _ & H) | [[_ H] | [_ H]]]];
    try discriminate H.
  reflexivity.
Defined.

(** ** Tasks *)

Module TaskFacts.

Lemma replaceFirst_fst (p : Task.t -> bool) (f : Task.t -> Task.t)
    (c : Task.collection) :
  fst (Task.replaceFirst p f c) = option_map f (List.find p c).
Proof.
  induction c as [|x c IH]; simpl; [reflexivity|].
  destruct (p x); [reflexivity|].
  destruct (Task.replaceFirst p f c). exact IH.
Qed.

Lemma replaceFirst_absent (p : Task.t -> bool) (f : Task.t -> Task.t)
    (c : Task.collection) :
  List.find p c = None -> Task.replaceFirst p f c = (None, c).
Proof.
  induction c as [|x c IH]; simpl; [reflexivity|].
  destruct (p x); [discriminate|]. intro H. now rewrite (IH H).
Qed.

Lemma map_replaceFirst {B : Type} (g : Task.t -> B) (p : Task.t -> bool)
    (f : Task.t -> Task.t) (c : Task.collection) :
  (forall x, g (f x) = g x) ->
  map g (snd (Task.replaceFirst p f c)) = map g c.
Proof.
  intro H. induction c as [|x c IH]; simpl; [reflexivity|].
  destruct (p x); simpl; [now rewrite H|].
  destruct (Task.replaceFirst p f c). simpl in *. now rewrite IH.
Qed.

Lemma filter_replaceFirst (q p : Task.t -> bool) (f : Task.t -> Task.t)
    (c : Task.collection) :
  (forall x, p x = true -> q x = false /\ q (f x) = false) ->
  filter q (snd (Task.replaceFirst p f c)) = filter q c.
Proof.
  intro H. induction c as [|x c IH]; simpl; [reflexivity|].
  destruct (p x) eqn:E; simpl.
  - destruct (H x E) as [-> ->]. reflexivity.
  - destruct (Task.replaceFirst p f c). simpl in *. now rewrite IH.
Qed.

(** With unique ids, no task of id [taskId] remains among the tasks of
    the user once the first is deleted. *)
Lemma filter_discarded (taskId userId : string) (now : N)
    (c : Task.collection) :
  NoDup (map Task._id c) ->
  filter (TaskRepository.ofUser userId)
         (snd (Task.replaceFirst (TaskRepository.ofIdAndUser taskId userId)
                                 (discarded now) c))
  = filter (ofUserBut userId taskId) c.
Proof.
  induction c as [|x c IH]; simpl; [reflexivity|]. intro H.
  inversion H as [|y l Hx Hl]; subst.
  unfold TaskRepository.ofIdAndUser at 1, ofUserBut at 1.
  destruct (String.eqb_spec (Task._id x) taskId) as [E|E]; cbn [andb negb].
  - destruct (TaskRepository.ofUser userId x) eqn:O; cbn [andb snd].
    + cbn [filter].
      assert (K : TaskRepository.ofUser userId (discarded now x) = false)
        by (unfold TaskRepository.ofUser; simpl; apply andb_false_r).
      rewrite K. apply filter_ext_in. intros z Hz. unfold ofUserBut.
      destruct (String.eqb_spec (Task._id z) taskId) as [Ez|_];
        [|now rewrite andb_true_r].
      exfalso. apply Hx. rewrite E, <- Ez. now apply in_map.
    + destruct (Task.replaceFirst _ _ c) as [o r] eqn:R. cbn [snd filter].
      rewrite O. simpl in IH. now apply IH.
  - rewrite andb_true_r.
    destruct (Task.replaceFirst _ _ c) as [o r] eqn:R. cbn [snd filter].
    simpl in IH. rewrite (IH Hl). reflexivity.
Qed.

Lemma find_none_filter (p : Task.t -> bool) (c : Task.collection) :
  filter p c = [] -> List.find p c = None.
Proof.
  induction c as [|x c IH]; simpl; [reflexivity|].
  destruct (p x); [discriminate|exact IH].
Qed.

Lemma filter_filter (p q : Task.t -> bool) (c : Task.collection) :
  filter p (filter q c) = filter (fun x => q x && p x) c.
Proof.
  induction c as [|x c IH]; simpl; [reflexivity|].
  destruct (q x); simpl; [destruct (p x); now rewrite IH|exact IH].
Qed.

End TaskFacts.

(** [getTaskById], branch by branch. *)
Lemma getTaskById_eq (taskId userId : string) (now : N)
    (c : Task.collection) :
  TaskService.getTaskById taskId userId now c =
  match List.find (TaskRepository.ofIdAndUser taskId userId) c with
  | Some x => (Ok (Task.select x), c)
  | None =>
      (Throw (newApiError (Site.TaskService 106) now 404
                          Constants.MORE_MESSAGES.NOT_FOUND
                          "Task not found"), c)
  end.
Proof.
  unfold TaskService.getTaskById. rewrite tryCatch_rethrow.
  unfold bind, TaskRepository.findByIdAndUser.
  rewrite tryCatch_rethrow. unfold TaskRepository.findOne.
  rewrite tryCatch_rethrow. unfold Task.findOne.
  destruct (List.find _ c); reflexivity.
Qed.

(** [deleteTask], branch by branch. *)
Lemma deleteTask_eq (taskId userId : string) (now : N)
    (c : Task.collection) :
  TaskService.deleteTask taskId userId now c =
  match List.find (TaskRepository.ofIdAndUser taskId userId) c with
  | Some _ =>
      (Ok Constants.MORE_MESSAGES.DELETED,
       snd (Task.replaceFirst (TaskRepository.ofIdAndUser taskId userId)
                              (discarded now) c))
  | None =>
      (Throw (newApiError (Site.TaskService 158) now 404
                          Constants.MORE_MESSAGES.NOT_FOUND
                          "Task not found"), c)
  end.
Proof.
  unfold TaskService.deleteTask. rewrite tryCatch_rethrow.
  unfold bind, TaskRepository.softDelete. rewrite !tryCatch_rethrow.
  unfold Task.findOneAndSetIsDeleted.
  change (fun x => Task.setUpdatedAt (Task.setIsDeleted x true) now)
    with (discarded now).
  pose proof (TaskFacts.replaceFirst_fst
                (TaskRepository.ofIdAndUser taskId userId) (discarded now) c)
    as F.
  destruct (List.find _ c) as [x|] eqn:E.
  - destruct (Task.replaceFirst _ _ c) as [o c1]. simpl in F. subst o.
    reflexivity.
  - rewrite (TaskFacts.replaceFirst_absent _ _ _ E). reflexivity.
Qed.

(** X29: a task is read and deleted by its owner only, and deleted
    softly.  For a task id and a user id written as ObjectIds are,
    [getTaskById] writes nothing and returns a stored task of
    that id that belongs to the user and is not deleted, or else throws
    the 404 error.  [deleteTask] removes no document and changes
    nothing of any task but the deletion flag and the update date;
    the tasks of other users stay as they are.  With unique ids, after
    a successful [deleteTask] the task is gone for its owner:
    [getTaskById] and a second [deleteTask] throw the 404 error and
    [findByUser] lists the other tasks of the user. *)
Theorem task_access (taskId userId : string) (now now' : N)
    (c : Task.collection) :
  ObjectId.canonical taskId = true ->
  ObjectId.canonical userId = true ->
  let c' := snd (TaskService.deleteTask taskId userId now c) in
  (forall v c1,
      TaskService.getTaskById taskId userId now c = (Ok v, c1) ->
      c1 = c
      /\ exists x,
           In x c /\ v = Task.select x /\ Task._id x = taskId
           /\ Task.user x = userId /\ Task.isDeleted x = false)
  /\ (forall e c1,
         TaskService.getTaskById taskId userId now c = (Throw e, c1) ->
         c1 = c
         /\ e = newApiError (Site.TaskService 106) now 404
                            "Resource not found" "Task not found")
  /\ map besidesDeletion c' = map besidesDeletion c
  /\ filter (foreign userId) c' = filter (foreign userId) c
  /\ (NoDup (map Task._id c) ->
      fst (TaskService.deleteTask taskId userId now c)
      = Ok "Resource deleted successfully" ->
      TaskService.getTaskById taskId userId now' c'
      = (Throw (newApiError (Site.TaskService 106) now' 404
                            "Resource not found" "Task not found"), c')
      /\ TaskService.deleteTask taskId userId now' c'
         = (Throw (newApiError (Site.TaskService 158) now' 404
                               "Resource not found" "Task not found"), c')
      /\ TaskRepository.findByUser userId c'
         = (Ok (map Task.select (filter (ofUserBut userId taskId) c)), c')).
Proof.
  intros _ _. cbv zeta. split; [|split; [|split; [|split]]].
  - intros v c1. rewrite getTaskById_eq.
    destruct (List.find _ c) as [x|] eqn:E; [|discriminate].
    intro H. injection H as <- <-. split; [reflexivity|].
    exists x. apply find_some in E. destruct E as [Hin E].
    unfold TaskRepository.ofIdAndUser, TaskRepository.ofUser in E.
    apply andb_prop in E. destruct E as [E1 E].
    apply andb_prop in E. destruct E as [E2 E3].
    apply String.eqb_eq in E1, E2. apply Bool.eqb_prop in E3. auto.
  - intros e c1. rewrite getTaskById_eq.
    destruct (List.find _ c) as [x|]; [discriminate|].
    intro H. injection H as <- <-. split; reflexivity.
  - rewrite deleteTask_eq. destruct (List.find _ c); [|reflexivity].
    cbn [snd]. apply TaskFacts.map_replaceFirst. intro x. reflexivity.
  - rewrite deleteTask_eq. destruct (List.find _ c); [|reflexivity].
    cbn [snd]. apply TaskFacts.filter_replaceFirst. intros x Hx.
    unfold TaskRepository.ofIdAndUser, TaskRepository.ofUser in Hx.
    apply andb_prop in Hx. destruct Hx as [_ Hx].
    apply andb_prop in Hx. destruct Hx as [Hx _].
    unfold foreign. cbn [discarded Task.user Task.setIsDeleted
                         Task.setUpdatedAt].
    unfold discarded. simpl. rewrite Hx. split; reflexivity.
  - intros ND. rewrite deleteTask_eq.
    destruct (List.find _ c) as [x|] eqn:E; [|discriminate]. intros _.
    cbn [snd].
    assert (G : List.find (TaskRepository.ofIdAndUser taskId userId)
                  (snd (Task.replaceFirst
                          (TaskRepository.ofIdAndUser taskId userId)
                          (discarded now) c)) = None).
    { apply TaskFacts.find_none_filter.
      assert (Q : forall l,
                 filter (TaskRepository.ofIdAndUser taskId userId) l
                 = filter (fun z => String.eqb (Task._id z) taskId)
                          (filter (TaskRepository.ofUser userId) l)).
      { intro l. rewrite TaskFacts.filter_filter. apply filter_ext.
        intro z. unfold TaskRepository.ofIdAndUser. apply andb_comm. }
      rewrite Q, (TaskFacts.filter_discarded _ _ _ _ ND),
        TaskFacts.filter_filter.
      clear. induction c as [|z c IH]; simpl; [reflexivity|].
      unfold ofUserBut at 1.
      destruct (String.eqb (Task._id z) taskId); simpl.
      - rewrite !andb_false_r. exact IH.
      - rewrite !andb_false_r. exact IH. }
    split; [|split].
    + rewrite getTaskById_eq, G. reflexivity.
    + rewrite deleteTask_eq, G. reflexivity.
    + unfold TaskRepository.findByUser. rewrite tryCatch_rethrow.
      unfold TaskRepository.find. rewrite tryCatch_rethrow.
      unfold Task.findMany.
      rewrite (TaskFacts.filter_discarded _ _ _ _ ND). reflexivity.
Qed.

Lemma task_access_witness :
  let c' := snd (TaskService.deleteTask "660000000000000000000001"
                   SampleHex.carolId 6000 SampleHex.tasks)
  in
  TaskService.getTaskById "660000000000000000000001" SampleHex.carolId
                          7000 c'
  = (Throw (newApiError (Site.TaskService 106) 7000 404
                        "Resource not found" "Task not found"), c')
  /\ TaskRepository.findByUser SampleHex.carolId c'
     = (Ok [Task.select SampleHex.review], c').
Proof.
  destruct (task_access "660000000000000000000001" SampleHex.carolId
              6000 7000 SampleHex.tasks eq_refl eq_refl)
    as (_ & _ & _ & _ & H).
  destruct H as (H1 & _ & H3).
  - repeat constructor; simpl; intuition discriminate.
  - reflexivity.
  - split; [exact H1|exact H3].
Defined.

Lemma count_le (p q : Task.t -> bool) (c : Task.collection) :
  (forall x, p x = true -> q x = true) ->
  (length (filter p c) <= length (filter q c))%nat.
Proof.
  intro H. induction c as [|x c IH]; simpl; [lia|].
  destruct (p x) eqn:E.
  - rewrite (H x E). simpl. lia.
  - destruct (q x); simpl; lia.
Qed.

(** X30: the task statistics add up.  [getTaskStatistics] writes nothing;
    [total] is the number of tasks [findByUser] lists, and [overdue]
    the number [getOverdueTasks] lists, which no completed task is
    among: [overdue + completed <= total].  When the stored statuses
    are the four of the schema, the four counts by status sum to
    [total]. *)
Theorem task_statistics_add_up (userId : string) (now : N)
    (c : Task.collection) :
  exists s,
    TaskService.getTaskStatistics userId now c = (Ok s, c)
    /\ (exists l, TaskRepository.findByUser userId c = (Ok l, c)
                  /\ TaskStats.total s = Z.of_nat (length l))
    /\ (exists l, TaskService.getOverdueTasks userId now c = (Ok l, c)
                  /\ TaskStats.overdue s = Z.of_nat (length l))
    /\ (TaskStats.overdue s + TaskStats.completed (TaskStats.statuses s)
        <= TaskStats.total s)%Z
    /\ (Forall knownStatus c ->
        (TaskStats.pending (TaskStats.statuses s)
         + TaskStats.inProgress (TaskStats.statuses s)
         + TaskStats.completed (TaskStats.statuses s)
         + TaskStats.cancelled (TaskStats.statuses s)
         = TaskStats.total s)%Z).
Proof.
  eexists. split; [reflexivity|]. cbn [TaskStats.total TaskStats.overdue
    TaskStats.statuses TaskStats.pending TaskStats.inProgress
    TaskStats.completed TaskStats.cancelled].
  split; [|split; [|split]].
  - eexists. split; [reflexivity|]. now rewrite length_map.
  - eexists. split; [reflexivity|]. now rewrite length_map.
  - induction c as [|x c IH]; [simpl; lia|]. cbn [filter].
    destruct (TaskRepository.ofUser userId x); cbn [andb]; [|exact IH].
    unfold TaskRepository.late at 1, TaskRepository.hasStatus at 1.
    destruct (String.eqb (Task.status x) Constants.TASK_STATUS.COMPLETED);
      cbn [negb andb Datatypes.length].
    + lia.
    + destruct (match Task.dueDate x with Some d => d <? now | None => false
                end); cbn [Datatypes.length]; lia.
  - intro F. induction F as [|x c Hx F IH]; [reflexivity|]. cbn [filter].
    destruct (TaskRepository.ofUser userId x); cbn [andb]; [|exact IH].
    change (TaskRepository.hasStatus Constants.TASK_STATUS.PENDING x)
      with (String.eqb (Task.status x) Constants.TASK_STATUS.PENDING).
    change (TaskRepository.hasStatus Constants.TASK_STATUS.IN_PROGRESS x)
      with (String.eqb (Task.status x) Constants.TASK_STATUS.IN_PROGRESS).
    change (TaskRepository.hasStatus Constants.TASK_STATUS.COMPLETED x)
      with (String.eqb (Task.status x) Constants.TASK_STATUS.COMPLETED).
    change (TaskRepository.hasStatus Constants.TASK_STATUS.CANCELLED x)
      with (String.eqb (Task.status x) Constants.TASK_STATUS.CANCELLED).
    unfold knownStatus in Hx. cbn [In] in Hx.
    destruct Hx as [<- | [<- | [<- | [<- | []]]]];
      repeat match goal with
             | |- context [String.eqb ?a ?b] =>
                 let v := eval vm_compute in (String.eqb a b) in
                 change (String.eqb a b) with v
             end;
      cbn [Datatypes.length]; lia.
Qed.
